(** * TalkingDB document models: a shallow embedding and its properties

    The development follows the Python package [talkingdb.models.document]:
    runs ([elements/base/base.py]), paragraphs and tables
    ([elements/primitive]), layouts ([layouts/layout.py]) and the document
    with its caches ([document.py]).

    Conventions.
    - A Python [str] is a [string]; its characters are 8-bit code points and
      the texts are ASCII.
    - A Python [int] is a [Z]; a position produced by [range] or [enumerate]
      is a [nat].
    - [Optional[T]] is [option T]; a raised exception is [Raise e].
    - Functions of Python's own library that the package calls but does not
      define ([html.parser], [float], [difflib], [int(_, 16)]) are the
      fields of the class [PyLib]. *)

From Stdlib Require Import ZArith String Ascii List Bool Lia.
From stdpp Require Import base option list gmap strings pretty.

Import ListNotations.
Local Open Scope string_scope.
Local Open Scope list_scope.
Local Open Scope Z_scope.

(** ** Python strings *)

Module PyStr.

Definition len (s : string) : Z := Z.of_nat (String.length s).

(** [s[a:b]] for [0 <= a <= b]. *)
Definition slice (s : string) (a b : Z) : string :=
  String.substring (Z.to_nat a) (Z.to_nat (b - a)) s.

(** [s.startswith(p)] *)
Fixpoint startswith (s p : string) {struct p} : bool :=
  match p, s with
  | EmptyString, _ => true
  | String c p', String d s' => if Ascii.eqb c d then startswith s' p' else false
  | String _ _, EmptyString => false
  end.

(** The least offset at which [sub] occurs in [s]. *)
Fixpoint find_from (s sub : string) : option nat :=
  if startswith s sub then Some 0%nat
  else match s with
       | EmptyString => None
       | String _ s' => S <$> find_from s' sub
       end.

(** [s.find(sub)]: the least offset, or [-1]. *)
Definition find (s sub : string) : Z :=
  match find_from s sub with
  | Some i => Z.of_nat i
  | None => -1
  end.

(** [sub in s] *)
Definition contains (s sub : string) : bool :=
  match find_from s sub with Some _ => true | None => false end.

(** ["".join(l)] *)
Definition join (l : list string) : string := fold_right String.append "" l.

(** [sep.join(l)] *)
Fixpoint join_with (sep : string) (l : list string) : string :=
  match l with
  | [] => ""
  | [x] => x
  | x :: rest => x +:+ sep +:+ join_with sep rest
  end.

Definition of_list (l : list ascii) : string := string_of_list_ascii l.
Definition to_list (s : string) : list ascii := list_ascii_of_string s.

(** [c.isspace()] on ASCII *)
Definition isspace (c : ascii) : bool :=
  let n := nat_of_ascii c in
  ((9 <=? n) && (n <=? 13) || (28 <=? n) && (n <=? 32))%nat.

Definition rev (s : string) : string := of_list (List.rev (to_list s)).

(** [s.lstrip(chars)], with the set of characters as a predicate *)
Fixpoint lstrip_if (f : ascii → bool) (s : string) : string :=
  match s with
  | String c s' => if f c then lstrip_if f s' else s
  | EmptyString => EmptyString
  end.

Definition strip_if (f : ascii → bool) (s : string) : string :=
  rev (lstrip_if f (rev (lstrip_if f s))).

(** [s.strip()] *)
Definition strip (s : string) : string := strip_if isspace s.

(** [c in chars] for a character *)
Fixpoint mem_char (c : ascii) (chars : string) : bool :=
  match chars with
  | EmptyString => false
  | String d rest => Ascii.eqb c d || mem_char c rest
  end.

(** [s.strip(chars)] *)
Definition strip_chars (chars : string) (s : string) : string :=
  strip_if (λ c, mem_char c chars) s.

(** [s.endswith(p)] *)
Definition endswith (s p : string) : bool := startswith (rev s) (rev p).

(** [s.split(sep)] for a one-character separator: the pieces between
    the separators, the empty ones too. *)
Fixpoint split_on (sep : ascii) (s : string) : list string :=
  match s with
  | EmptyString => [EmptyString]
  | String c s' =>
      if Ascii.eqb c sep then EmptyString :: split_on sep s'
      else match split_on sep s' with
           | piece :: rest => String c piece :: rest
           | [] => [String c EmptyString]
           end
  end.

(** [s.split(sep, 1)] for a one-character separator that occurs in [s]:
    the text before the first separator and the text after it. *)
Fixpoint split_once (sep : ascii) (s : string) : string * string :=
  match s with
  | EmptyString => (EmptyString, EmptyString)
  | String c s' =>
      if Ascii.eqb c sep then (EmptyString, s')
      else let '(a, b) := split_once sep s' in (String c a, b)
  end.

(** [s.split()]: the maximal runs of characters that are not white
    space. [cur] is the run being read, reversed. *)
Fixpoint split_ws_go (s : string) (cur : list ascii) : list string :=
  match s with
  | EmptyString =>
      match cur with [] => [] | _ => [of_list (List.rev cur)] end
  | String c s' =>
      if isspace c then
        match cur with
        | [] => split_ws_go s' []
        | _ => of_list (List.rev cur) :: split_ws_go s' []
        end
      else split_ws_go s' (c :: cur)
  end.

Definition split_ws (s : string) : list string := split_ws_go s [].

(** [c] ends a line for [s.splitlines()] (ASCII). *)
Definition is_linebreak (c : ascii) : bool :=
  let n := nat_of_ascii c in
  ((10 <=? n) && (n <=? 13) || (28 <=? n) && (n <=? 30))%nat.

(** [s.splitlines()]: [cur] is the line being read, reversed; a carriage
    return followed by a line feed ends one line. *)
Fixpoint splitlines_go (s : string) (cur : list ascii) : list string :=
  match s with
  | EmptyString =>
      match cur with [] => [] | _ => [of_list (List.rev cur)] end
  | String c s' =>
      if is_linebreak c then
        of_list (List.rev cur) ::
        match s' with
        | String d s'' =>
            if ((nat_of_ascii c =? 13) && (nat_of_ascii d =? 10))%nat
            then splitlines_go s'' []
            else splitlines_go s' []
        | EmptyString => []
        end
      else splitlines_go s' (c :: cur)
  end.

Definition splitlines (s : string) : list string := splitlines_go s [].

Definition map_chars (f : ascii → ascii) (s : string) : string :=
  of_list (f <$> to_list s).

(** [s.upper()] and [s.lower()] on ASCII *)
Definition upper_char (c : ascii) : ascii :=
  let n := nat_of_ascii c in
  if ((97 <=? n) && (n <=? 122))%nat then ascii_of_nat (n - 32) else c.

Definition lower_char (c : ascii) : ascii :=
  let n := nat_of_ascii c in
  if ((65 <=? n) && (n <=? 90))%nat then ascii_of_nat (n + 32) else c.

Definition upper : string → string := map_chars upper_char.
Definition lower : string → string := map_chars lower_char.

(** [bool(s)] *)
Definition nonempty (s : string) : bool :=
  match s with EmptyString => false | String _ _ => true end.

(** The double quote character as a text. *)
Definition dquote : string := String (ascii_of_nat 34) EmptyString.

(** [html.escape(s)] *)
Fixpoint html_escape (s : string) : string :=
  match s with
  | EmptyString => EmptyString
  | String c s' =>
      let n := nat_of_ascii c in
      (if (n =? 38)%nat then "&amp;"
       else if (n =? 60)%nat then "&lt;"
       else if (n =? 62)%nat then "&gt;"
       else if (n =? 34)%nat then "&quot;"
       else if (n =? 39)%nat then "&#x27;"
       else String c EmptyString) +:+ html_escape s'
  end.

Definition is_hex_digit (c : ascii) : bool :=
  let n := nat_of_ascii c in
  ((48 <=? n) && (n <=? 57) || (65 <=? n) && (n <=? 70)
   || (97 <=? n) && (n <=? 102))%nat.

Definition is_digit (c : ascii) : bool :=
  let n := nat_of_ascii c in ((48 <=? n) && (n <=? 57))%nat.

(** The declarative reading of "[sub] is a substring of [s]". *)
Definition occurs_at (i : nat) (sub s : string) : Prop :=
  ∃ pre post, s = pre +:+ sub +:+ post ∧ String.length pre = i.

Definition substring_of (sub s : string) : Prop := ∃ i, occurs_at i sub s.

End PyStr.

(** ** Exceptions *)

Inductive PyError :=
| ValueError | AttributeError | IndexError | TypeError | KeyError.

Inductive result (A : Type) :=
| Ok (a : A)
| Raise (e : PyError).
Arguments Ok {A} a.
Arguments Raise {A} e.

#[global] Instance result_ret : MRet result := λ A a, Ok a.

#[global] Instance result_bind : MBind result := λ A B k r,
  match r with
  | Ok a => k a
  | Raise e => Raise e
  end.

(** [x[...]] or [x.attr] on a value that may be [None]. *)
Definition or_raise {A} (e : PyError) (o : option A) : result A :=
  match o with
  | Some a => Ok a
  | None => Raise e
  end.

(** ** The library around the package *)

Inductive HtmlEvent :=
| StartTag (tag : string) (attrs : list (string * option string))
| EndTag (tag : string)
| Data (data : string).

Class PyLib := {
  (** the type of Python floats *)
  PyFloat : Type;
  (** [float(s)]; [None] stands for [ValueError] *)
  float_of_str : string → option PyFloat;
  (** [bool(x)] *)
  float_truthy : PyFloat → bool;
  (** [f"{x}"] *)
  float_format : PyFloat → string;
  (** the handler calls that [HTMLParser.feed] makes on a text *)
  html_feed : string → list HtmlEvent;
  (** [bool(get_close_matches(name, [pattern], cutoff=0.7))] *)
  close_match : string → string → bool;
  (** [int(s, 16)]; [None] stands for [ValueError] *)
  int_base16 : string → option Z;
  (** [int(s)]; [None] stands for [ValueError] *)
  int_base10 : string → option Z;
}.

(** *** A reference library

    A small instance of [PyLib] on which the model can be run. Floats are
    the whole numbers; [float] and [int] read unsigned digit strings; the
    tokenizer reads tags without attributes; the close match is a prefix
    test. On the texts used in the examples of this file each function
    returns what Python's library returns. *)

Module RefLib.

Definition digit_value (c : ascii) : Z :=
  let n := Z.of_nat (nat_of_ascii c) in
  if (48 <=? n) && (n <=? 57) then n - 48
  else if (65 <=? n) && (n <=? 70) then n - 55
  else n - 87.

Definition read_digits (base : Z) (ok : ascii → bool) (s : string)
  : option Z :=
  match s with
  | EmptyString => None
  | _ =>
      if forallb ok (PyStr.to_list s)
      then Some (foldl (λ acc c, base * acc + digit_value c) 0
                       (PyStr.to_list s))
      else None
  end.

(** The text up to the first [>] and the text after it. *)
Fixpoint read_tag (s : string) : option (string * string) :=
  match s with
  | EmptyString => None
  | String c s' =>
      if Ascii.eqb c ">" then Some (EmptyString, s')
      else '(name, rest) ← read_tag s'; Some (String c name, rest)
  end.

Definition flush (pending : list ascii) : list HtmlEvent :=
  match pending with
  | [] => []
  | _ => [Data (PyStr.of_list (List.rev pending))]
  end.

Definition tag_event (name : string) : HtmlEvent :=
  match name with
  | String "/" name' => EndTag (PyStr.lower name')
  | _ => StartTag (PyStr.lower name) []
  end.

(** [pending] is the text read since the last tag, reversed. *)
Fixpoint tokens (fuel : nat) (s : string) (pending : list ascii)
  : list HtmlEvent :=
  match fuel with
  | O => flush pending
  | S fuel' =>
      match s with
      | EmptyString => flush pending
      | String c s' =>
          if Ascii.eqb c "<" then
            match read_tag s' with
            | Some (name, rest) =>
                flush pending ++ tag_event name :: tokens fuel' rest []
            | None => tokens fuel' s' (c :: pending)
            end
          else tokens fuel' s' (c :: pending)
      end
  end.

Definition feed (s : string) : list HtmlEvent :=
  tokens (String.length s) s [].

Definition lib : PyLib :=
  {| PyFloat := Z;
     float_of_str := read_digits 10 PyStr.is_digit;
     float_truthy := λ x, negb (x =? 0);
     float_format := λ x, pretty x +:+ ".0";
     html_feed := feed;
     close_match := PyStr.startswith;
     int_base16 := read_digits 16 PyStr.is_hex_digit;
     int_base10 := read_digits 10 PyStr.is_digit |}.

End RefLib.

(** ** Placeholders ([placeholders/placeholder.py]) *)

Inductive PlaceholderFutureElement :=
| FUTURE_PARAGRAPH | FUTURE_TABLE | FUTURE_UNKNOWN.

Inductive PlaceholderStatus :=
| MATCHING_PENDING | MATCHES_FOUND | MATCHES_NOT_FOUND
| REPLACEMENT_PENDING | REPLACEMENT_DONE | REPLACEMENT_NOT_FOUND.

#[global] Instance PlaceholderStatus_eq_dec : EqDecision PlaceholderStatus.
Proof. solve_decision. Defined.

#[global] Instance PlaceholderFutureElement_eq_dec :
  EqDecision PlaceholderFutureElement.
Proof. solve_decision. Defined.

(** The fields of [MatchedNode] that the package reads. *)
Record MatchedNode := {
  match_id : string;
  match_heading_path : list string;
  match_filename : string;
}.

(** The fields of [PlaceholderModel] that the document reads. *)
Record PlaceholderModel := {
  ph_id : string;
  ph_text : string;
  ph_status : PlaceholderStatus;
  ph_replaced_text : option string;
  ph_replaced_reference : option (list string);
  ph_replaced_comment : option string;
  ph_deleted : option bool;
  ph_matches : list MatchedNode;
  ph_element_id : option string;
  ph_future_element : PlaceholderFutureElement;
}.

Section Model.
Context `{!PyLib}.

(** ** Runs ([elements/base/base.py]) *)

Record RunAttributes := {
  bold : option bool;
  italic : option bool;
  underline : option bool;
  font_size : option PyFloat;
  font_name : option string;
  font_color : option string;
  subscript : option bool;
  superscript : option bool;
  case : option string;
  styles : option (list string);
  comment_ids : option (list string);
  comment_text : option string;
  tracked_change : option string;
}.

(** [RunAttributes()] *)
Definition RunAttributes_default : RunAttributes :=
  {| bold := None; italic := None; underline := None; font_size := None;
     font_name := None; font_color := None; subscript := None;
     superscript := None; case := None; styles := None;
     comment_ids := None; comment_text := None; tracked_change := None |}.

Record RunModel := {
  run_text : string;
  run_attributes : RunAttributes;
  run_type : string;
  run_id : option string;
}.

(** [RunModel(text=t, attributes=a)] *)
Definition RunModel_new (t : string) (a : RunAttributes) : RunModel :=
  {| run_text := t; run_attributes := a; run_type := "Run"; run_id := None |}.

(** [RunModel.from_text] *)
Definition from_text (t : string) : RunModel :=
  RunModel_new t RunAttributes_default.

(** Attribute assignment [a.field = v] on a fresh copy. *)
Definition set_bold (v : option bool) (a : RunAttributes) : RunAttributes :=
  {| bold := v; italic := italic a; underline := underline a;
     font_size := font_size a; font_name := font_name a;
     font_color := font_color a; subscript := subscript a;
     superscript := superscript a; case := case a; styles := styles a;
     comment_ids := comment_ids a; comment_text := comment_text a;
     tracked_change := tracked_change a |}.

Definition set_italic (v : option bool) (a : RunAttributes) : RunAttributes :=
  {| bold := bold a; italic := v; underline := underline a;
     font_size := font_size a; font_name := font_name a;
     font_color := font_color a; subscript := subscript a;
     superscript := superscript a; case := case a; styles := styles a;
     comment_ids := comment_ids a; comment_text := comment_text a;
     tracked_change := tracked_change a |}.

Definition set_underline (v : option bool) (a : RunAttributes) : RunAttributes :=
  {| bold := bold a; italic := italic a; underline := v;
     font_size := font_size a; font_name := font_name a;
     font_color := font_color a; subscript := subscript a;
     superscript := superscript a; case := case a; styles := styles a;
     comment_ids := comment_ids a; comment_text := comment_text a;
     tracked_change := tracked_change a |}.

Definition set_font_size (v : option PyFloat) (a : RunAttributes) : RunAttributes :=
  {| bold := bold a; italic := italic a; underline := underline a;
     font_size := v; font_name := font_name a; font_color := font_color a;
     subscript := subscript a; superscript := superscript a; case := case a;
     styles := styles a; comment_ids := comment_ids a;
     comment_text := comment_text a; tracked_change := tracked_change a |}.

Definition set_font_name (v : option string) (a : RunAttributes) : RunAttributes :=
  {| bold := bold a; italic := italic a; underline := underline a;
     font_size := font_size a; font_name := v; font_color := font_color a;
     subscript := subscript a; superscript := superscript a; case := case a;
     styles := styles a; comment_ids := comment_ids a;
     comment_text := comment_text a; tracked_change := tracked_change a |}.

Definition set_font_color (v : option string) (a : RunAttributes) : RunAttributes :=
  {| bold := bold a; italic := italic a; underline := underline a;
     font_size := font_size a; font_name := font_name a; font_color := v;
     subscript := subscript a; superscript := superscript a; case := case a;
     styles := styles a; comment_ids := comment_ids a;
     comment_text := comment_text a; tracked_change := tracked_change a |}.

Definition set_subscript (v : option bool) (a : RunAttributes) : RunAttributes :=
  {| bold := bold a; italic := italic a; underline := underline a;
     font_size := font_size a; font_name := font_name a;
     font_color := font_color a; subscript := v;
     superscript := superscript a; case := case a; styles := styles a;
     comment_ids := comment_ids a; comment_text := comment_text a;
     tracked_change := tracked_change a |}.

Definition set_superscript (v : option bool) (a : RunAttributes) : RunAttributes :=
  {| bold := bold a; italic := italic a; underline := underline a;
     font_size := font_size a; font_name := font_name a;
     font_color := font_color a; subscript := subscript a; superscript := v;
     case := case a; styles := styles a; comment_ids := comment_ids a;
     comment_text := comment_text a; tracked_change := tracked_change a |}.

Definition set_case (v : option string) (a : RunAttributes) : RunAttributes :=
  {| bold := bold a; italic := italic a; underline := underline a;
     font_size := font_size a; font_name := font_name a;
     font_color := font_color a; subscript := subscript a;
     superscript := superscript a; case := v; styles := styles a;
     comment_ids := comment_ids a; comment_text := comment_text a;
     tracked_change := tracked_change a |}.

Definition set_styles (v : option (list string)) (a : RunAttributes) : RunAttributes :=
  {| bold := bold a; italic := italic a; underline := underline a;
     font_size := font_size a; font_name := font_name a;
     font_color := font_color a; subscript := subscript a;
     superscript := superscript a; case := case a; styles := v;
     comment_ids := comment_ids a; comment_text := comment_text a;
     tracked_change := tracked_change a |}.

Definition set_comment_text (v : option string) (a : RunAttributes) : RunAttributes :=
  {| bold := bold a; italic := italic a; underline := underline a;
     font_size := font_size a; font_name := font_name a;
     font_color := font_color a; subscript := subscript a;
     superscript := superscript a; case := case a; styles := styles a;
     comment_ids := comment_ids a; comment_text := v;
     tracked_change := tracked_change a |}.

Definition set_tracked_change (v : option string) (a : RunAttributes) : RunAttributes :=
  {| bold := bold a; italic := italic a; underline := underline a;
     font_size := font_size a; font_name := font_name a;
     font_color := font_color a; subscript := subscript a;
     superscript := superscript a; case := case a; styles := styles a;
     comment_ids := comment_ids a; comment_text := comment_text a;
     tracked_change := v |}.

Definition set_run_attributes (a : RunAttributes) (r : RunModel) : RunModel :=
  {| run_text := run_text r; run_attributes := a; run_type := run_type r;
     run_id := run_id r |}.

(** Truth values of optional fields, as [if x:] reads them. *)
Definition truthy_bool (o : option bool) : bool := default false o.

Definition truthy_str (o : option string) : bool :=
  match o with Some s => PyStr.nonempty s | None => false end.

Definition truthy_list {A} (o : option (list A)) : bool :=
  match o with Some (_ :: _) => true | _ => false end.

(** [RunModel.to_text] *)
Definition run_to_text (r : RunModel) (mode : string) : string :=
  let attrs := run_attributes r in
  if String.eqb mode "full" then run_text r
  else if String.eqb mode "wrap" then
    if truthy_bool (subscript attrs) then "<sub>" +:+ run_text r +:+ "</sub>"
    else if truthy_bool (superscript attrs)
         then "<sup>" +:+ run_text r +:+ "</sup>"
         else run_text r
  else if String.eqb mode "drop" then
    if truthy_bool (subscript attrs) || truthy_bool (superscript attrs)
    then "" else run_text r
  else run_text r.

(** The [case_map] of [RunModel.to_html]. *)
Definition case_map (c : string) : option string :=
  if String.eqb c "upper" then Some "uppercase"
  else if String.eqb c "capitalize" then Some "capitalize"
  else if String.eqb c "sentence" then Some "none"
  else None.

(** The CSS declarations of [RunModel.to_html], in the order in which they
    are appended. *)
Definition run_css (attrs : RunAttributes) : list string :=
  (match font_size attrs with
   | Some x => if float_truthy x
               then ["font-size: " +:+ float_format x +:+ "pt"] else []
   | None => []
   end)
  ++ (if truthy_str (font_name attrs)
      then ["font-family: '" +:+ default "" (font_name attrs) +:+ "'"]
      else [])
  ++ (if truthy_str (font_color attrs)
      then ["color: #" +:+ default "" (font_color attrs)] else [])
  ++ (if truthy_bool (underline attrs)
      then ["text-decoration: underline"] else [])
  ++ (if truthy_str (case attrs)
      then match case_map (default "" (case attrs)) with
           | Some m => ["text-transform: " +:+ m]
           | None => []
           end
      else []).

Definition style_attr (attrs : RunAttributes) : string :=
  match run_css attrs with
  | [] => ""
  | css => " style=" +:+ PyStr.dquote +:+ PyStr.join_with "; " css
           +:+ PyStr.dquote
  end.

(** The HTML attributes of [RunModel.to_html]. *)
Definition run_html_attrs (attrs : RunAttributes) : list string :=
  (if truthy_list (styles attrs)
   then ["class=" +:+ PyStr.dquote
         +:+ PyStr.join_with " " (default [] (styles attrs))
         +:+ PyStr.dquote]
   else [])
  ++ (if truthy_list (comment_ids attrs)
      then ["data-comments=" +:+ PyStr.dquote
            +:+ PyStr.join_with " " (default [] (comment_ids attrs))
            +:+ PyStr.dquote]
      else [])
  ++ (if truthy_str (tracked_change attrs)
      then ["data-track=" +:+ PyStr.dquote
            +:+ default "" (tracked_change attrs) +:+ PyStr.dquote]
      else []).

Definition attr_str (attrs : RunAttributes) : string :=
  match run_html_attrs attrs with
  | [] => ""
  | l => " " +:+ PyStr.join_with " " l
  end.

(** [f"<{tag}>{inner}</{tag}>"] *)
Definition wrap_tag (tag inner : string) : string :=
  "<" +:+ tag +:+ ">" +:+ inner +:+ "</" +:+ tag +:+ ">".

(** [RunModel.to_html] *)
Definition run_to_html (r : RunModel) : string :=
  if negb (PyStr.nonempty (run_text r)) then ""
  else
    let wrapped := PyStr.html_escape (run_text r) in
    let attrs := run_attributes r in
    let wrapped :=
      if truthy_bool (bold attrs) then wrap_tag "strong" wrapped
      else wrapped in
    let wrapped :=
      if truthy_bool (italic attrs) then wrap_tag "em" wrapped
      else wrapped in
    let wrapped :=
      if truthy_bool (subscript attrs) then wrap_tag "sub" wrapped
      else wrapped in
    let wrapped :=
      if truthy_bool (superscript attrs) then wrap_tag "sup" wrapped
      else wrapped in
    "<span" +:+ style_attr attrs +:+ attr_str attrs +:+ ">" +:+ wrapped
    +:+ "</span>".

(** [re.match(r"color:([0-9A-Fa-f]{6})", s)]: group 1 of the match. *)
Definition match_color_token (s : string) : option string :=
  if PyStr.startswith s "color:" then
    let rest := PyStr.slice s 6 (PyStr.len s) in
    let digits := PyStr.slice rest 0 6 in
    if (String.length digits =? 6)%nat
       && forallb PyStr.is_hex_digit (PyStr.to_list digits)
    then Some digits else None
  else None.

(** The loop [for s in attrs.styles] of [get_color]. *)
Fixpoint first_color_token (l : list string) : option string :=
  match l with
  | [] => None
  | s :: rest =>
      match match_color_token s with
      | Some m => Some (PyStr.upper m)
      | None => first_color_token rest
      end
  end.

(** [RunModel.get_color] *)
Definition get_color (r : RunModel) : option string :=
  let attrs := run_attributes r in
  if truthy_str (font_color attrs)
  then Some (PyStr.upper (default "" (font_color attrs)))
  else if truthy_list (styles attrs)
  then first_color_token (default [] (styles attrs))
  else None.

(** [RunModel.slice_run] *)
Definition slice_run (run : RunModel) (start end_ : Z) : option RunModel :=
  if (start <? 0) || (end_ >? PyStr.len (run_text run)) || (start >=? end_)
  then None
  else Some (RunModel_new (PyStr.slice (run_text run) start end_)
                          (run_attributes run)).

(** [RunModel.split_run] *)
Definition split_run (run : RunModel) (start end_ : Z)
  : option RunModel * option RunModel * option RunModel :=
  let before := slice_run run 0 start in
  let middle := slice_run run start end_ in
  let after := slice_run run end_ (PyStr.len (run_text run)) in
  (before, middle, after).

(** The dictionary returned by [find_run_window]. *)
Record RunWindow := {
  start_run : nat;
  end_run : nat;
  char_start : Z;
  char_end : Z;
  merged_text : string;
}.

(** [l[i:j]] for positions [i <= j]. *)
Definition list_slice {A} (l : list A) (i j : nat) : list A :=
  take (j - i) (drop i l).

(** The inner loop [for i in range(i, i + count)] of [find_run_window]. *)
Fixpoint scan_starts (texts : list string) (text : string) (w : nat)
    (i count : nat) : option RunWindow :=
  match count with
  | O => None
  | S count' =>
      let merged := PyStr.join (list_slice texts i (i + w)) in
      let idx := PyStr.find merged text in
      if negb (idx =? -1) then
        Some {| start_run := i; end_run := (i + w)%nat;
                char_start := idx; char_end := idx + PyStr.len text;
                merged_text := merged |}
      else scan_starts texts text w (S i) count'
  end.

(** The outer loop [for w in range(w, w + count)]. *)
Fixpoint scan_widths (texts : list string) (text : string) (n : nat)
    (w count : nat) : option RunWindow :=
  match count with
  | O => None
  | S count' =>
      match scan_starts texts text w 0 (n - w + 1) with
      | Some win => Some win
      | None => scan_widths texts text n (S w) count'
      end
  end.

(** [RunModel.find_run_window] *)
Definition find_run_window (runs : list RunModel) (text : string)
  : option RunWindow :=
  let texts := run_text <$> runs in
  let n := length runs in
  scan_widths texts text n 1 n.

(** *** HTML to runs ([_RunHTMLParser]) *)

Record RunHTMLParser := {
  parser_runs : list RunModel;
  parser_stack : list RunAttributes;
}.

(** [_RunHTMLParser()] *)
Definition RunHTMLParser_new : RunHTMLParser :=
  {| parser_runs := []; parser_stack := [RunAttributes_default] |}.

(** [dict(attrs)[k]]: the last pair with key [k], if any. *)
Definition attr_lookup (k : string) (attrs : list (string * option string))
  : option (option string) :=
  snd <$> List.find (λ kv, String.eqb (fst kv) k) (List.rev attrs).

(** The [reverse] table of [_parse_style]. *)
Definition reverse_case (value : string) : option string :=
  if String.eqb value "uppercase" then Some "upper"
  else if String.eqb value "capitalize" then Some "capitalize"
  else None.

(** One turn of the loop of [_parse_style]. *)
Definition parse_style_rule (attrs : RunAttributes) (rule : string)
  : result RunAttributes :=
  if negb (PyStr.contains rule ":") then Ok attrs
  else
    let '(k, v) := PyStr.split_once ":" rule in
    let key := PyStr.strip k in
    let value := PyStr.strip v in
    if String.eqb key "font-size" && PyStr.endswith value "pt" then
      x ← or_raise ValueError
            (float_of_str (PyStr.slice value 0 (PyStr.len value - 2)));
      Ok (set_font_size (Some x) attrs)
    else if String.eqb key "font-family" then
      Ok (set_font_name
            (Some (PyStr.strip_chars ("'" +:+ PyStr.dquote) value)) attrs)
    else if String.eqb key "color" && PyStr.startswith value "#" then
      Ok (set_font_color (Some (PyStr.slice value 1 (PyStr.len value))) attrs)
    else if String.eqb key "text-decoration"
            && PyStr.contains value "underline" then
      Ok (set_underline (Some true) attrs)
    else if String.eqb key "text-transform" then
      Ok (set_case (reverse_case value) attrs)
    else Ok attrs.

(** [_RunHTMLParser._parse_style] *)
Definition parse_style (style : string) (attrs : RunAttributes)
  : result RunAttributes :=
  foldl (λ acc rule, a ← acc; parse_style_rule a rule) (Ok attrs)
        (PyStr.split_on ";" style).

(** The [span] branch of [handle_starttag]. *)
Definition apply_span_attrs (attrs : list (string * option string))
    (current : RunAttributes) : result RunAttributes :=
  current ←
    match attr_lookup "class" attrs with
    | Some cls =>
        c ← or_raise AttributeError cls;
        Ok (set_styles (Some (PyStr.split_ws c)) current)
    | None => Ok current
    end;
  match attr_lookup "style" attrs with
  | Some style =>
      st ← or_raise AttributeError style;
      parse_style st current
  | None => Ok current
  end.

(** [_RunHTMLParser.handle_starttag] *)
Definition handle_starttag (p : RunHTMLParser) (tag : string)
    (attrs : list (string * option string)) : result RunHTMLParser :=
  parent ← or_raise IndexError (last (parser_stack p));
  current ←
    (if String.eqb tag "strong" then Ok (set_bold (Some true) parent)
     else if String.eqb tag "em" then Ok (set_italic (Some true) parent)
     else if String.eqb tag "sub" then Ok (set_subscript (Some true) parent)
     else if String.eqb tag "sup"
          then Ok (set_superscript (Some true) parent)
     else if String.eqb tag "span" then apply_span_attrs attrs parent
     else Ok parent);
  Ok {| parser_runs := parser_runs p;
        parser_stack := parser_stack p ++ [current] |}.

(** [_RunHTMLParser.handle_endtag] *)
Definition handle_endtag (p : RunHTMLParser) (tag : string) : RunHTMLParser :=
  if (1 <? length (parser_stack p))%nat
  then {| parser_runs := parser_runs p;
          parser_stack := removelast (parser_stack p) |}
  else p.

(** [_RunHTMLParser.handle_data] *)
Definition handle_data (p : RunHTMLParser) (data : string)
  : result RunHTMLParser :=
  if negb (PyStr.nonempty data) then Ok p
  else
    top ← or_raise IndexError (last (parser_stack p));
    Ok {| parser_runs := parser_runs p ++ [RunModel_new data top];
          parser_stack := parser_stack p |}.

Definition handle_event (p : RunHTMLParser) (ev : HtmlEvent)
  : result RunHTMLParser :=
  match ev with
  | StartTag tag attrs => handle_starttag p tag attrs
  | EndTag tag => Ok (handle_endtag p tag)
  | Data data => handle_data p data
  end.

(** [RunModel.from_html] *)
Definition from_html (html_text : string) : result (list RunModel) :=
  p ← foldl (λ acc ev, p ← acc; handle_event p ev) (Ok RunHTMLParser_new)
        (html_feed html_text);
  Ok (parser_runs p).

(** *** Editing a list of runs *)

(** [acc.append(x)] when [x] is not [None] *)
Definition append_some {A} (acc : list A) (x : option A) : list A :=
  match x with
  | Some a => acc ++ [a]
  | None => acc
  end.

(** One turn of the loop [for r in merged] of [drop_text]; the state is
    [(offset, out)]. *)
Definition drop_step (cs ce : Z) (st : Z * list RunModel) (r : RunModel)
  : Z * list RunModel :=
  let '(offset, out) := st in
  let r_len := PyStr.len (run_text r) in
  let r_start := Z.max 0 (cs - offset) in
  let r_end := Z.min r_len (ce - offset) in
  let '(before, _, after) := split_run r r_start r_end in
  let out := append_some out before in
  let out := append_some out after in
  (offset + r_len, out).

(** [RunModel.drop_text] *)
Definition drop_text (runs : list RunModel) (text : string) : list RunModel :=
  match find_run_window runs text with
  | None => runs
  | Some win =>
      let sr := start_run win in
      let er := end_run win in
      let cs := char_start win in
      let ce := char_end win in
      let merged := list_slice runs sr er in
      let out := take sr runs in
      let '(_, out) := foldl (drop_step cs ce) (0, out) merged in
      out ++ drop er runs
  end.

(** The state of the loop [for r in merged] of [replace_text]. *)
Record ReplaceLoop := {
  loop_offset : Z;
  before_parts : list RunModel;
  del_parts : list RunModel;
  after_parts : list RunModel;
}.

(** One turn of that loop. *)
Definition replace_step (cs ce : Z) (st : ReplaceLoop) (r : RunModel)
  : ReplaceLoop :=
  let offset := loop_offset st in
  let r_len := PyStr.len (run_text r) in
  let r_start := Z.max 0 (cs - offset) in
  let r_end := Z.min r_len (ce - offset) in
  let '(before, middle, after) := split_run r r_start r_end in
  let middle :=
    (λ m, set_run_attributes
            (set_tracked_change (Some "del") (run_attributes m)) m)
    <$> middle in
  {| loop_offset := offset + r_len;
     before_parts := append_some (before_parts st) before;
     del_parts := append_some (del_parts st) middle;
     after_parts := append_some (after_parts st) after |}.

(** One turn of the loop [for r in inserted]; the state is
    [(out, first_ins)]. *)
Definition insert_step (comment : option string)
    (st : list RunModel * bool) (r : RunModel) : list RunModel * bool :=
  let '(out, first_ins) := st in
  let attrs := set_tracked_change (Some "ins") (run_attributes r) in
  if first_ins && truthy_str comment
  then (out ++ [set_run_attributes (set_comment_text comment attrs) r], false)
  else (out ++ [set_run_attributes attrs r], first_ins).

(** [RunModel.replace_text] *)
Definition replace_text (runs : list RunModel) (text html : string)
    (comment : option string) : result (list RunModel) :=
  match find_run_window runs text with
  | None => Ok runs
  | Some win =>
      let sr := start_run win in
      let er := end_run win in
      let cs := char_start win in
      let ce := char_end win in
      let merged := list_slice runs sr er in
      let out := take sr runs in
      let st := foldl (replace_step cs ce)
                  {| loop_offset := 0; before_parts := [];
                     del_parts := []; after_parts := [] |} merged in
      let out := out ++ before_parts st in
      let out := out ++ del_parts st in
      inserted ← from_html html;
      let '(out, _) := foldl (insert_step comment) (out, true) inserted in
      let out := out ++ after_parts st in
      Ok (out ++ drop er runs)
  end.

(** ** Paragraphs ([elements/primitive/paragraph.py]) *)

(** The line feed as a text. *)
Definition newline : string := String (ascii_of_nat 10) EmptyString.

(** The line of [build_comment_text] for one matched node. *)
Definition source_line (m : MatchedNode) : string :=
  let path :=
    match match_heading_path m with
    | [] => ""
    | hp => PyStr.join_with " > " hp
    end in
  let label :=
    if PyStr.nonempty path then match_filename m +:+ " > " +:+ path
    else match_filename m in
  "- " +:+ label.

(** [build_comment_text] *)
Definition build_comment_text (ph : PlaceholderModel) : option string :=
  if negb (truthy_list (ph_replaced_reference ph)) then None
  else
    let parts :=
      if truthy_str (ph_replaced_comment ph)
      then [default "" (ph_replaced_comment ph)] else [] in
    let ref_set := default [] (ph_replaced_reference ph) in
    let lines :=
      source_line <$>
        filter (λ m, match_id m ∈ ref_set) (ph_matches ph) in
    let parts :=
      match lines with
      | [] => parts
      | _ => parts ++ ["Sources:" +:+ newline +:+ PyStr.join_with newline lines]
      end in
    match parts with
    | [] => None
    | _ => Some (PyStr.join_with (newline +:+ newline) parts)
    end.

(** The field of [ParagraphStyleModel] that the classification reads; the
    formatting fields are read by the HTML rendering of a paragraph only. *)
Record ParagraphStyleModel := {
  style_name : string;
}.

(** [normalize] of [classify_style] *)
Definition normalize (s : string) : string :=
  if PyStr.nonempty s then PyStr.strip (PyStr.lower s) else "".

(** [is_fuzzy_match(name, [pattern])] *)
Definition is_fuzzy_match (name pattern : string) : bool :=
  close_match (normalize name) pattern.

(** The longest prefix of [s] whose characters satisfy [f], and the rest. *)
Fixpoint span_chars (f : ascii → bool) (s : string) : string * string :=
  match s with
  | String c s' =>
      if f c then let '(a, b) := span_chars f s' in (String c a, b)
      else (EmptyString, s)
  | EmptyString => (EmptyString, EmptyString)
  end.

(** The value of a text of decimal digits. *)
Definition decimal_value (digits : string) : Z :=
  foldl (λ acc c, 10 * acc + (Z.of_nat (nat_of_ascii c) - 48)) 0
        (PyStr.to_list digits).

(** A match of [heading\s*(\d+)], letter case ignored, at the start of
    [s]: the value of group 1. *)
Definition match_heading_level (s : string) : option Z :=
  if PyStr.startswith (PyStr.lower s) "heading" then
    let rest := PyStr.slice s 7 (PyStr.len s) in
    let digits := (span_chars PyStr.is_digit
                     (span_chars PyStr.isspace rest).2).1 in
    if PyStr.nonempty digits then Some (decimal_value digits) else None
  else None.

(** [re.search(r"heading\s*(\d+)", s, re.I)]: the match at the least
    position. *)
Fixpoint search_heading_level (s : string) : option Z :=
  match match_heading_level s with
  | Some level => Some level
  | None =>
      match s with
      | EmptyString => None
      | String _ s' => search_heading_level s'
      end
  end.

(** [extract_heading_level] *)
Definition extract_heading_level (style_name : string) : option Z :=
  if negb (PyStr.nonempty style_name) then None
  else search_heading_level style_name.

(** [ParagraphStyleModel.classify_style] *)
Definition classify_style (s : ParagraphStyleModel)
  : option string * option Z :=
  if negb (PyStr.nonempty (style_name s)) then (None, None)
  else
    let name := normalize (style_name s) in
    if is_fuzzy_match name "caption" then (Some "caption", None)
    else if is_fuzzy_match name "heading"
    then (Some "heading", extract_heading_level name)
    else (None, None).

Record ParagraphModel := {
  para_style : option ParagraphStyleModel;
  para_runs : list RunModel;
  para_type : string;
  para_id : option string;
  para_parent_ref_id : option string;
  is_caption : option bool;
  is_heading : option bool;
  heading_level : option Z;
  is_example : option bool;
  is_instruction : option bool;
  is_list : option bool;
  list_type : option string;
  list_level : option Z;
}.

(** [ParagraphModel(style=s, runs=rs)] *)
Definition ParagraphModel_new (s : option ParagraphStyleModel)
    (rs : list RunModel) : ParagraphModel :=
  {| para_style := s; para_runs := rs; para_type := "Paragraph";
     para_id := None; para_parent_ref_id := None;
     is_caption := Some false; is_heading := Some false;
     heading_level := None; is_example := Some false;
     is_instruction := Some false; is_list := Some false;
     list_type := None; list_level := Some 0 |}.

(** [ParagraphModel.from_text] *)
Definition ParagraphModel_from_text (t : string) : ParagraphModel :=
  ParagraphModel_new None [from_text t].

Definition set_para_runs (v : list RunModel) (x : ParagraphModel) : ParagraphModel :=
  {| para_style := para_style x; para_runs := v; para_type := para_type x;
     para_id := para_id x; para_parent_ref_id := para_parent_ref_id x;
     is_caption := is_caption x; is_heading := is_heading x;
     heading_level := heading_level x; is_example := is_example x;
     is_instruction := is_instruction x; is_list := is_list x;
     list_type := list_type x; list_level := list_level x |}.

Definition set_para_parent_ref_id (v : option string) (x : ParagraphModel) : ParagraphModel :=
  {| para_style := para_style x; para_runs := para_runs x;
     para_type := para_type x; para_id := para_id x; para_parent_ref_id := v;
     is_caption := is_caption x; is_heading := is_heading x;
     heading_level := heading_level x; is_example := is_example x;
     is_instruction := is_instruction x; is_list := is_list x;
     list_type := list_type x; list_level := list_level x |}.

Definition set_is_caption (v : option bool) (x : ParagraphModel) : ParagraphModel :=
  {| para_style := para_style x; para_runs := para_runs x;
     para_type := para_type x; para_id := para_id x;
     para_parent_ref_id := para_parent_ref_id x; is_caption := v;
     is_heading := is_heading x; heading_level := heading_level x;
     is_example := is_example x; is_instruction := is_instruction x;
     is_list := is_list x; list_type := list_type x;
     list_level := list_level x |}.

Definition set_is_heading (v : option bool) (x : ParagraphModel) : ParagraphModel :=
  {| para_style := para_style x; para_runs := para_runs x;
     para_type := para_type x; para_id := para_id x;
     para_parent_ref_id := para_parent_ref_id x; is_caption := is_caption x;
     is_heading := v; heading_level := heading_level x;
     is_example := is_example x; is_instruction := is_instruction x;
     is_list := is_list x; list_type := list_type x;
     list_level := list_level x |}.

Definition set_heading_level (v : option Z) (x : ParagraphModel) : ParagraphModel :=
  {| para_style := para_style x; para_runs := para_runs x;
     para_type := para_type x; para_id := para_id x;
     para_parent_ref_id := para_parent_ref_id x; is_caption := is_caption x;
     is_heading := is_heading x; heading_level := v;
     is_example := is_example x; is_instruction := is_instruction x;
     is_list := is_list x; list_type := list_type x;
     list_level := list_level x |}.

Definition set_is_example (v : option bool) (x : ParagraphModel) : ParagraphModel :=
  {| para_style := para_style x; para_runs := para_runs x;
     para_type := para_type x; para_id := para_id x;
     para_parent_ref_id := para_parent_ref_id x; is_caption := is_caption x;
     is_heading := is_heading x; heading_level := heading_level x;
     is_example := v; is_instruction := is_instruction x;
     is_list := is_list x; list_type := list_type x;
     list_level := list_level x |}.

Definition set_is_instruction (v : option bool) (x : ParagraphModel) : ParagraphModel :=
  {| para_style := para_style x; para_runs := para_runs x;
     para_type := para_type x; para_id := para_id x;
     para_parent_ref_id := para_parent_ref_id x; is_caption := is_caption x;
     is_heading := is_heading x; heading_level := heading_level x;
     is_example := is_example x; is_instruction := v; is_list := is_list x;
     list_type := list_type x; list_level := list_level x |}.

(** [ParagraphModel.to_text] *)
Definition para_to_text (p : ParagraphModel) (mode : string) : string :=
  PyStr.join ((λ r, run_to_text r mode) <$> para_runs p).

(** [hex_to_rgb] of [classify_intent]: [Ok None] for a text that has not
    six characters, an exception when [int] refuses a pair. *)
Definition hex_to_rgb (hex_color : string) : result (option (Z * Z * Z)) :=
  let hex_color :=
    PyStr.of_list
      (filter (λ c, c ≠ "#"%char) (PyStr.to_list hex_color)) in
  if negb (String.length hex_color =? 6)%nat then Ok None
  else
    r ← or_raise ValueError (int_base16 (PyStr.slice hex_color 0 2));
    g ← or_raise ValueError (int_base16 (PyStr.slice hex_color 2 4));
    b ← or_raise ValueError (int_base16 (PyStr.slice hex_color 4 6));
    Ok (Some (r, g, b)).

(** The square of [color_distance]. The source compares the floating
    point square root of this integer with the integers 10 and 60; that is
    the comparison of the integer with 100 and 3600. *)
Definition color_distance_sq (c1 c2 : Z * Z * Z) : Z :=
  let '(r1, g1, b1) := c1 in
  let '(r2, g2, b2) := c2 in
  (r1 - r2) * (r1 - r2) + (g1 - g2) * (g1 - g2) + (b1 - b2) * (b1 - b2).

(** The loop [for run in self.runs] of [classify_intent]: the colours of
    the runs, or [Ok None] when the loop returns [None]. *)
Fixpoint collect_colors (runs : list RunModel)
  : result (option (list (Z * Z * Z))) :=
  match runs with
  | [] => Ok (Some [])
  | run :: rest =>
      match get_color run with
      | None => Ok None
      | Some color =>
          if negb (PyStr.nonempty color) then Ok None
          else
            rgb ← hex_to_rgb color;
            match rgb with
            | None => Ok None
            | Some c =>
                match collect_colors rest with
                | Ok (Some colors) => Ok (Some (c :: colors))
                | Ok None => Ok None
                | Raise e => Raise e
                end
            end
      end
  end.

Definition COLOR_THRESHOLD : Z := 60.

(** [ParagraphModel.classify_intent] *)
Definition classify_intent (p : ParagraphModel) : result (option string) :=
  green ← hex_to_rgb "00B050";
  red ← hex_to_rgb "C9211E";
  colors ← collect_colors (para_runs p);
  match colors with
  | None => Ok None
  | Some [] => Ok None
  | Some (base :: others) =>
      if existsb (λ c, color_distance_sq base c >? 10 * 10) (base :: others)
      then Ok None
      else
        green_ref ← or_raise TypeError green;
        red_ref ← or_raise TypeError red;
        if color_distance_sq base green_ref
           <? COLOR_THRESHOLD * COLOR_THRESHOLD
        then Ok (Some "instruction")
        else if color_distance_sq base red_ref
                <? COLOR_THRESHOLD * COLOR_THRESHOLD
        then Ok (Some "example")
        else Ok None
  end.

(** [ParagraphModel.apply_inline_placeholder]: the paragraph after the
    call, and the returned flag. *)
Definition para_apply_inline_placeholder (para : ParagraphModel)
    (ph : PlaceholderModel) : result (ParagraphModel * bool) :=
  if negb (truthy_str (ph_replaced_text ph)) then Ok (para, false)
  else
    let full_text := para_to_text para "full" in
    if negb (PyStr.contains full_text (ph_text ph)) then Ok (para, false)
    else
      let comment_text := build_comment_text ph in
      runs ← replace_text (para_runs para) (ph_text ph)
               (default "" (ph_replaced_text ph)) comment_text;
      Ok (set_para_runs runs para, true).

(** [ParagraphModel.apply_deleted_placeholder] *)
Definition para_apply_deleted_placeholder (para : ParagraphModel)
    (ph : PlaceholderModel) : ParagraphModel * bool :=
  let full_text := para_to_text para "full" in
  if negb (PyStr.contains full_text (ph_text ph)) then (para, false)
  else (set_para_runs (drop_text (para_runs para) (ph_text ph)) para, true).

(** ** Tables ([elements/primitive/table.py]) *)

Record TableCellModel := {
  cell_paragraphs : list ParagraphModel;
  colspan : Z;
  rowspan : Z;
  cell_type : string;
  cell_id : option string;
}.

(** [TableCellModel(paragraphs=ps, rowspan=r, colspan=c)] *)
Definition TableCellModel_new (ps : list ParagraphModel) (c r : Z)
  : TableCellModel :=
  {| cell_paragraphs := ps; colspan := c; rowspan := r;
     cell_type := "TableCell"; cell_id := None |}.

Definition set_cell_paragraphs (ps : list ParagraphModel)
    (c : TableCellModel) : TableCellModel :=
  {| cell_paragraphs := ps; colspan := colspan c; rowspan := rowspan c;
     cell_type := cell_type c; cell_id := cell_id c |}.

(** A slot of a row holds a cell or [None]. *)
Record TableModel := {
  rows : list (list (option TableCellModel));
  table_type : string;
  table_id : option string;
  table_parent_ref_id : option string;
  caption_ref_id : option string;
}.

(** [TableModel(rows=rs)] *)
Definition TableModel_new (rs : list (list (option TableCellModel)))
  : TableModel :=
  {| rows := rs; table_type := "Table"; table_id := None;
     table_parent_ref_id := None; caption_ref_id := None |}.

Definition set_rows (rs : list (list (option TableCellModel)))
    (t : TableModel) : TableModel :=
  {| rows := rs; table_type := table_type t; table_id := table_id t;
     table_parent_ref_id := table_parent_ref_id t;
     caption_ref_id := caption_ref_id t |}.

Definition set_table_parent_ref_id (v : option string) (t : TableModel)
  : TableModel :=
  {| rows := rows t; table_type := table_type t; table_id := table_id t;
     table_parent_ref_id := v; caption_ref_id := caption_ref_id t |}.

Definition set_caption_ref_id (v : option string) (t : TableModel)
  : TableModel :=
  {| rows := rows t; table_type := table_type t; table_id := table_id t;
     table_parent_ref_id := table_parent_ref_id t; caption_ref_id := v |}.

(** [TableModel.get_col_count]; [self.rows[0]] raises on a table with no
    row. *)
Definition get_col_count (t : TableModel) : result Z :=
  row ← or_raise IndexError (rows t !! 0%nat);
  Ok (Z.of_nat (length row)).

(** [sum(cell.colspan for cell in row[:2] if cell)] *)
Definition colspan_sum (row : list (option TableCellModel)) : Z :=
  foldl Z.add 0 (colspan <$> omap id (take 2 row)).

(** [TableModel.get_type] *)
Definition get_type (t : TableModel) : result string :=
  col_count ← get_col_count t;
  row ← or_raise IndexError (rows t !! 0%nat);
  let colspan_count := colspan_sum row in
  if col_count =? 1 then Ok "Layout"
  else if col_count - colspan_count =? 0 then Ok "Keyvalue"
  else Ok "Unknown".

(** [TableCellModel.to_text] *)
Definition cell_to_text (cell : TableCellModel) (mode : string) : string :=
  PyStr.join_with newline
    ((λ p, para_to_text p mode) <$> cell_paragraphs cell).

(** [TableModel.to_text] *)
Definition table_to_text (t : TableModel) (mode : string) : string :=
  PyStr.join_with newline
    ((λ row : list (option TableCellModel),
        PyStr.join_with (String (ascii_of_nat 9) EmptyString)
          ((λ cell : option TableCellModel,
              match cell with
              | None => ""
              | Some c => cell_to_text c mode
              end) <$> row))
     <$> rows t).

(** The loop [for para in cell.paragraphs] of
    [TableCellModel.apply_placeholder]: the first paragraph whose text
    contains the target is edited. *)
Fixpoint cell_replace_first (paras : list ParagraphModel)
    (ph : PlaceholderModel) (comment_text : option string)
  : result (list ParagraphModel * bool) :=
  match paras with
  | [] => Ok ([], false)
  | para :: rest =>
      if PyStr.contains (para_to_text para "full") (ph_text ph) then
        runs ← replace_text (para_runs para) (ph_text ph)
                 (default "" (ph_replaced_text ph)) comment_text;
        Ok (set_para_runs runs para :: rest, true)
      else
        '(rest', done) ← cell_replace_first rest ph comment_text;
        Ok (para :: rest', done)
  end.

(** [TableCellModel.apply_placeholder] *)
Definition cell_apply_placeholder (cell : TableCellModel)
    (ph : PlaceholderModel) : result (TableCellModel * bool) :=
  if negb (truthy_str (ph_replaced_text ph)) then Ok (cell, false)
  else
    let comment_text := build_comment_text ph in
    '(paras, done) ←
      cell_replace_first (cell_paragraphs cell) ph comment_text;
    Ok (set_cell_paragraphs paras cell, done).

(** The loop of [TableCellModel.apply_deleted_placeholder]. *)
Fixpoint cell_drop_first (paras : list ParagraphModel) (text : string)
  : list ParagraphModel * bool :=
  match paras with
  | [] => ([], false)
  | para :: rest =>
      if PyStr.contains (para_to_text para "full") text then
        (set_para_runs (drop_text (para_runs para) text) para :: rest, true)
      else
        let '(rest', done) := cell_drop_first rest text in
        (para :: rest', done)
  end.

(** [TableCellModel.apply_deleted_placeholder] *)
Definition cell_apply_deleted_placeholder (cell : TableCellModel)
    (ph : PlaceholderModel) : TableCellModel * bool :=
  let '(paras, done) := cell_drop_first (cell_paragraphs cell) (ph_text ph) in
  (set_cell_paragraphs paras cell, done).

(** *** Tables from HTML ([_HTMLTableParser]) *)

(** The dictionary of a cell being read. *)
Record ParsedCell := {
  parsed_text : string;
  parsed_rowspan : Z;
  parsed_colspan : Z;
}.

Record HTMLTableParser := {
  tp_rows : list (list ParsedCell);
  tp_current_row : option (list ParsedCell);
  tp_current_cell : option ParsedCell;
  tp_buffer : string;
}.

Definition HTMLTableParser_new : HTMLTableParser :=
  {| tp_rows := []; tp_current_row := None; tp_current_cell := None;
     tp_buffer := "" |}.

(** [int(attrs.get(k, 1))] *)
Definition span_attr (k : string) (attrs : list (string * option string))
  : result Z :=
  match attr_lookup k attrs with
  | None => Ok 1
  | Some None => Raise TypeError
  | Some (Some v) => or_raise ValueError (int_base10 v)
  end.

Definition is_cell_tag (tag : string) : bool :=
  String.eqb tag "td" || String.eqb tag "th".

(** [_HTMLTableParser.handle_starttag] *)
Definition table_handle_starttag (p : HTMLTableParser) (tag : string)
    (attrs : list (string * option string)) : result HTMLTableParser :=
  if String.eqb tag "tr" then
    Ok {| tp_rows := tp_rows p; tp_current_row := Some [];
          tp_current_cell := tp_current_cell p; tp_buffer := tp_buffer p |}
  else if is_cell_tag tag then
    rs ← span_attr "rowspan" attrs;
    cs ← span_attr "colspan" attrs;
    Ok {| tp_rows := tp_rows p; tp_current_row := tp_current_row p;
          tp_current_cell :=
            Some {| parsed_text := ""; parsed_rowspan := rs;
                    parsed_colspan := cs |};
          tp_buffer := "" |}
  else Ok p.

(** [_HTMLTableParser.handle_data] *)
Definition table_handle_data (p : HTMLTableParser) (data : string)
  : HTMLTableParser :=
  match tp_current_cell p with
  | Some _ =>
      {| tp_rows := tp_rows p; tp_current_row := tp_current_row p;
         tp_current_cell := tp_current_cell p;
         tp_buffer := tp_buffer p +:+ data |}
  | None => p
  end.

(** [_HTMLTableParser.handle_endtag] *)
Definition table_handle_endtag (p : HTMLTableParser) (tag : string)
  : result HTMLTableParser :=
  match is_cell_tag tag, tp_current_cell p with
  | true, Some cell =>
      let cell := {| parsed_text := PyStr.strip (tp_buffer p);
                     parsed_rowspan := parsed_rowspan cell;
                     parsed_colspan := parsed_colspan cell |} in
      row ← or_raise AttributeError (tp_current_row p);
      Ok {| tp_rows := tp_rows p; tp_current_row := Some (row ++ [cell]);
            tp_current_cell := None; tp_buffer := "" |}
  | _, _ =>
      match String.eqb tag "tr", tp_current_row p with
      | true, Some row =>
          Ok {| tp_rows := tp_rows p ++ [row]; tp_current_row := None;
                tp_current_cell := tp_current_cell p;
                tp_buffer := tp_buffer p |}
      | _, _ => Ok p
      end
  end.

Definition table_handle_event (p : HTMLTableParser) (ev : HtmlEvent)
  : result HTMLTableParser :=
  match ev with
  | StartTag tag attrs => table_handle_starttag p tag attrs
  | EndTag tag => table_handle_endtag p tag
  | Data data => Ok (table_handle_data p data)
  end.

(** The cell that [_from_html] and [_from_delimited_text] build around a
    text. *)
Definition text_cell (t : string) (c r : Z) : option TableCellModel :=
  Some (TableCellModel_new [ParagraphModel_new None [from_text t]] c r).

(** [TableModel._from_html] *)
Definition table_from_html (html : string) : result TableModel :=
  p ← foldl (λ (acc : result HTMLTableParser) ev,
               p ← acc; table_handle_event p ev)
        (Ok HTMLTableParser_new) (html_feed html);
  Ok (TableModel_new
        ((λ row : list ParsedCell,
            (λ cell, text_cell (parsed_text cell) (parsed_colspan cell)
                       (parsed_rowspan cell)) <$> row)
         <$> tp_rows p)).

(** [TableModel._detect_delimiter] *)
Definition detect_delimiter (line : string) : ascii :=
  if PyStr.mem_char (ascii_of_nat 9) line then ascii_of_nat 9
  else if PyStr.mem_char "|" line then "|"%char
  else ","%char.

(** [TableModel._from_delimited_text] *)
Definition table_from_delimited_text (text : string) : TableModel :=
  let lines :=
    PyStr.strip <$>
      filter (λ l, PyStr.nonempty (PyStr.strip l) = true)
             (PyStr.splitlines text) in
  match lines with
  | [] => TableModel_new []
  | first :: _ =>
      let delimiter := detect_delimiter first in
      TableModel_new
        ((λ line : string,
            (λ part, text_cell (PyStr.strip part) 1 1)
            <$> PyStr.split_on delimiter line)
         <$> lines)
  end.

(** [TableModel.from_html_or_text] *)
Definition table_from_html_or_text (content : string) : result TableModel :=
  let content := PyStr.strip content in
  if negb (PyStr.nonempty content) then Ok (TableModel_new [])
  else if PyStr.contains (PyStr.lower content) "<table"
  then table_from_html content
  else Ok (table_from_delimited_text content).

(** ** Headers, footers and layouts ([layouts/layout.py]) *)

Record HeaderModel := {
  header_runs : list RunModel;
  header_type : string;
  header_id : option string;
}.

Record FooterModel := {
  footer_runs : list RunModel;
  footer_type : string;
  footer_id : option string;
}.

(** The body shared by the [apply_inline_placeholder] methods of
    [HeaderModel] and [FooterModel], on the runs of the object. *)
Definition runs_apply_inline_placeholder (runs : list RunModel)
    (ph : PlaceholderModel) : result (list RunModel * bool) :=
  if negb (truthy_str (ph_replaced_text ph)) then Ok (runs, false)
  else
    let full_text := PyStr.join ((λ r, run_to_text r "full") <$> runs) in
    if negb (PyStr.contains full_text (ph_text ph)) then Ok (runs, false)
    else
      let comment_text := build_comment_text ph in
      runs' ← replace_text runs (ph_text ph)
                (default "" (ph_replaced_text ph)) comment_text;
      Ok (runs', true).

(** The body shared by their [apply_deleted_placeholder] methods. *)
Definition runs_apply_deleted_placeholder (runs : list RunModel)
    (ph : PlaceholderModel) : list RunModel * bool :=
  let full_text := PyStr.join ((λ r, run_to_text r "full") <$> runs) in
  if negb (PyStr.contains full_text (ph_text ph)) then (runs, false)
  else (drop_text runs (ph_text ph), true).

(** [HeaderModel.apply_inline_placeholder] *)
Definition header_apply_inline_placeholder (h : HeaderModel)
    (ph : PlaceholderModel) : result (HeaderModel * bool) :=
  '(runs, done) ← runs_apply_inline_placeholder (header_runs h) ph;
  Ok ({| header_runs := runs; header_type := header_type h;
         header_id := header_id h |}, done).

(** [HeaderModel.apply_deleted_placeholder] *)
Definition header_apply_deleted_placeholder (h : HeaderModel)
    (ph : PlaceholderModel) : HeaderModel * bool :=
  let '(runs, done) := runs_apply_deleted_placeholder (header_runs h) ph in
  ({| header_runs := runs; header_type := header_type h;
      header_id := header_id h |}, done).

(** [FooterModel.apply_inline_placeholder] *)
Definition footer_apply_inline_placeholder (f : FooterModel)
    (ph : PlaceholderModel) : result (FooterModel * bool) :=
  '(runs, done) ← runs_apply_inline_placeholder (footer_runs f) ph;
  Ok ({| footer_runs := runs; footer_type := footer_type f;
         footer_id := footer_id f |}, done).

(** [FooterModel.apply_deleted_placeholder] *)
Definition footer_apply_deleted_placeholder (f : FooterModel)
    (ph : PlaceholderModel) : FooterModel * bool :=
  let '(runs, done) := runs_apply_deleted_placeholder (footer_runs f) ph in
  ({| footer_runs := runs; footer_type := footer_type f;
      footer_id := footer_id f |}, done).

(** [ElementModel = Union[ParagraphModel, TableModel]] *)
Inductive ElementModel :=
| EParagraph (p : ParagraphModel)
| ETable (t : TableModel).

(** [elem.id] *)
Definition element_id (e : ElementModel) : option string :=
  match e with
  | EParagraph p => para_id p
  | ETable t => table_id t
  end.

(** The elements of a layout are objects that the caches of the document
    may still refer to after they have left the layout. So a layout lists
    the addresses of its elements, and the document holds the objects (see
    [doc_objects]). *)
Definition loc := positive.

Record LayoutModel := {
  layout_orientation : string;
  layout_header : option HeaderModel;
  layout_footer : option FooterModel;
  layout_elements : list loc;
  layout_type : string;
  layout_id : option string;
}.

Definition set_layout_header (v : option HeaderModel) (l : LayoutModel)
  : LayoutModel :=
  {| layout_orientation := layout_orientation l; layout_header := v;
     layout_footer := layout_footer l;
     layout_elements := layout_elements l; layout_type := layout_type l;
     layout_id := layout_id l |}.

Definition set_layout_footer (v : option FooterModel) (l : LayoutModel)
  : LayoutModel :=
  {| layout_orientation := layout_orientation l;
     layout_header := layout_header l; layout_footer := v;
     layout_elements := layout_elements l; layout_type := layout_type l;
     layout_id := layout_id l |}.

Definition set_layout_elements (v : list loc) (l : LayoutModel)
  : LayoutModel :=
  {| layout_orientation := layout_orientation l;
     layout_header := layout_header l; layout_footer := layout_footer l;
     layout_elements := v; layout_type := layout_type l;
     layout_id := layout_id l |}.

(** *** Deserialization of a layout *)

(** The values of a deserialization input. *)
#[warnings="-register-all"]
Inductive PyValue :=
| PyNone
| PyBool (b : bool)
| PyInt (n : Z)
| PyText (s : string)
| PyList (l : list PyValue)
| PyDict (d : list (string * PyValue)).

(** [d.get(k)] on a dictionary; on any other value the attribute [get] is
    missing. *)
Definition py_get (data : PyValue) (k : string) : result (option PyValue) :=
  match data with
  | PyDict d => Ok (snd <$> List.find (λ kv, String.eqb (fst kv) k) d)
  | _ => Raise AttributeError
  end.

(** The values that [for el in v] yields. *)
Definition py_iter (v : PyValue) : result (list PyValue) :=
  match v with
  | PyList l => Ok l
  | PyDict d => Ok ((λ kv, PyText (fst kv)) <$> d)
  | PyText s =>
      Ok ((λ c, PyText (String c EmptyString)) <$> PyStr.to_list s)
  | PyNone | PyBool _ | PyInt _ => Raise TypeError
  end.

(** The [LayoutModel] object that [from_dict] builds. The converted fields
    hold the converted objects, an element slot holding the object or
    [None]; the fields that [from_dict_safe] passes on as they are hold the
    values of the dictionary. *)
Record LayoutFromDict := {
  fd_orientation : PyValue;
  fd_header : option HeaderModel;
  fd_footer : option FooterModel;
  fd_elements : list (option ElementModel);
  fd_type : PyValue;
  fd_id : PyValue;
}.

Section FromDict.

(** The [from_dict] class methods of the nested models. *)
Variable HeaderModel_from_dict : PyValue → result HeaderModel.
Variable FooterModel_from_dict : PyValue → result FooterModel.
Variable ParagraphModel_from_dict : PyValue → result ParagraphModel.
Variable TableModel_from_dict : PyValue → result TableModel.

(** [element_from_dict] of [LayoutModel.from_dict]; the function ends
    without a [return] for any other type, which returns [None]. *)
Definition element_from_dict (data : PyValue)
  : result (option ElementModel) :=
  ty ← py_get data "type";
  match ty with
  | Some (PyText t) =>
      if String.eqb t "Paragraph" then
        p ← ParagraphModel_from_dict data; Ok (Some (EParagraph p))
      else if String.eqb t "Table" then
        t ← TableModel_from_dict data; Ok (Some (ETable t))
      else Ok None
  | _ => Ok None
  end.

(** [[element_from_dict(el) for el in els]] *)
Fixpoint elements_from_dicts (els : list PyValue)
  : result (list (option ElementModel)) :=
  match els with
  | [] => Ok []
  | el :: rest =>
      e ← element_from_dict el;
      es ← elements_from_dicts rest;
      Ok (e :: es)
  end.

(** [LayoutModel.from_dict] *)
Definition LayoutModel_from_dict (data : PyValue) : result LayoutFromDict :=
  header_data ← py_get data "header";
  header ←
    match header_data with
    | None | Some PyNone => Ok None
    | Some h => h' ← HeaderModel_from_dict h; Ok (Some h')
    end;
  footer_data ← py_get data "footer";
  footer ←
    match footer_data with
    | None | Some PyNone => Ok None
    | Some f => f' ← FooterModel_from_dict f; Ok (Some f')
    end;
  elements_data ← py_get data "elements";
  els ← py_iter (default (PyList []) elements_data);
  elements ← elements_from_dicts els;
  orientation_data ← py_get data "orientation";
  orientation ← or_raise TypeError orientation_data;
  type_data ← py_get data "type";
  id_data ← py_get data "id";
  Ok {| fd_orientation := orientation; fd_header := header;
        fd_footer := footer; fd_elements := elements;
        fd_type := default (PyText "Layout") type_data;
        fd_id := default PyNone id_data |}.

End FromDict.

(** ** The document ([document.py]) *)

(** What the element index holds for an identifier: the object, named by
    the place it has in the tree. Between two builds of the index no
    method moves an object that has an entry. *)
Inductive ElemRef :=
| RefLayout (i : nat)
| RefHeader (i : nat)
| RefFooter (i : nat)
| RefElement (a : loc)
| RefCell (a : loc) (r c : nat)
| RefCellParagraph (a : loc) (r c k : nat)
| RefRun.

(** [doc_objects] holds the paragraph and table objects by address. An
    address with no object reads as [None]. *)
Record DocumentModel := {
  layouts : list LayoutModel;
  doc_type : string;
  doc_id : option string;
  filename : option string;
  _element_index : gmap string ElemRef;
  _paragraph_index : gmap (option string) loc;
  _paragraph_order : list (option string);
  doc_objects : gmap loc ElementModel;
}.

Definition set_layouts (v : list LayoutModel) (d : DocumentModel)
  : DocumentModel :=
  {| layouts := v; doc_type := doc_type d; doc_id := doc_id d;
     filename := filename d; _element_index := _element_index d;
     _paragraph_index := _paragraph_index d;
     _paragraph_order := _paragraph_order d;
     doc_objects := doc_objects d |}.

Definition set_element_index (v : gmap string ElemRef) (d : DocumentModel)
  : DocumentModel :=
  {| layouts := layouts d; doc_type := doc_type d; doc_id := doc_id d;
     filename := filename d; _element_index := v;
     _paragraph_index := _paragraph_index d;
     _paragraph_order := _paragraph_order d;
     doc_objects := doc_objects d |}.

Definition set_paragraph_index (v : gmap (option string) loc)
    (o : list (option string)) (d : DocumentModel) : DocumentModel :=
  {| layouts := layouts d; doc_type := doc_type d; doc_id := doc_id d;
     filename := filename d; _element_index := _element_index d;
     _paragraph_index := v; _paragraph_order := o;
     doc_objects := doc_objects d |}.

Definition set_doc_objects (v : gmap loc ElementModel) (d : DocumentModel)
  : DocumentModel :=
  {| layouts := layouts d; doc_type := doc_type d; doc_id := doc_id d;
     filename := filename d; _element_index := _element_index d;
     _paragraph_index := _paragraph_index d;
     _paragraph_order := _paragraph_order d; doc_objects := v |}.

(** [DocumentModel.iter_elements] *)
Definition iter_elements (d : DocumentModel) : list loc :=
  layouts d ≫= layout_elements.

(** [DocumentModel._index_element] *)
Definition index_element (id : option string) (ref : ElemRef)
    (index : gmap string ElemRef) : gmap string ElemRef :=
  match id with
  | Some i => if PyStr.nonempty i then <[i := ref]> index else index
  | None => index
  end.

Definition index_runs (runs : list RunModel) (index : gmap string ElemRef)
  : gmap string ElemRef :=
  foldl (λ idx run, index_element (run_id run) RefRun idx) index runs.

(** [foldl] with the position of each item, as [enumerate] gives it. *)
Definition foldl_enum {A B} (f : A → nat → B → A) (a : A) (l : list B) : A :=
  foldl (λ acc ib, f acc ib.1 ib.2) a (imap (λ i b, (i, b)) l).

Definition index_cell (a : loc) (r c : nat) (cell : option TableCellModel)
    (index : gmap string ElemRef) : gmap string ElemRef :=
  match cell with
  | None => index
  | Some cell =>
      let index := index_element (cell_id cell) (RefCell a r c) index in
      foldl_enum
        (λ idx k para,
           index_runs (para_runs para)
             (index_element (para_id para) (RefCellParagraph a r c k) idx))
        index (cell_paragraphs cell)
  end.

(** The body of the loop [for elem in layout.elements] of
    [_build_element_index]. *)
Definition index_object (objects : gmap loc ElementModel) (a : loc)
    (index : gmap string ElemRef) : gmap string ElemRef :=
  match objects !! a with
  | Some (ETable t) =>
      let index := index_element (table_id t) (RefElement a) index in
      foldl_enum
        (λ idx r row, foldl_enum (λ idx c cell, index_cell a r c cell idx)
                        idx row)
        index (rows t)
  | Some (EParagraph p) =>
      let index := index_element (para_id p) (RefElement a) index in
      index_runs (para_runs p) index
  | None => index
  end.

Definition index_layout (objects : gmap loc ElementModel) (i : nat)
    (layout : LayoutModel) (index : gmap string ElemRef)
  : gmap string ElemRef :=
  let index := index_element (layout_id layout) (RefLayout i) index in
  let index :=
    match layout_header layout with
    | Some h => index_element (header_id h) (RefHeader i) index
    | None => index
    end in
  let index :=
    match layout_footer layout with
    | Some f => index_element (footer_id f) (RefFooter i) index
    | None => index
    end in
  foldl (λ idx a, index_object objects a idx) index (layout_elements layout).

(** [DocumentModel._build_element_index] *)
Definition _build_element_index (d : DocumentModel) : DocumentModel :=
  set_element_index
    (foldl_enum (λ idx i layout, index_layout (doc_objects d) i layout idx)
       ∅ (layouts d))
    d.

(** [DocumentModel._build_paragraph_index] *)
Definition _build_paragraph_index (d : DocumentModel) : DocumentModel :=
  let '(index, order) :=
    foldl (λ (acc : gmap (option string) loc * list (option string)) a,
             match doc_objects d !! a with
             | Some (EParagraph p) =>
                 (<[para_id p := a]> acc.1, acc.2 ++ [para_id p])
             | _ => acc
             end)
          (∅, []) (iter_elements d) in
  set_paragraph_index index order d.

(** [DocumentModel.invalidate_paragraph_index] *)
Definition invalidate_paragraph_index (d : DocumentModel) : DocumentModel :=
  set_paragraph_index ∅ [] d.

(** [DocumentModel.invalidate_index] *)
Definition invalidate_index (d : DocumentModel) : DocumentModel :=
  set_element_index ∅ d.

(** [DocumentModel.get_element_by_id]: the document after the call and
    the entry found. *)
Definition get_element_by_id (d : DocumentModel) (element_id : option string)
  : DocumentModel * option ElemRef :=
  let d :=
    if decide (_element_index d = ∅) then _build_element_index d else d in
  (d, i ← element_id; _element_index d !! i).

(** The position of the first [x] in [l], as [l.index(x)] finds it. *)
Fixpoint list_index {A} `{EqDecision A} (x : A) (l : list A) : option nat :=
  match l with
  | [] => None
  | y :: rest => if decide (y = x) then Some 0%nat
                 else S <$> list_index x rest
  end.

(** The loop over the following (or preceding) paragraphs of
    [get_next_paragraph_text] and [get_prev_paragraph_text]. *)
Fixpoint first_text (d : DocumentModel) (ids : list (option string))
  : result (option string) :=
  match ids with
  | [] => Ok None
  | next_id :: rest =>
      a ← or_raise KeyError (_paragraph_index d !! next_id);
      match doc_objects d !! a with
      | Some (EParagraph next_para) =>
          if truthy_bool (is_heading next_para)
             || truthy_bool (is_caption next_para)
          then Ok None
          else
            let text := para_to_text next_para "full" in
            if PyStr.nonempty text then Ok (Some (PyStr.strip text))
            else first_text d rest
      | Some (ETable t) =>
          let text := table_to_text t "full" in
          if PyStr.nonempty text then Ok (Some (PyStr.strip text))
          else first_text d rest
      | None => Raise AttributeError
      end
  end.

(** [DocumentModel.get_next_paragraph_text] *)
Definition get_next_paragraph_text (d : DocumentModel) (para_id : string)
  : DocumentModel * result (option string) :=
  let d :=
    match _paragraph_order d with
    | [] => _build_paragraph_index d
    | _ => d
    end in
  match list_index (Some para_id) (_paragraph_order d) with
  | None => (d, Ok None)
  | Some idx => (d, first_text d (drop (S idx) (_paragraph_order d)))
  end.

(** [DocumentModel.get_prev_paragraph_text] *)
Definition get_prev_paragraph_text (d : DocumentModel) (para_id : string)
  : DocumentModel * result (option string) :=
  let d :=
    match _paragraph_order d with
    | [] => _build_paragraph_index d
    | _ => d
    end in
  match list_index (Some para_id) (_paragraph_order d) with
  | None => (d, Ok None)
  | Some idx => (d, first_text d (reverse (take idx (_paragraph_order d))))
  end.

(** *** The hierarchy builder *)

(** The variables of the loop of [build_hierarchy]. *)
Record HierarchyState := {
  hs_objects : gmap loc ElementModel;
  heading_stack : gmap Z (option string);
  last_heading_id : option string;
  last_caption_id : option string;
}.

(** The loop [for l in range(l, l - count, -1)] that looks for the
    parent of a heading. *)
Fixpoint nearest_heading (stack : gmap Z (option string)) (l : Z)
    (count : nat) : option string :=
  match count with
  | O => None
  | S count' =>
      match stack !! l with
      | Some parent => parent
      | None => nearest_heading stack (l - 1) count'
      end
  end.

(** The flags that follow [classify_intent]. *)
Definition mark_intent (p : ParagraphModel) : result ParagraphModel :=
  intent ← classify_intent p;
  let p :=
    if decide (intent = Some "instruction")
    then set_is_instruction (Some true) p else p in
  let p :=
    if decide (intent = Some "example")
    then set_is_example (Some true) p else p in
  Ok p.

(** Monadic map over a list, from left to right. *)
Fixpoint mapM_result {A B} (f : A → result B) (l : list A)
  : result (list B) :=
  match l with
  | [] => Ok []
  | x :: rest => y ← f x; ys ← mapM_result f rest; Ok (y :: ys)
  end.

(** The loops over the rows, cells and paragraphs of a table in
    [build_hierarchy]; [cell.paragraphs] raises on an empty slot. *)
Definition mark_intent_rows (rs : list (list (option TableCellModel)))
  : result (list (list (option TableCellModel))) :=
  mapM_result
    (mapM_result
       (λ slot : option TableCellModel,
          cell ← or_raise AttributeError slot;
          paras ← mapM_result mark_intent (cell_paragraphs cell);
          Ok (Some (set_cell_paragraphs paras cell))))
    rs.

(** The heading branch. *)
Definition hierarchy_heading (st : HierarchyState) (a : loc)
    (elem : ParagraphModel) (level : Z) : HierarchyState :=
  let elem := set_is_heading (Some true) elem in
  let elem := set_heading_level (Some level) elem in
  let parent :=
    nearest_heading (heading_stack st) (level - 1) (Z.to_nat (level - 1)) in
  let elem := set_para_parent_ref_id parent elem in
  let stack := <[level := para_id elem]> (heading_stack st) in
  let stack := filter (λ kv, ¬ (kv.1 > level)) stack in
  {| hs_objects := <[a := EParagraph elem]> (hs_objects st);
     heading_stack := stack;
     last_heading_id := para_id elem;
     last_caption_id := None |}.

(** The body of the loop [for elem in self.iter_elements()]. *)
Definition hierarchy_step (st : HierarchyState) (a : loc)
  : result HierarchyState :=
  match hs_objects st !! a with
  | Some (EParagraph elem) =>
      style ← or_raise AttributeError (para_style elem);
      let '(kind, level) := classify_style style in
      if bool_decide (kind = Some "heading")
         && negb (bool_decide (default 0 level = 0))
      then Ok (hierarchy_heading st a elem (default 0 level))
      else if decide (kind = Some "caption") then
        let elem := set_is_caption (Some true) elem in
        let elem := set_para_parent_ref_id (last_heading_id st) elem in
        Ok {| hs_objects := <[a := EParagraph elem]> (hs_objects st);
              heading_stack := heading_stack st;
              last_heading_id := last_heading_id st;
              last_caption_id := para_id elem |}
      else
        elem ← mark_intent elem;
        let elem := set_para_parent_ref_id (last_heading_id st) elem in
        Ok {| hs_objects := <[a := EParagraph elem]> (hs_objects st);
              heading_stack := heading_stack st;
              last_heading_id := last_heading_id st;
              last_caption_id := None |}
  | Some (ETable elem) =>
      let elem := set_table_parent_ref_id (last_heading_id st) elem in
      let elem :=
        if truthy_str (last_caption_id st)
        then set_caption_ref_id (last_caption_id st) elem else elem in
      rs ← mark_intent_rows (rows elem);
      Ok {| hs_objects := <[a := ETable (set_rows rs elem)]> (hs_objects st);
            heading_stack := heading_stack st;
            last_heading_id := last_heading_id st;
            last_caption_id := None |}
  | None => Ok st
  end.

(** [DocumentModel.build_hierarchy] *)
Definition build_hierarchy (d : DocumentModel) : result DocumentModel :=
  st ← foldl (λ (acc : result HierarchyState) a,
                st ← acc; hierarchy_step st a)
        (Ok {| hs_objects := doc_objects d; heading_stack := ∅;
               last_heading_id := None; last_caption_id := None |})
        (iter_elements d);
  Ok (set_doc_objects (hs_objects st) d).

(** *** The placeholder mutation engine *)

(** [mutations.ElementReplacement] *)
Record ElementReplacement := {
  old_element_id : option string;
  new_elements : list ElementModel;
}.

(** [resolver.resolve_structural_replacement], on a paragraph *)
Definition resolve_structural_replacement (element : ParagraphModel)
    (ph : PlaceholderModel) : result (option ElementReplacement) :=
  if negb (bool_decide (ph_future_element ph = FUTURE_TABLE)) then Ok None
  else if negb (truthy_str (ph_replaced_text ph)) then Ok None
  else
    table ← table_from_html_or_text (default "" (ph_replaced_text ph));
    let table :=
      set_table_parent_ref_id (para_parent_ref_id element) table in
    Ok (Some {| old_element_id := para_id element;
                new_elements := [ETable table] |}).

(** The object behind an entry of the element index, by the class that
    [apply_placeholders] tests for. *)
Inductive Target :=
| TargetParagraph (p : ParagraphModel)
| TargetCell (c : TableCellModel)
| TargetHeader (h : HeaderModel)
| TargetFooter (f : FooterModel)
| TargetOther.

Definition table_cell (t : TableModel) (r c : nat) : option TableCellModel :=
  row ← rows t !! r; slot ← row !! c; slot.

Definition object_cell (d : DocumentModel) (a : loc) (r c : nat)
  : option TableCellModel :=
  match doc_objects d !! a with
  | Some (ETable t) => table_cell t r c
  | _ => None
  end.

Definition deref (d : DocumentModel) (ref : ElemRef) : Target :=
  match ref with
  | RefHeader i =>
      match layouts d !! i ≫= layout_header with
      | Some h => TargetHeader h
      | None => TargetOther
      end
  | RefFooter i =>
      match layouts d !! i ≫= layout_footer with
      | Some f => TargetFooter f
      | None => TargetOther
      end
  | RefElement a =>
      match doc_objects d !! a with
      | Some (EParagraph p) => TargetParagraph p
      | _ => TargetOther
      end
  | RefCell a r c =>
      match object_cell d a r c with
      | Some cell => TargetCell cell
      | None => TargetOther
      end
  | RefCellParagraph a r c k =>
      match object_cell d a r c ≫= λ cell, cell_paragraphs cell !! k with
      | Some p => TargetParagraph p
      | None => TargetOther
      end
  | RefLayout _ | RefRun => TargetOther
  end.

(** The document after an assignment to an attribute of the object behind
    an entry. *)
Definition update_cell (d : DocumentModel) (a : loc) (r c : nat)
    (f : TableCellModel → TableCellModel) : DocumentModel :=
  match doc_objects d !! a with
  | Some (ETable t) =>
      set_doc_objects
        (<[a := ETable (set_rows (alter (alter (fmap f) c) r (rows t)) t)]>
           (doc_objects d)) d
  | _ => d
  end.

Definition store_paragraph (d : DocumentModel) (ref : ElemRef)
    (p : ParagraphModel) : DocumentModel :=
  match ref with
  | RefElement a =>
      set_doc_objects (<[a := EParagraph p]> (doc_objects d)) d
  | RefCellParagraph a r c k =>
      update_cell d a r c
        (λ cell, set_cell_paragraphs (<[k := p]> (cell_paragraphs cell)) cell)
  | _ => d
  end.

Definition store_cell (d : DocumentModel) (ref : ElemRef)
    (cell : TableCellModel) : DocumentModel :=
  match ref with
  | RefCell a r c => update_cell d a r c (λ _, cell)
  | _ => d
  end.

Definition store_header (d : DocumentModel) (ref : ElemRef)
    (h : HeaderModel) : DocumentModel :=
  match ref with
  | RefHeader i =>
      set_layouts (alter (set_layout_header (Some h)) i (layouts d)) d
  | _ => d
  end.

Definition store_footer (d : DocumentModel) (ref : ElemRef)
    (f : FooterModel) : DocumentModel :=
  match ref with
  | RefFooter i =>
      set_layouts (alter (set_layout_footer (Some f)) i (layouts d)) d
  | _ => d
  end.

(** The branch [if ph.deleted] of [apply_placeholders], for an element
    that was found. *)
Definition apply_deleted (d : DocumentModel) (ref : ElemRef)
    (ph : PlaceholderModel) : DocumentModel :=
  match deref d ref with
  | TargetParagraph p =>
      store_paragraph d ref (para_apply_deleted_placeholder p ph).1
  | TargetCell c =>
      store_cell d ref (cell_apply_deleted_placeholder c ph).1
  | TargetHeader h =>
      store_header d ref (header_apply_deleted_placeholder h ph).1
  | TargetFooter f =>
      store_footer d ref (footer_apply_deleted_placeholder f ph).1
  | TargetOther => d
  end.

(** The branch for a placeholder whose replacement is done, for an
    element that was found. *)
Definition apply_replacement_done (d : DocumentModel)
    (structural_ops : list ElementReplacement) (ref : ElemRef)
    (ph : PlaceholderModel)
  : result (DocumentModel * list ElementReplacement) :=
  match deref d ref with
  | TargetHeader h =>
      '(h', _) ← header_apply_inline_placeholder h ph;
      Ok (store_header d ref h', structural_ops)
  | TargetFooter f =>
      '(f', _) ← footer_apply_inline_placeholder f ph;
      Ok (store_footer d ref f', structural_ops)
  | TargetParagraph p =>
      op ← resolve_structural_replacement p ph;
      match op with
      | Some op => Ok (d, structural_ops ++ [op])
      | None =>
          '(p', _) ← para_apply_inline_placeholder p ph;
          Ok (store_paragraph d ref p', structural_ops)
      end
  | TargetCell c =>
      '(c', _) ← cell_apply_placeholder c ph;
      Ok (store_cell d ref c', structural_ops)
  | TargetOther => Ok (d, structural_ops)
  end.

(** The body of the loop [for ph in placeholders]. *)
Definition placeholder_step (st : DocumentModel * list ElementReplacement)
    (ph : PlaceholderModel)
  : result (DocumentModel * list ElementReplacement) :=
  let '(d, structural_ops) := st in
  if truthy_bool (ph_deleted ph) then
    let '(d, element) := get_element_by_id d (ph_element_id ph) in
    match element with
    | None => Ok (d, structural_ops)
    | Some ref => Ok (apply_deleted d ref ph, structural_ops)
    end
  else if negb (bool_decide (ph_status ph = REPLACEMENT_DONE))
  then Ok (d, structural_ops)
  else
    let '(d, element) := get_element_by_id d (ph_element_id ph) in
    match element with
    | None => Ok (d, structural_ops)
    | Some ref => apply_replacement_done d structural_ops ref ph
    end.

(** The position of the first element of a layout whose [id] is [old];
    [elem.id] raises on [None]. *)
Fixpoint find_element_slot (objects : gmap loc ElementModel)
    (old : option string) (elems : list loc) : result (option nat) :=
  match elems with
  | [] => Ok None
  | a :: rest =>
      match objects !! a with
      | None => Raise AttributeError
      | Some e =>
          if decide (element_id e = old) then Ok (Some 0%nat)
          else
            idx ← find_element_slot objects old rest;
            Ok (S <$> (idx : option nat))
      end
  end.

(** An address that is not in use. *)
Definition fresh_loc (objects : gmap loc ElementModel) (used : list loc)
  : loc :=
  Pos.succ (foldr Pos.max
              (map_fold (λ a _ m, Pos.max a m) 1%positive objects) used).

(** The new objects enter the store. *)
Fixpoint allocate (objects : gmap loc ElementModel) (used : list loc)
    (new : list ElementModel) : gmap loc ElementModel * list loc :=
  match new with
  | [] => (objects, [])
  | e :: rest =>
      let a := fresh_loc objects used in
      let '(objects', locs) := allocate (<[a := e]> objects) used rest in
      (objects', a :: locs)
  end.

(** The loop [for layout in self.layouts] of [_apply_replacement]: the
    store and the layouts after the splice, or [None] when no element has
    the identifier. *)
Fixpoint replace_in_layouts (objects : gmap loc ElementModel)
    (used : list loc) (op : ElementReplacement) (ls : list LayoutModel)
  : result (option (gmap loc ElementModel * list LayoutModel)) :=
  match ls with
  | [] => Ok None
  | layout :: rest =>
      let elems := layout_elements layout in
      slot ← find_element_slot objects (old_element_id op) elems;
      match slot with
      | Some idx =>
          let '(objects', locs) :=
            allocate objects used (new_elements op) in
          Ok (Some (objects',
                    set_layout_elements
                      (take idx elems ++ locs ++ drop (S idx) elems) layout
                    :: rest))
      | None =>
          r ← replace_in_layouts objects used op rest;
          Ok ((λ ol : gmap loc ElementModel * list LayoutModel,
                 (ol.1, layout :: ol.2))
              <$> (r : option (gmap loc ElementModel * list LayoutModel)))
      end
  end.

(** [DocumentModel._apply_replacement] *)
Definition _apply_replacement (d : DocumentModel) (op : ElementReplacement)
  : result DocumentModel :=
  r ← replace_in_layouts (doc_objects d) (iter_elements d) op (layouts d);
  match r with
  | Some (objects, ls) => Ok (set_layouts ls (set_doc_objects objects d))
  | None => Ok d
  end.

(** [DocumentModel.apply_placeholders] *)
Definition apply_placeholders (d : DocumentModel)
    (placeholders : list PlaceholderModel) : result DocumentModel :=
  match placeholders with
  | [] => Ok d
  | _ =>
      let d := _build_element_index d in
      '(d, structural_ops) ←
        foldl (λ (acc : result (DocumentModel * list ElementReplacement)) ph,
                 st ← acc; placeholder_step st ph)
              (Ok (d, [])) placeholders;
      d ← foldl (λ (acc : result DocumentModel) op,
                   d ← acc; _apply_replacement d op)
            (Ok d) structural_ops;
      Ok (invalidate_index d)
  end.


(** ** The rows of a table ([TableModel.get_rows]) *)

(** [l[:m]] and [l[m:]] for an integer [m], which counts from the end when
    it is negative. *)
Definition py_take {A} (m : Z) (l : list A) : list A :=
  if m <? 0 then take (Z.to_nat (Z.of_nat (length l) + m)) l
  else take (Z.to_nat m) l.

Definition py_drop {A} (m : Z) (l : list A) : list A :=
  if m <? 0 then drop (Z.to_nat (Z.of_nat (length l) + m)) l
  else drop (Z.to_nat m) l.

(** [max((cell.rowspan for cell in row if cell), default=1)] *)
Definition max_rowspan (row : list (option TableCellModel)) : Z :=
  match rowspan <$> omap id row with
  | [] => 1
  | x :: xs => foldl Z.max x xs
  end.

(** [TableModel.get_row_count] *)
Definition get_row_count (t : TableModel) : Z := Z.of_nat (length (rows t)).

(** The loop [for row in self.rows] of the branch of [get_rows] for a
    table of keys and values: the first two slots of each row. *)
Definition keyvalue_columns (rs : list (list (option TableCellModel)))
  : result (list (option TableCellModel * option TableCellModel)) :=
  mapM_result
    (λ row : list (option TableCellModel),
       h ← or_raise IndexError (row !! 0%nat);
       b ← or_raise IndexError (row !! 1%nat);
       Ok (h, b))
    rs.

(** [TableModel.get_rows] *)
Definition get_rows (t : TableModel) (mode : string)
  : result (list (list (option TableCellModel))) :=
  match rows t with
  | [] => Ok []
  | first :: _ =>
      ty ← get_type t;
      '(header_rows, body_rows) ←
        (if String.eqb ty "Keyvalue" then
           match keyvalue_columns (rows t) with
           | Ok cols => Ok ([fst <$> cols], [snd <$> cols])
           | Raise e => Raise e
           end
         else
           let max_header_rows := max_rowspan first in
           Ok (py_take max_header_rows (rows t),
               py_drop max_header_rows (rows t)));
      if String.eqb mode "all" then Ok (rows t)
      else if String.eqb mode "header" then Ok header_rows
      else if String.eqb mode "body" then Ok body_rows
      else Ok []
  end.

(** [TableModel.get_body_count] *)
Definition get_body_count (t : TableModel) : result Z :=
  body ← get_rows t "body";
  Ok (Z.of_nat (length body)).

(** ** Identifiers ([assign_ids]) *)

(** [make_id]; the index is the position that [enumerate] gives. *)
Definition make_id (parent_id kind : string) (index : nat) : string :=
  parent_id +:+ ":" +:+ kind +:+ "::" +:+ pretty index.

(** [RunModel.assign_ids] *)
Definition run_assign_ids (parent_id : string) (index : nat) (r : RunModel)
  : RunModel :=
  {| run_text := run_text r; run_attributes := run_attributes r;
     run_type := run_type r;
     run_id := Some (make_id parent_id "run" index) |}.

(** The loop [for i, run in enumerate(self.runs)]. *)
Definition runs_assign_ids (parent_id : string) (runs : list RunModel)
  : list RunModel :=
  imap (run_assign_ids parent_id) runs.

(** [ParagraphModel.assign_ids] *)
Definition para_assign_ids (parent_id : string) (index : nat)
    (p : ParagraphModel) : ParagraphModel :=
  let id := make_id parent_id "para" index in
  {| para_style := para_style p;
     para_runs := runs_assign_ids id (para_runs p);
     para_type := para_type p; para_id := Some id;
     para_parent_ref_id := para_parent_ref_id p;
     is_caption := is_caption p; is_heading := is_heading p;
     heading_level := heading_level p; is_example := is_example p;
     is_instruction := is_instruction p; is_list := is_list p;
     list_type := list_type p; list_level := list_level p |}.

(** [TableCellModel.assign_ids] *)
Definition cell_assign_ids (parent_id : string) (row col : nat)
    (cell : TableCellModel) : TableCellModel :=
  let id :=
    parent_id +:+ ":row::" +:+ pretty row +:+ ":cell::" +:+ pretty col in
  {| cell_paragraphs := imap (para_assign_ids id) (cell_paragraphs cell);
     colspan := colspan cell; rowspan := rowspan cell;
     cell_type := cell_type cell; cell_id := Some id |}.

(** [TableModel.assign_ids]; an empty slot is passed over. *)
Definition table_assign_ids (parent_id : string) (index : nat)
    (t : TableModel) : TableModel :=
  let id := make_id parent_id "table" index in
  {| rows :=
       imap (λ r (row : list (option TableCellModel)),
               imap (λ c (slot : option TableCellModel),
                       cell_assign_ids id r c <$> slot) row)
            (rows t);
     table_type := table_type t; table_id := Some id;
     table_parent_ref_id := table_parent_ref_id t;
     caption_ref_id := caption_ref_id t |}.

(** [elem.assign_ids(parent_id, index)] on an element of a layout *)
Definition element_assign_ids (parent_id : string) (index : nat)
    (e : ElementModel) : ElementModel :=
  match e with
  | EParagraph p => EParagraph (para_assign_ids parent_id index p)
  | ETable t => ETable (table_assign_ids parent_id index t)
  end.

(** [HeaderModel.assign_ids] *)
Definition header_assign_ids (parent_id : string) (index : nat)
    (h : HeaderModel) : HeaderModel :=
  let id := make_id parent_id "header" index in
  {| header_runs := runs_assign_ids id (header_runs h);
     header_type := header_type h; header_id := Some id |}.

(** [FooterModel.assign_ids] *)
Definition footer_assign_ids (parent_id : string) (index : nat)
    (f : FooterModel) : FooterModel :=
  let id := make_id parent_id "footer" index in
  {| footer_runs := runs_assign_ids id (footer_runs f);
     footer_type := footer_type f; footer_id := Some id |}.

(** The loop [for i, elem in enumerate(self.elements)] of
    [LayoutModel.assign_ids], on the store of the objects; an empty slot
    raises. *)
Definition elements_assign_ids (objects : gmap loc ElementModel)
    (parent_id : string) (elems : list loc)
  : result (gmap loc ElementModel) :=
  foldl_enum
    (λ (acc : result (gmap loc ElementModel)) i a,
       objs ← acc;
       e ← or_raise AttributeError (objs !! a);
       Ok (<[a := element_assign_ids parent_id i e]> objs))
    (Ok objects) elems.

(** What [LayoutModel.assign_ids] assigns in the layout itself, its header
    and its footer. *)
Definition layout_own_ids (parent_id : string) (index : nat)
    (layout : LayoutModel) : LayoutModel :=
  let id := make_id parent_id "layout" index in
  {| layout_orientation := layout_orientation layout;
     layout_header := header_assign_ids id 0 <$> layout_header layout;
     layout_footer := footer_assign_ids id 0 <$> layout_footer layout;
     layout_elements := layout_elements layout;
     layout_type := layout_type layout; layout_id := Some id |}.

(** [LayoutModel.assign_ids]: the store and the layout after the call. *)
Definition layout_assign_ids (objects : gmap loc ElementModel)
    (parent_id : string) (index : nat) (layout : LayoutModel)
  : result (gmap loc ElementModel * LayoutModel) :=
  objs ← elements_assign_ids objects
            (make_id parent_id "layout" index) (layout_elements layout);
  Ok (objs, layout_own_ids parent_id index layout).

(** [DocumentModel.assign_ids] *)
Definition assign_ids (d : DocumentModel) (doc_index : Z)
  : result DocumentModel :=
  let id := "doc::" +:+ pretty doc_index in
  st ← foldl_enum
         (λ (acc : result (gmap loc ElementModel * list LayoutModel))
            i layout,
            st ← acc;
            r ← layout_assign_ids st.1 id i layout;
            Ok (r.1, st.2 ++ [r.2]))
         (Ok (doc_objects d, [])) (layouts d);
  Ok {| layouts := st.2; doc_type := doc_type d; doc_id := Some id;
        filename := filename d; _element_index := _element_index d;
        _paragraph_index := _paragraph_index d;
        _paragraph_order := _paragraph_order d; doc_objects := st.1 |}.
End Model.

(** ** Vocabulary of the specification *)

Section Vocabulary.
Context `{!PyLib}.

(** The runs [i], ..., [j - 1] of [runs] form a contiguous sub-sequence
    whose concatenated text contains [text]. *)
Definition contains_target (runs : list RunModel) (text : string)
    (i j : nat) : Prop :=
  (i ≤ j ≤ length runs)%nat
  ∧ PyStr.substring_of text (PyStr.join (run_text <$> list_slice runs i j)).

(** The fragments (before, middle, after) of the runs of a window: each run
    is split around the part of the characters [cs], ..., [ce - 1] of the
    merged text that falls in it; [offset] is where the first run starts in
    the merged text. *)
Fixpoint window_fragments (cs ce offset : Z) (merged : list RunModel)
  : list (option RunModel * option RunModel * option RunModel) :=
  match merged with
  | [] => []
  | r :: rest =>
      split_run r (Z.max 0 (cs - offset))
                  (Z.min (PyStr.len (run_text r)) (ce - offset))
      :: window_fragments cs ce (offset + PyStr.len (run_text r)) rest
  end.

Definition befores (frags : list (option RunModel * option RunModel
                                  * option RunModel)) : list RunModel :=
  omap (λ f, f.1.1) frags.

Definition middles (frags : list (option RunModel * option RunModel
                                  * option RunModel)) : list RunModel :=
  omap (λ f, f.1.2) frags.

Definition afters (frags : list (option RunModel * option RunModel
                                 * option RunModel)) : list RunModel :=
  omap (λ f, f.2) frags.

(** A run with its tracked change set. *)
Definition tracked (change : string) (r : RunModel) : RunModel :=
  set_run_attributes
    (set_tracked_change (Some change) (run_attributes r)) r.

Definition commented (comment : option string) (r : RunModel) : RunModel :=
  set_run_attributes (set_comment_text comment (run_attributes r)) r.

(** The parsed runs as they are inserted: each one an insertion, the first
    one carrying the comment when a comment is given. *)
Definition inserted_runs (comment : option string) (parsed : list RunModel)
  : list RunModel :=
  match parsed with
  | [] => []
  | r :: rest =>
      (if truthy_str comment then commented comment (tracked "ins" r)
       else tracked "ins" r)
      :: (tracked "ins" <$> rest)
  end.

(** [tag] around [inner] when the flag is set. *)
Definition wrap_if (flag : option bool) (tag inner : string) : string :=
  if truthy_bool flag then wrap_tag tag inner else inner.

(** The rendering of a run as the specification words it: the escaped text
    wrapped, innermost first, in [sup], [sub], [em], [strong], and then in
    one [span]. *)
Definition to_html_as_specified (r : RunModel) : string :=
  let attrs := run_attributes r in
  if PyStr.nonempty (run_text r) then
    "<span" +:+ style_attr attrs +:+ attr_str attrs +:+ ">"
    +:+ wrap_if (bold attrs) "strong"
          (wrap_if (italic attrs) "em"
             (wrap_if (subscript attrs) "sub"
                (wrap_if (superscript attrs) "sup"
                   (PyStr.html_escape (run_text r)))))
    +:+ "</span>"
  else "".

(** *** Colours *)

Definition hex_digit_value (c : ascii) : Z :=
  let n := Z.of_nat (nat_of_ascii c) in
  if (48 <=? n) && (n <=? 57) then n - 48
  else if (65 <=? n) && (n <=? 70) then n - 55
  else n - 87.

(** [int(s, 16)] on a text of two hexadecimal digits is the number they
    write. *)
Definition int16_reads_hex_pairs : Prop :=
  ∀ a b : ascii,
    PyStr.is_hex_digit a = true → PyStr.is_hex_digit b = true →
    int_base16 (String a (String b EmptyString))
    = Some (16 * hex_digit_value a + hex_digit_value b).

(** A text of six hexadecimal digits. *)
Definition valid_hex6 (s : string) : bool :=
  (String.length s =? 6)%nat && forallb PyStr.is_hex_digit (PyStr.to_list s).

Definition hex_pair_value (s : string) (i : nat) : Z :=
  match String.get i s, String.get (S i) s with
  | Some a, Some b => 16 * hex_digit_value a + hex_digit_value b
  | _, _ => 0
  end.

(** The colour that six hexadecimal digits write. *)
Definition rgb_of_hex6 (s : string) : Z * Z * Z :=
  (hex_pair_value s 0, hex_pair_value s 2, hex_pair_value s 4).

(** The reference colours [#00B050] and [#C9211E]. *)
Definition GREEN_REF : Z * Z * Z := (0, 176, 80).
Definition RED_REF : Z * Z * Z := (201, 33, 30).

(** The colours [c1] and [c2] are further apart than [d], for the
    Euclidean distance. *)
Definition further_than (d : Z) (c1 c2 : Z * Z * Z) : bool :=
  color_distance_sq c1 c2 >? d * d.

(** The colours [c1] and [c2] are less than [d] apart. *)
Definition closer_than (d : Z) (c1 c2 : Z * Z * Z) : bool :=
  color_distance_sq c1 c2 <? d * d.

Definition intent_of_colour (base : Z * Z * Z) : option string :=
  if closer_than 60 base GREEN_REF then Some "instruction"
  else if closer_than 60 base RED_REF then Some "example"
  else None.

(** The intent when the colour of the first run represents the paragraph:
    the other colours are compared with it. *)
Definition intent_by_first_colour (colors : list (Z * Z * Z))
  : option string :=
  match colors with
  | [] => None
  | base :: others =>
      if existsb (further_than 10 base) others then None
      else intent_of_colour base
  end.

(** The intent as the specification words it: any two colours further
    apart than 10 give no intent. *)
Definition intent_as_specified (colors : list (Z * Z * Z))
  : option string :=
  if existsb (λ c1, existsb (further_than 10 c1) colors) colors then None
  else match colors with
       | [] => None
       | base :: _ => intent_of_colour base
       end.

(** *** Tables *)

(** The sum of the column spans of the cells in the first two slots of a
    row, an empty slot counting for nothing. *)
Definition first_two_colspans (row : list (option TableCellModel)) : Z :=
  match row with
  | [] => 0
  | [Some a] => colspan a
  | [None] => 0
  | Some a :: Some b :: _ => colspan a + colspan b
  | Some a :: None :: _ => colspan a
  | None :: Some b :: _ => colspan b
  | None :: None :: _ => 0
  end.

(** *** Documents *)

(** [parent_ref_id] of the element at an address. *)
Definition parent_ref_of (d : DocumentModel) (a : loc)
  : option (option string) :=
  match doc_objects d !! a with
  | Some (EParagraph p) => Some (para_parent_ref_id p)
  | Some (ETable t) => Some (table_parent_ref_id t)
  | None => None
  end.

(** The object at [a] is the paragraph [p], and the style of [p]
    classifies as a heading of level [l]. *)
Definition heading_at (d : DocumentModel) (a : loc) (p : ParagraphModel)
    (l : Z) : Prop :=
  doc_objects d !! a = Some (EParagraph p)
  ∧ ∃ s, para_style p = Some s ∧ classify_style s = (Some "heading", Some l).

(** The paragraph order index of a document: the map and the list. *)
Definition paragraph_caches (d : DocumentModel)
  : gmap (option string) loc * list (option string) :=
  (_paragraph_index d, _paragraph_order d).

(** The type that an element record declares. *)
Definition declared_type (el : PyValue) : option PyValue :=
  match el with
  | PyDict d => snd <$> List.find (λ kv, String.eqb (fst kv) "type") d
  | _ => None
  end.

Definition recognized (el : PyValue) : bool :=
  match declared_type el with
  | Some (PyText t) => String.eqb t "Paragraph" || String.eqb t "Table"
  | _ => false
  end.

(** *** Sample documents *)

Definition sample_paragraph (id style text : string) : ParagraphModel :=
  {| para_style := Some {| style_name := style |};
     para_runs :=
       [{| run_text := text; run_attributes := RunAttributes_default;
           run_type := "Run"; run_id := Some (id +:+ ":run::0") |}];
     para_type := "Paragraph";
     para_id := Some id; para_parent_ref_id := None;
     is_caption := Some false; is_heading := Some false;
     heading_level := None; is_example := Some false;
     is_instruction := Some false; is_list := Some false;
     list_type := None; list_level := Some 0 |}.

Definition sample_layout (id : string) (els : list loc) : LayoutModel :=
  {| layout_orientation := "PORTRAIT"; layout_header := None;
     layout_footer := None; layout_elements := els;
     layout_type := "Layout"; layout_id := Some id |}.

(** A document as it is before any cache is built. *)
Definition sample_document (ls : list LayoutModel)
    (objects : gmap loc ElementModel) : DocumentModel :=
  {| layouts := ls; doc_type := "Document"; doc_id := Some "doc::0";
     filename := None; _element_index := ∅; _paragraph_index := ∅;
     _paragraph_order := []; doc_objects := objects |}.

(** One layout with two paragraphs. *)
Definition two_paragraphs : DocumentModel :=
  sample_document [sample_layout "doc::0:layout::0" [1; 2]%positive]
    {[ 1%positive :=
         EParagraph (sample_paragraph "doc::0:layout::0:para::0" "Normal"
                       "Intro");
       2%positive :=
         EParagraph (sample_paragraph "doc::0:layout::0:para::1" "Normal"
                       "Figures") ]}.

(** A placeholder whose replacement is done and is a table. *)
Definition table_placeholder : PlaceholderModel :=
  {| ph_id := "doc::0:layout::0:para::1::ph::0"; ph_text := "Figures";
     ph_status := REPLACEMENT_DONE; ph_replaced_text := Some "a,b";
     ph_replaced_reference := None; ph_replaced_comment := None;
     ph_deleted := Some false; ph_matches := [];
     ph_element_id := Some "doc::0:layout::0:para::1";
     ph_future_element := FUTURE_TABLE |}.

(** Two layouts with five heading paragraphs of levels 1, 2, 3, 2, 1. *)
Definition five_headings : DocumentModel :=
  sample_document
    [sample_layout "l0" [1; 2; 3]%positive;
     sample_layout "l1" [4; 5]%positive]
    {[ 1%positive := EParagraph (sample_paragraph "h1" "Heading 1" "A");
       2%positive := EParagraph (sample_paragraph "h2" "Heading 2" "B");
       3%positive := EParagraph (sample_paragraph "h3" "Heading 3" "C");
       4%positive := EParagraph (sample_paragraph "h4" "Heading 2" "D");
       5%positive := EParagraph (sample_paragraph "h5" "Heading 1" "E") ]}.

(** A paragraph of three runs in shades of the instruction green: the
    second and the third are each at distance 10 from the first and at
    distance 20 from each other. *)
Definition three_greens : ParagraphModel :=
  ParagraphModel_new None
    [RunModel_new "a" (set_font_color (Some "00B050") RunAttributes_default);
     RunModel_new "b" (set_font_color (Some "00B046") RunAttributes_default);
     RunModel_new "c" (set_font_color (Some "00B05A") RunAttributes_default)].

(** A bold superscript run. *)
Definition bold_superscript : RunModel :=
  RunModel_new "x"
    (set_bold (Some true)
       (set_superscript (Some true) RunAttributes_default)).

(** A table of one row of two cells of column span 1. *)
Definition two_columns : TableModel :=
  TableModel_new [[text_cell "key" 1 1; text_cell "value" 1 1]].

(** A layout record with one element of an unknown type. *)
Definition layout_with_image : PyValue :=
  PyDict [("orientation", PyText "PORTRAIT");
          ("elements", PyList [PyDict [("type", PyText "Image")]])].

End Vocabulary.

(** ** Further vocabulary *)

Section VocabularyOfRuns.
Context `{!PyLib}.

(** The text that a list of runs spells. *)
Definition plain_text (runs : list RunModel) : string :=
  PyStr.join (run_text <$> runs).

(** The text of a fragment, the empty text for no fragment. *)
Definition frag_text (f : option RunModel) : string :=
  match f with
  | Some r => run_text r
  | None => ""
  end.

(** The characters [cs], ..., [ce - 1] of the merged text lie across the
    runs of a window that starts at [offset]: no run ends before [cs] and
    none starts after [ce]. *)
Fixpoint window_ok (cs ce offset : Z) (merged : list RunModel) : Prop :=
  match merged with
  | [] => True
  | r :: rest =>
      cs - offset ≤ PyStr.len (run_text r)
      ∧ 0 ≤ ce - offset
      ∧ window_ok cs ce (offset + PyStr.len (run_text r)) rest
  end.

(** A run that is neither a subscript nor a superscript. *)
Definition on_the_line (r : RunModel) : bool :=
  negb (truthy_bool (subscript (run_attributes r))
        || truthy_bool (superscript (run_attributes r))).

(** *** Places in a document *)

(** The identifier of the object at the place that an entry of the element
    index names; a run has no place of its own. *)
Definition ref_id (d : DocumentModel) (ref : ElemRef) : option string :=
  match ref with
  | RefLayout i => layouts d !! i ≫= layout_id
  | RefHeader i => (layouts d !! i ≫= layout_header) ≫= header_id
  | RefFooter i => (layouts d !! i ≫= layout_footer) ≫= footer_id
  | RefElement a => doc_objects d !! a ≫= element_id
  | RefCell a r c => object_cell d a r c ≫= cell_id
  | RefCellParagraph a r c k =>
      (object_cell d a r c ≫= λ cell, cell_paragraphs cell !! k) ≫= para_id
  | RefRun => None
  end.

(** The runs of the paragraphs of a cell, of an element, and of all the
    elements of a document. *)
Definition cell_runs (cell : TableCellModel) : list RunModel :=
  cell_paragraphs cell ≫= para_runs.

Definition element_runs (e : ElementModel) : list RunModel :=
  match e with
  | EParagraph p => para_runs p
  | ETable t => rows t ≫= λ row, row ≫= λ slot, from_option cell_runs [] slot
  end.

Definition doc_runs (d : DocumentModel) : list RunModel :=
  iter_elements d ≫= λ a, from_option element_runs [] (doc_objects d !! a).

(** What an entry of the element index under the key [i] may be: a run of
    the document with that identifier, or the place of an object with that
    identifier. *)
Definition names (d : DocumentModel) (i : string) (ref : ElemRef) : Prop :=
  match ref with
  | RefRun => ∃ run, run ∈ doc_runs d ∧ run_id run = Some i
  | _ => ref_id d ref = Some i
  end.

(** The place is one of the tree of the document: its element, if it has
    one, is an element of a layout. *)
Definition in_tree (d : DocumentModel) (ref : ElemRef) : Prop :=
  match ref with
  | RefElement a | RefCell a _ _ | RefCellParagraph a _ _ _ =>
      a ∈ iter_elements d
  | _ => True
  end.

(** The identifier of the paragraph at an address, when a paragraph is
    there. *)
Definition paragraph_id_at (d : DocumentModel) (a : loc)
  : option (option string) :=
  match doc_objects d !! a with
  | Some (EParagraph p) => Some (para_id p)
  | _ => None
  end.

(** Every entry of an index is under a key that is not empty and names an
    object of the document with that key as identifier. *)
Definition index_sound (d : DocumentModel) (index : gmap string ElemRef)
  : Prop :=
  ∀ i ref, index !! i = Some ref → i ≠ "" ∧ names d i ref.

(** The index has an entry under the key [i]. *)
Definition covers (i : string) (index : gmap string ElemRef) : Prop :=
  is_Some (index !! i).

(** *** Tables *)

(** A row of cells of column span 1 that is not empty. *)
Definition unit_row (row : list (option TableCellModel)) : Prop :=
  row ≠ [] ∧ Forall (λ slot, ∃ part, slot = text_cell part 1 1) row.

(** *** Markup *)


(** A character that [html.escape] leaves as it is. *)
Definition plain_char (c : ascii) : Prop :=
  ¬ In (nat_of_ascii c) [34; 38; 39; 60; 62]%nat.

(** A character that is not a quote nor an angle bracket. *)
Definition markup_free (c : ascii) : Prop :=
  ¬ In (nat_of_ascii c) [34; 39; 60; 62]%nat.

(** *** The hierarchy *)

(** The style of the paragraph classifies as a heading of a level that is
    not 0. *)
Definition is_heading_style (p : ParagraphModel) : bool :=
  match para_style p with
  | Some s =>
      bool_decide ((classify_style s).1 = Some "heading")
      && negb (bool_decide (default 0 (classify_style s).2 = 0))
  | None => false
  end.

(** The identifier of the last heading paragraph among the elements at the
    addresses [prefix], null when there is none. *)
Definition last_heading (d : DocumentModel) (prefix : list loc)
  : option string :=
  foldl (λ acc a,
           match doc_objects d !! a with
           | Some (EParagraph p) =>
               if is_heading_style p then para_id p else acc
           | _ => acc
           end)
        None prefix.

(** [elem.parent_ref_id] *)
Definition element_parent_ref (e : ElementModel) : option string :=
  match e with
  | EParagraph p => para_parent_ref_id p
  | ETable t => table_parent_ref_id t
  end.

(** The element [e'] is [e] up to the marks of the hierarchy: the same
    kind of element, identifier, style and runs. *)
Definition same_content (e e' : ElementModel) : Prop :=
  element_id e' = element_id e
  ∧ element_runs e' = element_runs e
  ∧ match e, e' with
    | EParagraph p, EParagraph p' => para_style p' = para_style p
    | ETable t, ETable t' => length (rows t') = length (rows t)
    | _, _ => False
    end.

(** An element that is not a heading paragraph. *)
Definition body_element (e : ElementModel) : Prop :=
  match e with
  | EParagraph p => is_heading_style p = false
  | ETable _ => True
  end.

(** *** Further samples *)

(** The text "Hello World" in two runs. *)
Definition split_hello : list RunModel :=
  [from_text "Hel"; from_text "lo World"].

Definition hello_paragraph : ParagraphModel :=
  sample_paragraph "p" "Normal" "Hello World".

(** A placeholder for the text "Hello" of the element [p]. *)
Definition hello_placeholder (deleted : bool) (status : PlaceholderStatus)
    (replaced : option string) : PlaceholderModel :=
  {| ph_id := "p::ph::0"; ph_text := "Hello"; ph_status := status;
     ph_replaced_text := replaced; ph_replaced_reference := None;
     ph_replaced_comment := None; ph_deleted := Some deleted;
     ph_matches := []; ph_element_id := Some "p";
     ph_future_element := FUTURE_PARAGRAPH |}.

(** A table of two rows of three cells of spans 1. *)
Definition three_columns : TableModel :=
  TableModel_new
    [[text_cell "a" 1 1; text_cell "b" 1 1; text_cell "c" 1 1];
     [text_cell "1" 1 1; text_cell "2" 1 1; text_cell "3" 1 1]].

(** One layout with a heading paragraph and a body paragraph. *)
Definition heading_and_body : DocumentModel :=
  sample_document [sample_layout "l0" [1; 2]%positive]
    {[ 1%positive := EParagraph (sample_paragraph "h1" "Heading 1" "A");
       2%positive := EParagraph (sample_paragraph "p1" "Normal" "text") ]}.

(** A header and a footer with the text "Hello World". *)
Definition hello_header : HeaderModel :=
  {| header_runs := [from_text "Hello World"]; header_type := "Header";
     header_id := Some "h" |}.

Definition hello_footer : FooterModel :=
  {| footer_runs := [from_text "Hello World"]; footer_type := "Footer";
     footer_id := Some "f" |}.

(** A deleted placeholder for the text of the second paragraph of
    [two_paragraphs]. *)
Definition deleted_figures : PlaceholderModel :=
  {| ph_id := "doc::0:layout::0:para::1::ph::0"; ph_text := "Figures";
     ph_status := MATCHES_FOUND; ph_replaced_text := None;
     ph_replaced_reference := None; ph_replaced_comment := None;
     ph_deleted := Some true; ph_matches := [];
     ph_element_id := Some "doc::0:layout::0:para::1";
     ph_future_element := FUTURE_PARAGRAPH |}.

End VocabularyOfRuns.


(** * Properties *)

(** ** Facts about Python strings *)

Module PyStrFacts.
Import PyStr.

Lemma append_cons (c : ascii) (s t : string) :
  String c s +:+ t = String c (s +:+ t).
Proof. reflexivity. Qed.

Lemma append_empty_l (t : string) : "" +:+ t = t.
Proof. reflexivity. Qed.

Lemma append_nil_r (s : string) : s +:+ "" = s.
Proof.
  induction s as [|c s IH]; [done | by rewrite append_cons, IH].
Qed.

Lemma append_assoc (a b c : string) : (a +:+ b) +:+ c = a +:+ b +:+ c.
Proof.
  induction a as [|x a IH]; [done | by rewrite !append_cons, IH].
Qed.

Lemma length_append (a b : string) :
  String.length (a +:+ b) = (String.length a + String.length b)%nat.
Proof.
  induction a as [|x a IH]; [done | rewrite append_cons; simpl; by rewrite IH].
Qed.

Lemma substring_all (s : string) : String.substring 0 (String.length s) s = s.
Proof. induction s as [|c s IH]; simpl; [done | by rewrite IH]. Qed.

Lemma slice_all (s : string) : slice s 0 (len s) = s.
Proof.
  unfold slice, len. rewrite Z.sub_0_r, Nat2Z.id. apply substring_all.
Qed.

Lemma nonempty_true (s : string) : nonempty s = true ↔ s ≠ "".
Proof. destruct s; simpl; split; congruence. Qed.

Lemma len_pos (s : string) : s ≠ "" → 0 < len s.
Proof. destruct s; [done | unfold len; simpl; lia]. Qed.

Lemma startswith_spec (s p : string) :
  startswith s p = true ↔ ∃ post, s = p +:+ post.
Proof.
  revert s. induction p as [|c p IH]; intros s; simpl.
  - split; [intros _; by exists s | done].
  - destruct s as [|d s]; simpl.
    + split; [done | intros [post Hpost]; discriminate].
    + destruct (Ascii.eqb_spec c d) as [->|Hne].
      * rewrite IH. split; intros [post Hpost]; exists post;
          rewrite append_cons in *; congruence.
      * split; [done | intros [post Hpost]].
        rewrite append_cons in Hpost. congruence.
Qed.

Lemma occurs_at_0 (sub s : string) :
  occurs_at 0 sub s ↔ startswith s sub = true.
Proof.
  rewrite startswith_spec. split.
  - intros (pre & post & -> & Hlen). destruct pre; [|done].
    by exists post.
  - intros [post ->]. by exists "", post.
Qed.

Lemma occurs_at_S (i : nat) (sub : string) (c : ascii) (s : string) :
  occurs_at (S i) sub (String c s) ↔ occurs_at i sub s.
Proof.
  split.
  - intros (pre & post & Heq & Hlen). destruct pre as [|d pre]; [done|].
    rewrite append_cons in Heq. simpl in Hlen.
    exists pre, post. split; congruence.
  - intros (pre & post & -> & Hlen). exists (String c pre), post.
    rewrite append_cons. simpl. by rewrite Hlen.
Qed.

Lemma occurs_at_empty (i : nat) (sub : string) :
  occurs_at i sub "" → i = 0%nat ∧ sub = "".
Proof.
  intros (pre & post & Heq & Hlen). destruct pre; [|done].
  rewrite append_empty_l in Heq. destruct sub; [done | discriminate].
Qed.

(** [find_from] returns the least offset of an occurrence. *)
Lemma find_from_Some (s sub : string) (i : nat) :
  find_from s sub = Some i →
  occurs_at i sub s ∧ ∀ j, occurs_at j sub s → (i ≤ j)%nat.
Proof.
  revert i. induction s as [|c s IH]; intros i; simpl.
  - destruct (startswith "" sub) eqn:Hp; [|done].
    intros [= <-]. split; [by apply occurs_at_0 | lia].
  - destruct (startswith (String c s) sub) eqn:Hp.
    + intros [= <-]. split; [by apply occurs_at_0 | lia].
    + destruct (find_from s sub) as [k|] eqn:Hk; [|done].
      intros [= <-]. destruct (IH k eq_refl) as [Hocc Hmin]. split.
      * by apply occurs_at_S.
      * intros [|j] Hj.
        -- apply occurs_at_0 in Hj. congruence.
        -- apply occurs_at_S in Hj. apply Hmin in Hj. lia.
Qed.

Lemma find_from_None (s sub : string) :
  find_from s sub = None → ¬ substring_of sub s.
Proof.
  induction s as [|c s IH]; simpl.
  - destruct (startswith "" sub) eqn:Hp; [done|].
    intros _ [i Hi]. destruct (occurs_at_empty _ _ Hi) as [-> ->]. done.
  - destruct (startswith (String c s) sub) eqn:Hp; [done|].
    destruct (find_from s sub) eqn:Hk; [done|].
    intros _ [[|i] Hi].
    + apply occurs_at_0 in Hi. congruence.
    + apply occurs_at_S in Hi. apply IH; [done | by exists i].
Qed.

(** [s.find(sub) != -1] exactly when [sub] is a substring of [s]. *)
Lemma find_found (s sub : string) :
  find s sub ≠ -1 ↔ substring_of sub s.
Proof.
  unfold find. destruct (find_from s sub) as [i|] eqn:Hf.
  - split; [|lia]. intros _. exists i. by apply find_from_Some.
  - split; [done|]. intros Hs. by apply find_from_None in Hs.
Qed.

Lemma find_least (s sub : string) (j : nat) :
  occurs_at j sub s → 0 ≤ find s sub ≤ Z.of_nat j.
Proof.
  intros Hj. unfold find. destruct (find_from s sub) as [i|] eqn:Hf.
  - apply find_from_Some in Hf as [_ Hmin]. apply Hmin in Hj. lia.
  - apply find_from_None in Hf. destruct Hf. by exists j.
Qed.

Lemma find_occurs (s sub : string) :
  find s sub ≠ -1 → occurs_at (Z.to_nat (find s sub)) sub s.
Proof.
  unfold find. destruct (find_from s sub) as [i|] eqn:Hf; [|done].
  intros _. rewrite Nat2Z.id. by apply find_from_Some.
Qed.

Lemma find_empty (s : string) : find s "" = 0.
Proof. unfold find. by destruct s. Qed.

Lemma substring_of_empty (sub : string) : substring_of sub "" → sub = "".
Proof. intros [i Hi]. by apply occurs_at_empty in Hi as [_ ->]. Qed.

End PyStrFacts.

(** ** The run engine *)

Section RunProperties.
Context `{!PyLib}.
Import PyStr PyStrFacts.

Lemma list_slice_width {A} (l : list A) (i w : nat) :
  list_slice l i (i + w) = take w (drop i l).
Proof. unfold list_slice. f_equal. lia. Qed.

Lemma list_slice_fmap {A B} (f : A → B) (l : list A) (i j : nat) :
  f <$> list_slice l i j = list_slice (f <$> l) i j.
Proof. unfold list_slice. by rewrite fmap_take, fmap_drop. Qed.

(** What the inner loop returns: the first start, from [i] on, at which the
    window of width [w] contains the text. *)
Lemma scan_starts_Some texts text w i count win :
  scan_starts texts text w i count = Some win →
  ∃ k, (i ≤ k < i + count)%nat
    ∧ start_run win = k ∧ end_run win = (k + w)%nat
    ∧ merged_text win = join (list_slice texts k (k + w))
    ∧ char_start win = find (merged_text win) text
    ∧ char_end win = char_start win + len text
    ∧ find (merged_text win) text ≠ -1
    ∧ ∀ k', (i ≤ k' < k)%nat →
        find (join (list_slice texts k' (k' + w))) text = -1.
Proof.
  revert i. induction count as [|count IH]; intros i; simpl; [done|].
  destruct (find (join (list_slice texts i (i + w))) text =? -1) eqn:Hf; simpl.
  - intros Hs. destruct (IH _ Hs) as (k & Hk & H1 & H2 & H3 & H4 & H5 & H6 & H7).
    exists k. repeat split; try done; try lia.
    intros k' Hk'. destruct (decide (k' = i)) as [->|Hne].
    + by apply Z.eqb_eq.
    + apply H7. lia.
  - intros [= <-]. simpl. exists i. apply Z.eqb_neq in Hf.
    repeat split; try done; try lia.
Qed.

Lemma scan_starts_None texts text w i count :
  scan_starts texts text w i count = None →
  ∀ k, (i ≤ k < i + count)%nat →
    find (join (list_slice texts k (k + w))) text = -1.
Proof.
  revert i. induction count as [|count IH]; intros i; simpl; [lia|].
  destruct (find (join (list_slice texts i (i + w))) text =? -1) eqn:Hf;
    simpl; [|done].
  intros Hs k Hk. destruct (decide (k = i)) as [->|Hne].
  - by apply Z.eqb_eq.
  - apply (IH _ Hs). lia.
Qed.

Lemma scan_widths_Some texts text n w count win :
  scan_widths texts text n w count = Some win →
  ∃ w', (w ≤ w' < w + count)%nat
    ∧ scan_starts texts text w' 0 (n - w' + 1) = Some win
    ∧ ∀ w'', (w ≤ w'' < w')%nat →
        scan_starts texts text w'' 0 (n - w'' + 1) = None.
Proof.
  revert w. induction count as [|count IH]; intros w; simpl; [done|].
  destruct (scan_starts texts text w 0 (n - w + 1)) as [win'|] eqn:Hs.
  - intros [= <-]. exists w. repeat split; try done; lia.
  - intros Hw. destruct (IH _ Hw) as (w' & Hw' & H1 & H2).
    exists w'. repeat split; try done; try lia.
    intros w'' Hw''. destruct (decide (w'' = w)) as [->|Hne]; [done|].
    apply H2. lia.
Qed.

Lemma scan_widths_None texts text n w count :
  scan_widths texts text n w count = None →
  ∀ w', (w ≤ w' < w + count)%nat →
    scan_starts texts text w' 0 (n - w' + 1) = None.
Proof.
  revert w. induction count as [|count IH]; intros w; simpl; [lia|].
  destruct (scan_starts texts text w 0 (n - w + 1)) as [win'|] eqn:Hs; [done|].
  intros Hw w' Hw'. destruct (decide (w' = w)) as [->|Hne]; [done|].
  apply (IH _ Hw). lia.
Qed.

(** A window that contains a non-empty text is one of the candidates that
    the two loops visit. *)
Lemma contains_target_candidate runs text i j :
  text ≠ "" → contains_target runs text i j →
  (1 ≤ j - i ≤ length runs)%nat ∧ (i < length runs - (j - i) + 1)%nat
  ∧ find (join (list_slice (run_text <$> runs) i (i + (j - i)))) text ≠ -1.
Proof.
  intros Hne [Hij Hsub].
  assert (i ≠ j) as Hneq.
  { intros ->. unfold list_slice in Hsub. rewrite Nat.sub_diag in Hsub.
    simpl in Hsub. by apply substring_of_empty in Hsub. }
  repeat split; try lia.
  apply find_found. rewrite list_slice_fmap in Hsub.
  by replace (i + (j - i))%nat with j by lia.
Qed.

Lemma find_run_window_spec runs text :
  text ≠ "" →
  match find_run_window runs text with
  | Some win =>
      contains_target runs text (start_run win) (end_run win)
      ∧ merged_text win
        = join (run_text <$> list_slice runs (start_run win) (end_run win))
      ∧ char_start win = find (merged_text win) text
      ∧ char_end win = char_start win + len text
      ∧ ∀ i j, contains_target runs text i j →
          (end_run win - start_run win < j - i)%nat
          ∨ ((end_run win - start_run win)%nat = (j - i)%nat
             ∧ (start_run win ≤ i)%nat)
  | None => ∀ i j, ¬ contains_target runs text i j
  end.
Proof.
  intros Hne. unfold find_run_window.
  destruct (scan_widths _ _ _ _ _) as [win|] eqn:Hscan.
  - apply scan_widths_Some in Hscan as (w & Hw & Hst & Hless).
    apply scan_starts_Some in Hst
      as (k & Hk & Hsr & Her & Hm & Hcs & Hce & Hfound & Hleft).
    rewrite Hsr, Her. rewrite list_slice_fmap, <- Hm.
    repeat split; try done; try lia.
    + rewrite list_slice_fmap, <- Hm. by apply find_found.
    + intros i j Hc.
      destruct (contains_target_candidate _ _ _ _ Hne Hc) as (Hw' & Hi & Hf).
      destruct (decide (j - i < w)%nat) as [Hlt|Hge].
      { exfalso. apply Hf.
        apply (scan_starts_None _ _ _ _ _ (Hless (j - i)%nat ltac:(lia))).
        lia. }
      destruct (decide (j - i = w)%nat) as [Heq|Hneq]; [|left; lia].
      right. split; [lia|].
      destruct (decide (i < k)%nat) as [Hik|]; [|lia].
      exfalso. apply Hf. rewrite Heq. apply Hleft. lia.
  - intros i j Hc.
    destruct (contains_target_candidate _ _ _ _ Hne Hc) as (Hw' & Hi & Hf).
    apply Hf.
    apply (scan_starts_None _ _ _ _ _
             (scan_widths_None _ _ _ _ _ Hscan (j - i)%nat ltac:(lia))).
    lia.
Qed.

(** C2. For a non-empty target: when some contiguous sub-sequence of the
    runs has a concatenation that contains the target, [find_run_window]
    returns a window that contains it, of the least width among all such
    sub-sequences and with the leftmost start among those of that width;
    when none has, it returns "not found". *)
Theorem find_run_window_minimal (runs : list RunModel) (text : string) :
  text ≠ "" →
  ((∃ i j, contains_target runs text i j) →
   ∃ win, find_run_window runs text = Some win
     ∧ contains_target runs text (start_run win) (end_run win)
     ∧ (∀ i j, contains_target runs text i j →
          (end_run win - start_run win ≤ j - i)%nat)
     ∧ (∀ i j, contains_target runs text i j →
          (j - i)%nat = (end_run win - start_run win)%nat →
          (start_run win ≤ i)%nat))
  ∧ ((¬ ∃ i j, contains_target runs text i j) →
     find_run_window runs text = None).
Proof.
  intros Hne. pose proof (find_run_window_spec runs text Hne) as Hspec.
  destruct (find_run_window runs text) as [win|]; split.
  - intros _. exists win. destruct Hspec as (Hc & _ & _ & _ & Hmin).
    split; [done|]. split; [done|]. split.
    + intros i j Hij. destruct (Hmin i j Hij); lia.
    + intros i j Hij Hw. destruct (Hmin i j Hij); lia.
  - intros Hno. destruct Hno. destruct Hspec as (Hc & _).
    by exists (start_run win), (end_run win).
  - intros (i & j & Hij). by destruct (Hspec i j).
  - done.
Qed.

End RunProperties.

Section RunEditing.
Context `{!PyLib}.
Import PyStr PyStrFacts.

Lemma slice_run_empty (r : RunModel) (a : Z) : slice_run r a a = None.
Proof.
  unfold slice_run. replace (a >=? a) with true by (symmetry; lia).
  by rewrite orb_true_r.
Qed.

Lemma slice_run_whole (r : RunModel) :
  slice_run r 0 (len (run_text r))
  = if nonempty (run_text r)
    then Some (RunModel_new (run_text r) (run_attributes r)) else None.
Proof.
  unfold slice_run. rewrite slice_all.
  destruct (nonempty (run_text r)) eqn:Hne.
  - apply nonempty_true, len_pos in Hne.
    replace (len (run_text r) >? len (run_text r)) with false by lia.
    by replace (0 >=? len (run_text r)) with false by lia.
  - destruct (run_text r); [done | discriminate].
Qed.

(** C9, amended. For every run [r] with a non-empty text,
    [sliceRun(r, 0, len(r.text))] returns a run, whose text is the text of
    [r] and whose attributes are those of [r]. *)
Theorem slice_run_full_text (r : RunModel) :
  run_text r ≠ "" →
  ∃ r', slice_run r 0 (len (run_text r)) = Some r'
    ∧ run_text r' = run_text r
    ∧ run_attributes r' = run_attributes r.
Proof.
  intros Hne. rewrite slice_run_whole.
  apply nonempty_true in Hne. rewrite Hne. by eexists.
Qed.

(** The loop of [replace_text] over the runs of the window collects the
    three kinds of fragments, each kind in the order of the runs. *)
Lemma replace_loop_fragments (cs ce : Z) (merged : list RunModel)
    (st : ReplaceLoop) :
  let frags := window_fragments cs ce (loop_offset st) merged in
  let st' := foldl (replace_step cs ce) st merged in
  before_parts st' = before_parts st ++ befores frags
  ∧ del_parts st' = del_parts st ++ (tracked "del" <$> middles frags)
  ∧ after_parts st' = after_parts st ++ afters frags.
Proof.
  revert st. induction merged as [|r rest IH]; intros st; simpl.
  - by rewrite !app_nil_r.
  - specialize (IH (replace_step cs ce st r)). simpl in IH.
    destruct IH as (Hb & Hd & Ha). rewrite Hb, Hd, Ha. clear Hb Hd Ha.
    unfold befores, middles, afters, replace_step, split_run. simpl.
    repeat split.
    + destruct (slice_run r 0 _); simpl; by rewrite <- ?app_assoc.
    + destruct (slice_run r (Z.max _ _) _); simpl; by rewrite <- ?app_assoc.
    + destruct (slice_run r (Z.min _ _) _); simpl; by rewrite <- ?app_assoc.
Qed.

Lemma insert_loop (comment : option string) (parsed out : list RunModel) :
  (foldl (insert_step comment) (out, true) parsed).1
  = out ++ inserted_runs comment parsed.
Proof.
  assert (∀ l o, (foldl (insert_step comment) (o, false) l).1
                 = o ++ (tracked "ins" <$> l)) as Hfalse.
  { induction l as [|r l IH]; intros o; simpl; [by rewrite app_nil_r|].
    rewrite IH. by rewrite <- app_assoc. }
  destruct (truthy_str comment) eqn:Hc.
  - destruct parsed as [|r l]; simpl; [by rewrite app_nil_r|].
    rewrite Hc. simpl. rewrite Hfalse. by rewrite <- app_assoc.
  - assert (∀ l o, (foldl (insert_step comment) (o, true) l).1
                   = o ++ (tracked "ins" <$> l)) as Htrue.
    { induction l as [|r l IH]; intros o; simpl; [by rewrite app_nil_r|].
      rewrite Hc. simpl. rewrite IH. by rewrite <- app_assoc. }
    rewrite Htrue. destruct parsed; simpl; by rewrite ?Hc.
Qed.

Lemma replace_text_found (runs : list RunModel) (text html : string)
    (comment : option string) (win : RunWindow) :
  find_run_window runs text = Some win →
  replace_text runs text html comment
  = (parsed ← from_html html;
     let frags :=
       window_fragments (char_start win) (char_end win) 0
         (list_slice runs (start_run win) (end_run win)) in
     Ok (take (start_run win) runs
         ++ befores frags
         ++ (tracked "del" <$> middles frags)
         ++ inserted_runs comment parsed
         ++ afters frags
         ++ drop (end_run win) runs)).
Proof.
  intros Hwin. unfold replace_text. rewrite Hwin.
  destruct (from_html html) as [parsed|e]; simpl; [|done].
  pose proof (replace_loop_fragments (char_start win) (char_end win)
    (list_slice runs (start_run win) (end_run win))
    {| loop_offset := 0; before_parts := []; del_parts := [];
       after_parts := [] |}) as Hloop.
  simpl in Hloop. destruct Hloop as (Hb & Hd & Ha).
  rewrite Hb, Hd, Ha. clear Hb Hd Ha.
  match goal with
  | |- context [foldl (insert_step comment) (?o, true) parsed] =>
      pose proof (insert_loop comment parsed o) as Hins;
      destruct (foldl (insert_step comment) (o, true) parsed) as [out flag]
  end.
  simpl in Hins. rewrite Hins. f_equal. by rewrite <- !app_assoc.
Qed.

End RunEditing.

Section RunClaims.
Context `{!PyLib}.
Import PyStr PyStrFacts.


Lemma find_run_window_empty_text (r : RunModel) (rest : list RunModel) :
  find_run_window (r :: rest) ""
  = Some {| start_run := 0; end_run := 1; char_start := 0; char_end := 0;
            merged_text := run_text r |}.
Proof.
  unfold find_run_window. simpl length. simpl scan_widths.
  replace (length rest - 0 + 1)%nat with (S (length rest)) by lia.
  simpl. unfold join. simpl. rewrite append_nil_r, find_empty. reflexivity.
Qed.

(** C10. For a non-empty list of runs, [find_run_window] finds the empty
    text: it returns the window of the first run alone, with both character
    positions 0. So [replace_text] with an empty target inserts the parsed
    runs before the first run, and [drop_text] with an empty target goes
    through the window too: in both, the first run is re-made from its
    whole text, and left out when that text is empty. *)
Theorem empty_target_found (r : RunModel) (rest : list RunModel)
    (html : string) (comment : option string) :
  find_run_window (r :: rest) ""
  = Some {| start_run := 0; end_run := 1; char_start := 0; char_end := 0;
            merged_text := run_text r |}
  ∧ replace_text (r :: rest) "" html comment
    = (parsed ← from_html html;
       Ok (inserted_runs comment parsed
           ++ option_list (slice_run r 0 (len (run_text r)))
           ++ rest))
  ∧ drop_text (r :: rest) ""
    = option_list (slice_run r 0 (len (run_text r))) ++ rest.
Proof.
  pose proof (find_run_window_empty_text r rest) as Hwin.
  assert (Z.min (len (run_text r)) (0 - 0) = 0) as Hmin
    by (unfold len; lia).
  split; [done|]. split.
  - rewrite (replace_text_found _ _ _ _ _ Hwin). simpl.
    destruct (from_html html) as [parsed|e]; simpl; [|done].
    unfold befores, middles, afters, split_run. simpl.
    rewrite Hmin, !slice_run_empty. simpl.
    destruct (slice_run r 0 _); simpl; by rewrite ?app_nil_r.
  - unfold drop_text. rewrite Hwin. simpl.
    rewrite Hmin, !slice_run_empty. simpl.
    by destruct (slice_run r 0 _).
Qed.

Lemma run_to_html_nesting (r : RunModel) :
  run_to_html r
  = if nonempty (run_text r) then
      "<span" +:+ style_attr (run_attributes r)
      +:+ attr_str (run_attributes r) +:+ ">"
      +:+ wrap_if (superscript (run_attributes r)) "sup"
            (wrap_if (subscript (run_attributes r)) "sub"
               (wrap_if (italic (run_attributes r)) "em"
                  (wrap_if (bold (run_attributes r)) "strong"
                     (html_escape (run_text r)))))
      +:+ "</span>"
    else "".
Proof.
  unfold run_to_html, wrap_if. by destruct (nonempty (run_text r)).
Qed.

(** C6, amended. For every run with a non-empty text, the rendering wraps
    the escaped text, innermost first, in [strong], then [em], then [sub],
    then [sup] (for each flag that is set), and at last in one [span] that
    carries the computed style and attributes: [strong] is the innermost
    tag and [sup] the outermost one inside the [span]. *)
Theorem run_to_html_wrapping (r : RunModel) :
  run_text r ≠ "" →
  run_to_html r
  = "<span" +:+ style_attr (run_attributes r)
    +:+ attr_str (run_attributes r) +:+ ">"
    +:+ wrap_if (superscript (run_attributes r)) "sup"
          (wrap_if (subscript (run_attributes r)) "sub"
             (wrap_if (italic (run_attributes r)) "em"
                (wrap_if (bold (run_attributes r)) "strong"
                   (html_escape (run_text r)))))
    +:+ "</span>".
Proof.
  intros Hne. rewrite run_to_html_nesting.
  apply nonempty_true in Hne. by rewrite Hne.
Qed.

End RunClaims.

(** ** Tables and layouts *)

(** Inversion of a sequence of calls that returned. *)
Ltac bind_inv H :=
  unfold mbind, result_bind in H;
  repeat match type of H with
         | match ?x with Ok _ => _ | Raise _ => _ end = Ok _ =>
             let E := fresh "E" in destruct x eqn:E; [|discriminate H]
         end.

Section TableProperties.
Context `{!PyLib}.

Lemma colspan_sum_first_two (row : list (option TableCellModel)) :
  colspan_sum row = first_two_colspans row.
Proof.
  unfold colspan_sum.
  destruct row as [|[a|] [|[b|] l]]; simpl; lia.
Qed.

(** C8. For every table with at least one row, [get_type] returns
    "Layout" when the first row has one slot; otherwise "Keyvalue" when
    the number of slots of the first row minus the sum of the column spans
    of the cells in its first two slots is 0; otherwise "Unknown". In
    particular a table whose first row is two cells of column span 1 is a
    "Keyvalue" table. *)
Theorem get_type_classification (t : TableModel)
    (row0 : list (option TableCellModel))
    (rest : list (list (option TableCellModel))) :
  rows t = row0 :: rest →
  get_type t
  = Ok (if Z.of_nat (length row0) =? 1 then "Layout"
        else if Z.of_nat (length row0) - first_two_colspans row0 =? 0
             then "Keyvalue"
             else "Unknown")
  ∧ (∀ c1 c2, row0 = [Some c1; Some c2] → colspan c1 = 1 → colspan c2 = 1 →
       get_type t = Ok "Keyvalue").
Proof.
  intros Hrows.
  assert (get_type t
          = Ok (if Z.of_nat (length row0) =? 1 then "Layout"
                else if Z.of_nat (length row0) - first_two_colspans row0 =? 0
                     then "Keyvalue" else "Unknown")) as Hgen.
  { unfold get_type, get_col_count. rewrite Hrows. simpl.
    rewrite colspan_sum_first_two.
    by repeat case_match. }
  split; [done|].
  intros c1 c2 -> H1 H2. rewrite Hgen. simpl. by rewrite H1, H2.
Qed.

Section FromDictProperties.
Variable HeaderModel_from_dict : PyValue → result HeaderModel.
Variable FooterModel_from_dict : PyValue → result FooterModel.
Variable ParagraphModel_from_dict : PyValue → result ParagraphModel.
Variable TableModel_from_dict : PyValue → result TableModel.

Lemma element_from_dict_unrecognized (el : PyValue)
    (e : option ElementModel) :
  element_from_dict ParagraphModel_from_dict TableModel_from_dict el = Ok e →
  recognized el = false → e = None.
Proof.
  unfold element_from_dict, recognized, declared_type, py_get.
  destruct el as [| | | |l|d]; simpl; try discriminate.
  destruct (List.find _ d) as [[k v]|]; simpl; [|by intros [= <-]].
  destruct v as [| | |t| |]; try by intros [= <-].
  destruct (String.eqb t "Paragraph"); simpl; [discriminate 2|].
  destruct (String.eqb t "Table"); simpl; [discriminate 2|].
  by intros [= <-].
Qed.

Lemma elements_from_dicts_slots (els : list PyValue)
    (es : list (option ElementModel)) :
  elements_from_dicts ParagraphModel_from_dict TableModel_from_dict els
  = Ok es →
  length es = length els
  ∧ ∀ i el, els !! i = Some el → recognized el = false →
      es !! i = Some None.
Proof.
  revert es. induction els as [|el els IH]; intros es; simpl.
  - intros [= <-]. split; [done|]. intros i el Hi. by destruct i.
  - intros Hes. bind_inv Hes. injection Hes as <-.
    destruct (IH _ eq_refl) as [Hlen Hslots]. split; [simpl; lia|].
    intros [|i] el' Hi Hrec; simpl in *.
    + injection Hi as ->. f_equal.
      by eapply element_from_dict_unrecognized.
    + by eapply Hslots.
Qed.

(** C5, as the code has it. When [LayoutModel.from_dict] returns, the
    [elements] of the layout have one slot for every element record of
    the input, and the slot of a record whose declared type is neither
    "Paragraph" nor "Table" holds [None]: the record is not dropped. *)
Theorem from_dict_keeps_unknown_slots (data : PyValue)
    (els : list PyValue) (layout : LayoutFromDict) :
  py_get data "elements" = Ok (Some (PyList els)) →
  LayoutModel_from_dict HeaderModel_from_dict FooterModel_from_dict
    ParagraphModel_from_dict TableModel_from_dict data = Ok layout →
  length (fd_elements layout) = length els
  ∧ ∀ i el, els !! i = Some el → recognized el = false →
      fd_elements layout !! i = Some None.
Proof.
  intros Hels Hlayout. unfold LayoutModel_from_dict in Hlayout.
  rewrite Hels in Hlayout. bind_inv Hlayout.
  injection Hlayout as <-. simpl in *.
  match goal with
  | E : Ok els = Ok ?l |- _ => injection E as <-
  end.
  by apply elements_from_dicts_slots.
Qed.

End FromDictProperties.

End TableProperties.

(** ** Paragraph intent *)

Section IntentProperties.
Context `{!PyLib}.
Import PyStr PyStrFacts.

Lemma hex_digit_not_hash (a : ascii) :
  is_hex_digit a = true → a ≠ "#"%char.
Proof. intros Hhex ->. vm_compute in Hhex. discriminate. Qed.

Lemma filter_hash_hex (l : list ascii) :
  forallb is_hex_digit l = true → filter (λ c, c ≠ "#"%char) l = l.
Proof.
  induction l as [|a l IH]; simpl; [done|].
  intros [Ha Hl]%andb_true_iff. rewrite filter_cons.
  rewrite decide_True by by apply hex_digit_not_hash.
  by rewrite IH.
Qed.

Lemma valid_hex6_chars (s : string) :
  valid_hex6 s = true →
  ∃ a1 a2 a3 a4 a5 a6,
    s = String a1 (String a2 (String a3 (String a4 (String a5
          (String a6 EmptyString)))))
    ∧ Forall (λ a, is_hex_digit a = true) [a1; a2; a3; a4; a5; a6].
Proof.
  unfold valid_hex6. intros [Hlen Hhex]%andb_true_iff.
  apply Nat.eqb_eq in Hlen.
  destruct s as [|a1 [|a2 [|a3 [|a4 [|a5 [|a6 [|a7 s]]]]]]]; try discriminate.
  exists a1, a2, a3, a4, a5, a6. split; [done|].
  simpl in Hhex. repeat (apply andb_true_iff in Hhex as [? Hhex]).
  repeat constructor; done.
Qed.

Lemma hex_to_rgb_valid (s : string) :
  int16_reads_hex_pairs → valid_hex6 s = true →
  hex_to_rgb s = Ok (Some (rgb_of_hex6 s)).
Proof.
  intros Hint Hvalid. unfold hex_to_rgb.
  assert (forallb is_hex_digit (to_list s) = true) as Hhex
    by (unfold valid_hex6 in Hvalid; by apply andb_true_iff in Hvalid as [_ ?]).
  rewrite (filter_hash_hex _ Hhex). unfold of_list, to_list.
  rewrite string_of_list_ascii_of_string.
  destruct (valid_hex6_chars s Hvalid)
    as (a1 & a2 & a3 & a4 & a5 & a6 & -> & Hall).
  repeat match goal with
         | H : Forall _ (_ :: _) |- _ => apply Forall_cons in H as [? H]
         end.
  set (s := String a1 (String a2 (String a3 (String a4 (String a5
              (String a6 EmptyString)))))).
  replace (slice s 0 2) with (String a1 (String a2 EmptyString))
    by reflexivity.
  replace (slice s 2 4) with (String a3 (String a4 EmptyString))
    by reflexivity.
  replace (slice s 4 6) with (String a5 (String a6 EmptyString))
    by reflexivity.
  rewrite !Hint by done. reflexivity.
Qed.

Lemma collect_colors_valid (runs : list RunModel) (colors : list string) :
  int16_reads_hex_pairs →
  Forall2 (λ r c, get_color r = Some c ∧ valid_hex6 c = true) runs colors →
  collect_colors runs = Ok (Some (rgb_of_hex6 <$> colors)).
Proof.
  intros Hint. induction 1 as [|r c runs colors [Hc Hv] _ IH]; simpl; [done|].
  rewrite Hc.
  assert (nonempty c = true) as ->.
  { destruct (valid_hex6_chars c Hv) as (? & ? & ? & ? & ? & ? & -> & _).
    done. }
  simpl. rewrite (hex_to_rgb_valid c Hint Hv). simpl. by rewrite IH.
Qed.

Lemma collect_colors_missing (runs : list RunModel) :
  int16_reads_hex_pairs →
  Forall (λ r, get_color r = None
               ∨ ∃ c, get_color r = Some c ∧ valid_hex6 c = true) runs →
  Exists (λ r, get_color r = None) runs →
  collect_colors runs = Ok None.
Proof.
  intros Hint Hall Hex.
  induction runs as [|r runs IH]; [by apply Exists_nil in Hex|].
  apply Forall_cons in Hall as [Hr Hall]. simpl.
  destruct Hr as [->|(c & Hc & Hv)]; [done|]. rewrite Hc.
  assert (nonempty c = true) as ->.
  { destruct (valid_hex6_chars c Hv) as (? & ? & ? & ? & ? & ? & -> & _).
    done. }
  simpl. rewrite (hex_to_rgb_valid c Hint Hv). simpl.
  apply Exists_cons in Hex as [Hnone|Hex]; [congruence|].
  by rewrite IH.
Qed.

Lemma color_distance_sq_self (c : Z * Z * Z) : color_distance_sq c c = 0.
Proof. destruct c as [[r g] b]. unfold color_distance_sq. lia. Qed.

Lemma reference_colours :
  int16_reads_hex_pairs →
  hex_to_rgb "00B050" = Ok (Some GREEN_REF)
  ∧ hex_to_rgb "C9211E" = Ok (Some RED_REF).
Proof.
  intros Hint. split; by rewrite hex_to_rgb_valid.
Qed.

(** C7, amended. Let [int(_, 16)] read two hexadecimal digits as the number
    they write. For every paragraph whose runs each resolve to six
    hexadecimal digits: [classify_intent] returns null when the paragraph
    has no run, or when the colour of some run is at a Euclidean distance
    greater than 10 from the colour of the first run; otherwise it returns
    "instruction" when the colour of the first run is at a distance less
    than 60 from [#00B050], "example" when it is at a distance less than
    60 from [#C9211E], and null otherwise. Two later runs are never
    compared with each other. For a paragraph whose runs each resolve to
    six hexadecimal digits or to no colour, of which one resolves to no
    colour, the result is null. *)
Theorem classify_intent_by_first_colour (p : ParagraphModel) :
  int16_reads_hex_pairs →
  (∀ colors,
     Forall2 (λ r c, get_color r = Some c ∧ valid_hex6 c = true)
             (para_runs p) colors →
     classify_intent p = Ok (intent_by_first_colour (rgb_of_hex6 <$> colors)))
  ∧ (Forall (λ r, get_color r = None
                  ∨ ∃ c, get_color r = Some c ∧ valid_hex6 c = true)
            (para_runs p) →
     Exists (λ r, get_color r = None) (para_runs p) →
     classify_intent p = Ok None).
Proof.
  intros Hint. destruct (reference_colours Hint) as [Hgreen Hred].
  split.
  - intros colors Hcolors. unfold classify_intent.
    rewrite Hgreen, Hred. simpl.
    rewrite (collect_colors_valid _ _ Hint Hcolors). simpl.
    destruct (rgb_of_hex6 <$> colors) as [|base others]; [done|].
    simpl. rewrite color_distance_sq_self. simpl.
    unfold further_than.
    destruct (existsb _ others); [done|]. simpl.
    unfold intent_of_colour, closer_than, COLOR_THRESHOLD.
    by repeat case_match.
  - intros Hall Hex. unfold classify_intent.
    rewrite Hgreen, Hred. simpl.
    by rewrite (collect_colors_missing _ Hint Hall Hex).
Qed.

End IntentProperties.

(** ** The document *)

Section HierarchyProperties.
Context `{!PyLib}.

Lemma hierarchy_step_heading (st : HierarchyState) (a : loc)
    (p : ParagraphModel) (s : ParagraphStyleModel) (l : Z) :
  hs_objects st !! a = Some (EParagraph p) →
  para_style p = Some s →
  classify_style s = (Some "heading", Some l) →
  l ≠ 0 →
  hierarchy_step st a = Ok (hierarchy_heading st a p l).
Proof.
  intros Hobj Hstyle Hclass Hl. unfold hierarchy_step.
  rewrite Hobj, Hstyle. simpl. rewrite Hclass. simpl.
  by rewrite (bool_decide_eq_false_2 (l = 0)) by done.
Qed.

Lemma hierarchy_fold_cons (st : HierarchyState) (a : loc) (l : list loc) :
  foldl (λ (acc : result HierarchyState) a, st ← acc; hierarchy_step st a)
        (Ok st) (a :: l)
  = foldl (λ (acc : result HierarchyState) a, st ← acc; hierarchy_step st a)
          (hierarchy_step st a) l.
Proof. reflexivity. Qed.

Lemma nearest_heading_found (stack : gmap Z (option string)) (l : Z)
    (count : nat) (k : Z) (v : option string) :
  l - Z.of_nat count < k ≤ l →
  stack !! k = Some v →
  (∀ k', k < k' ≤ l → stack !! k' = None) →
  nearest_heading stack l count = v.
Proof.
  revert l. induction count as [|count IH]; intros l Hk Hv Habove; [lia|].
  simpl. destruct (decide (k = l)) as [->|Hne].
  - by rewrite Hv.
  - rewrite Habove by lia. apply IH; [lia|done|]. intros k' Hk'.
    apply Habove. lia.
Qed.

Lemma nearest_heading_none (stack : gmap Z (option string)) (l : Z)
    (count : nat) :
  (∀ k, l - Z.of_nat count < k ≤ l → stack !! k = None) →
  nearest_heading stack l count = None.
Proof.
  revert l. induction count as [|count IH]; intros l Hnone; [done|].
  simpl. rewrite Hnone by lia. apply IH. intros k Hk. apply Hnone. lia.
Qed.

(** The heading branch of the hierarchy builder: the parent of a heading
    of level [level] is the heading at the nearest populated level below
    [level], or null when no level below is populated; afterwards the
    stack holds the heading at [level], nothing at the deeper levels, and
    what it held at the levels below. *)
Lemma hierarchy_heading_rule (st : HierarchyState) (a : loc)
    (elem : ParagraphModel) (level : Z) :
  0 < level →
  ∃ elem',
    hs_objects (hierarchy_heading st a elem level) !! a
    = Some (EParagraph elem')
    ∧ para_id elem' = para_id elem
    ∧ (∀ k v, 0 < k < level → heading_stack st !! k = Some v →
         (∀ k', k < k' < level → heading_stack st !! k' = None) →
         para_parent_ref_id elem' = v)
    ∧ ((∀ k, 0 < k < level → heading_stack st !! k = None) →
       para_parent_ref_id elem' = None)
    ∧ heading_stack (hierarchy_heading st a elem level) !! level
      = Some (para_id elem)
    ∧ (∀ k, level < k →
         heading_stack (hierarchy_heading st a elem level) !! k = None)
    ∧ (∀ k, k < level →
         heading_stack (hierarchy_heading st a elem level) !! k
         = heading_stack st !! k).
Proof.
  intros Hlevel. eexists. split; [apply lookup_insert_eq|].
  split; [done|]. simpl. repeat split.
  - intros k v Hk Hv Habove.
    apply (nearest_heading_found _ _ _ k); [lia|done|].
    intros k' Hk'. apply Habove. lia.
  - intros Hnone. apply nearest_heading_none. intros k Hk.
    apply Hnone. lia.
  - apply map_lookup_filter_Some_2; [apply lookup_insert_eq|simpl; lia].
  - intros k Hk. apply map_lookup_filter_None_2.
    right. intros x _. simpl. lia.
  - intros k Hk. rewrite map_lookup_filter.
    rewrite lookup_insert_ne by lia.
    destruct (heading_stack st !! k) as [v|]; simpl; [|done].
    rewrite option_guard_True by (simpl; lia). done.
Qed.

(** C3. In a document whose flattened elements are five distinct heading
    paragraphs of levels 1, 2, 3, 2, 1, the hierarchy builder returns, and
    the [parent_ref_id] of the five paragraphs are then: null, the
    identifier of the first, the identifier of the second, the identifier
    of the first, null. The rule behind it: a paragraph whose style
    classifies as a heading of a level that is not 0 goes through
    [hierarchy_heading], which gives it the heading at the nearest
    populated stack level below its own as parent, and clears the deeper
    levels of the stack. *)
Theorem build_hierarchy_heading_stack (d : DocumentModel)
    (a1 a2 a3 a4 a5 : loc) (p1 p2 p3 p4 p5 : ParagraphModel) :
  iter_elements d = [a1; a2; a3; a4; a5] →
  NoDup [a1; a2; a3; a4; a5] →
  heading_at d a1 p1 1 → heading_at d a2 p2 2 → heading_at d a3 p3 3 →
  heading_at d a4 p4 2 → heading_at d a5 p5 1 →
  (∃ d', build_hierarchy d = Ok d'
     ∧ iter_elements d' = [a1; a2; a3; a4; a5]
     ∧ parent_ref_of d' <$> [a1; a2; a3; a4; a5]
       = [Some None; Some (para_id p1); Some (para_id p2);
          Some (para_id p1); Some None])
  ∧ (∀ st a elem s level,
       hs_objects st !! a = Some (EParagraph elem) →
       para_style elem = Some s →
       classify_style s = (Some "heading", Some level) →
       0 < level →
       hierarchy_step st a = Ok (hierarchy_heading st a elem level)
       ∧ ∃ elem',
           hs_objects (hierarchy_heading st a elem level) !! a
           = Some (EParagraph elem')
           ∧ (∀ k v, 0 < k < level → heading_stack st !! k = Some v →
                (∀ k', k < k' < level → heading_stack st !! k' = None) →
                para_parent_ref_id elem' = v)
           ∧ ((∀ k, 0 < k < level → heading_stack st !! k = None) →
              para_parent_ref_id elem' = None)
           ∧ (∀ k, level < k →
                heading_stack (hierarchy_heading st a elem level) !! k
                = None)).
Proof.
  intros Hiter Hnd (Ho1 & s1 & Hs1 & Hc1) (Ho2 & s2 & Hs2 & Hc2)
    (Ho3 & s3 & Hs3 & Hc3) (Ho4 & s4 & Hs4 & Hc4) (Ho5 & s5 & Hs5 & Hc5).
  split; [|intros st a elem s level Hobj Hstyle Hclass Hlevel; split;
           [apply (hierarchy_step_heading st a elem s level); by try lia|];
           destruct (hierarchy_heading_rule st a elem level Hlevel)
             as (elem' & ? & ? & ? & ? & ? & ? & ?);
           by exists elem'].
  repeat match goal with
         | H : NoDup (_ :: _) |- _ => apply NoDup_cons in H as [? H]
         end.
  repeat match goal with
         | H : _ ∉ _ :: _ |- _ => apply not_elem_of_cons in H as [? H]
         end.
  unfold build_hierarchy. rewrite Hiter.
  rewrite hierarchy_fold_cons.
  rewrite (hierarchy_step_heading _ a1 p1 s1 1) by done.
  rewrite hierarchy_fold_cons.
  rewrite (hierarchy_step_heading _ a2 p2 s2 2)
    by (try done; simpl; by rewrite lookup_insert_ne).
  rewrite hierarchy_fold_cons.
  rewrite (hierarchy_step_heading _ a3 p3 s3 3)
    by (try done; simpl; by rewrite !lookup_insert_ne).
  rewrite hierarchy_fold_cons.
  rewrite (hierarchy_step_heading _ a4 p4 s4 2)
    by (try done; simpl; by rewrite !lookup_insert_ne).
  rewrite hierarchy_fold_cons.
  rewrite (hierarchy_step_heading _ a5 p5 s5 1)
    by (try done; simpl; by rewrite !lookup_insert_ne).
  eexists. split; [reflexivity|]. split; [done|].
  unfold parent_ref_of. simpl.
  rewrite !lookup_insert_eq.
  repeat (rewrite lookup_insert_ne by done; rewrite ?lookup_insert_eq).
  simpl. repeat f_equal; vm_compute; reflexivity.
Qed.

End HierarchyProperties.

Section MutationProperties.
Context `{!PyLib}.

Lemma get_element_by_id_caches (d : DocumentModel) (id : option string) :
  paragraph_caches (get_element_by_id d id).1 = paragraph_caches d.
Proof. unfold get_element_by_id. by case_decide. Qed.

Lemma update_cell_caches (d : DocumentModel) (a : loc) (r c : nat)
    (f : TableCellModel → TableCellModel) :
  paragraph_caches (update_cell d a r c f) = paragraph_caches d.
Proof. unfold update_cell. by repeat case_match. Qed.

Lemma store_paragraph_caches (d : DocumentModel) (ref : ElemRef)
    (p : ParagraphModel) :
  paragraph_caches (store_paragraph d ref p) = paragraph_caches d.
Proof. destruct ref; simpl; try done. apply update_cell_caches. Qed.

Lemma store_cell_caches (d : DocumentModel) (ref : ElemRef)
    (cell : TableCellModel) :
  paragraph_caches (store_cell d ref cell) = paragraph_caches d.
Proof. destruct ref; simpl; try done. apply update_cell_caches. Qed.

Lemma store_header_caches (d : DocumentModel) (ref : ElemRef)
    (h : HeaderModel) :
  paragraph_caches (store_header d ref h) = paragraph_caches d.
Proof. by destruct ref. Qed.

Lemma store_footer_caches (d : DocumentModel) (ref : ElemRef)
    (f : FooterModel) :
  paragraph_caches (store_footer d ref f) = paragraph_caches d.
Proof. by destruct ref. Qed.

Lemma apply_deleted_caches (d : DocumentModel) (ref : ElemRef)
    (ph : PlaceholderModel) :
  paragraph_caches (apply_deleted d ref ph) = paragraph_caches d.
Proof.
  unfold apply_deleted.
  destruct (deref d ref);
    auto using store_paragraph_caches, store_cell_caches,
      store_header_caches, store_footer_caches.
Qed.

Lemma apply_replacement_done_caches (d d' : DocumentModel)
    (ops ops' : list ElementReplacement) (ref : ElemRef)
    (ph : PlaceholderModel) :
  apply_replacement_done d ops ref ph = Ok (d', ops') →
  paragraph_caches d' = paragraph_caches d.
Proof.
  unfold apply_replacement_done. intros Hdone.
  destruct (deref d ref); bind_inv Hdone; repeat case_match;
    bind_inv Hdone; repeat case_match; simplify_eq;
    auto using store_paragraph_caches, store_cell_caches,
      store_header_caches, store_footer_caches.
Qed.

Lemma placeholder_step_caches (st st' : DocumentModel * list ElementReplacement)
    (ph : PlaceholderModel) :
  placeholder_step st ph = Ok st' →
  paragraph_caches st'.1 = paragraph_caches st.1.
Proof.
  unfold placeholder_step. destruct st as [d ops]. intros Hstep.
  pose proof (get_element_by_id_caches d (ph_element_id ph)) as Hget.
  destruct (get_element_by_id d (ph_element_id ph)) as [d1 element].
  simpl in Hget.
  repeat case_match; simplify_eq; simpl;
    rewrite ?apply_deleted_caches;
    try (destruct st' as [d' ops'];
         erewrite apply_replacement_done_caches by done);
    unfold paragraph_caches; simpl; congruence.
Qed.

Lemma fold_raise {A B} (f : result A → B → result A) (e : PyError)
    (l : list B) :
  (∀ b, f (Raise e) b = Raise e) → foldl f (Raise e) l = Raise e.
Proof. intros Hf. induction l as [|b l IH]; simpl; [done|]. by rewrite Hf. Qed.

Lemma placeholder_loop_caches (phs : list PlaceholderModel)
    (st st' : DocumentModel * list ElementReplacement) :
  foldl (λ (acc : result (DocumentModel * list ElementReplacement)) ph,
           st ← acc; placeholder_step st ph) (Ok st) phs = Ok st' →
  paragraph_caches st'.1 = paragraph_caches st.1.
Proof.
  revert st. induction phs as [|ph phs IH]; intros st; simpl.
  - by intros [= <-].
  - destruct (placeholder_step st ph) as [st1|e] eqn:Hstep.
    + intros Hfold. rewrite (IH _ Hfold).
      by eapply placeholder_step_caches.
    + by rewrite fold_raise.
Qed.

Lemma apply_replacement_caches (d d' : DocumentModel)
    (op : ElementReplacement) :
  _apply_replacement d op = Ok d' →
  paragraph_caches d' = paragraph_caches d
  ∧ _element_index d' = _element_index d.
Proof.
  unfold _apply_replacement. intros Hrep. bind_inv Hrep.
  repeat case_match; by simplify_eq.
Qed.

Lemma replacement_loop_caches (ops : list ElementReplacement)
    (d d' : DocumentModel) :
  foldl (λ (acc : result DocumentModel) op,
           d ← acc; _apply_replacement d op) (Ok d) ops = Ok d' →
  paragraph_caches d' = paragraph_caches d.
Proof.
  revert d. induction ops as [|op ops IH]; intros d; simpl.
  - by intros [= <-].
  - destruct (_apply_replacement d op) as [d1|e] eqn:Hrep.
    + intros Hfold. rewrite (IH _ Hfold).
      by eapply apply_replacement_caches.
    + by rewrite fold_raise.
Qed.

(** What [apply_placeholders] does to the caches, for every document and
    every batch that is not empty: the element index is emptied, and the
    paragraph order index is left as it was. *)
Lemma apply_placeholders_caches (d d' : DocumentModel)
    (placeholders : list PlaceholderModel) :
  placeholders ≠ [] →
  apply_placeholders d placeholders = Ok d' →
  _element_index d' = ∅
  ∧ _paragraph_index d' = _paragraph_index d
  ∧ _paragraph_order d' = _paragraph_order d.
Proof.
  intros Hne Happly. destruct placeholders as [|ph phs]; [done|].
  unfold apply_placeholders in Happly.
  match type of Happly with
  | context [foldl ?f ?a ?l] =>
      destruct (foldl f a l) as [[d0 ops]|e] eqn:E1; [|discriminate]
  end.
  simpl in Happly.
  match type of Happly with
  | context [foldl ?f ?a ?l] =>
      destruct (foldl f a l) as [d3|e] eqn:E2; [|discriminate]
  end.
  simpl in Happly. injection Happly as <-.
  apply placeholder_loop_caches in E1.
  apply replacement_loop_caches in E2.
  unfold paragraph_caches in *. simpl in *.
  split; [done|]. split; congruence.
Qed.

(** C4, at a document on which the claim fails. The paragraph order index
    of the two-paragraph document is built by a lookup of the text that
    follows the first paragraph; then a one-placeholder batch replaces the
    second paragraph by a table. When [apply_placeholders] has returned,
    the element index is empty, but the paragraph order index still lists
    the second paragraph: the layout now holds the first paragraph and a
    table, and the lookup of the text that follows the first paragraph
    still answers with the text of the paragraph that was replaced. *)
Theorem apply_placeholders_keeps_paragraph_index :
  let p0 := "doc::0:layout::0:para::0" in
  let p1 := "doc::0:layout::0:para::1" in
  let d1 := (get_next_paragraph_text two_paragraphs p0).1 in
  ∃ d2, apply_placeholders d1 [table_placeholder] = Ok d2
    ∧ _element_index d2 = ∅
    ∧ _paragraph_order d2 = [Some p0; Some p1]
    ∧ _paragraph_index d2 !! Some p1 = Some 2%positive
    ∧ (layout_elements <$> layouts d2) = [[1; 3]%positive]
    ∧ (element_id <$> doc_objects d2 !! 3%positive) = Some None
    ∧ (get_next_paragraph_text d2 p0).2 = Ok (Some "Figures").
Proof.
  eexists. split; [vm_compute; reflexivity|].
  repeat split; vm_compute; reflexivity.
Qed.

End MutationProperties.

(** ** The properties at concrete inputs

    The model runs on the reference library [RefLib.lib]. *)

Section Concrete.
#[local] Existing Instance RefLib.lib.
Import PyStr.

Lemma reflib_int16_reads_hex_pairs : int16_reads_hex_pairs.
Proof.
  intros a b Ha Hb. simpl. unfold RefLib.read_digits. simpl.
  rewrite Ha, Hb. reflexivity.
Qed.


(** C2 at the runs "Hel", "lo World": the two runs together contain
    "Hello", and no single run does. *)
Lemma find_run_window_minimal_witness :
  let runs := [from_text "Hel"; from_text "lo World"] in
  "Hello" ≠ ""
  ∧ contains_target runs "Hello" 0 2
  ∧ ∃ win, find_run_window runs "Hello" = Some win
      ∧ contains_target runs "Hello" (start_run win) (end_run win)
      ∧ (∀ i j, contains_target runs "Hello" i j →
           (end_run win - start_run win ≤ j - i)%nat)
      ∧ (∀ i j, contains_target runs "Hello" i j →
           (j - i)%nat = (end_run win - start_run win)%nat →
           (start_run win ≤ i)%nat).
Proof.
  assert (contains_target [from_text "Hel"; from_text "lo World"]
            "Hello" 0 2) as Hc.
  { split; [split; repeat constructor|].
    exists 0%nat, "", " World". split; reflexivity. }
  split; [discriminate|]. split; [exact Hc|].
  apply (find_run_window_minimal
           [from_text "Hel"; from_text "lo World"] "Hello").
  - discriminate.
  - exists 0%nat, 2%nat. exact Hc.
Defined.

(** C3 at the document [five_headings]. *)
Lemma build_hierarchy_heading_stack_witness :
  ∃ d', build_hierarchy five_headings = Ok d'
    ∧ iter_elements d' = [1; 2; 3; 4; 5]%positive
    ∧ parent_ref_of d' <$> [1; 2; 3; 4; 5]%positive
      = [Some None; Some (Some "h1"); Some (Some "h2"); Some (Some "h1");
         Some None].
Proof.
  apply (build_hierarchy_heading_stack five_headings
           1%positive 2%positive 3%positive 4%positive 5%positive
           (sample_paragraph "h1" "Heading 1" "A")
           (sample_paragraph "h2" "Heading 2" "B")
           (sample_paragraph "h3" "Heading 3" "C")
           (sample_paragraph "h4" "Heading 2" "D")
           (sample_paragraph "h5" "Heading 1" "E")).
  - reflexivity.
  - apply (bool_decide_unpack _). vm_compute. exact I.
  - split; [reflexivity|]. eexists. split; reflexivity.
  - split; [reflexivity|]. eexists. split; reflexivity.
  - split; [reflexivity|]. eexists. split; reflexivity.
  - split; [reflexivity|]. eexists. split; reflexivity.
  - split; [reflexivity|]. eexists. split; reflexivity.
Defined.

(** C5 at the layout record with one element of type "Image": the
    layout that [from_dict] returns has one element slot, and it holds
    [None]. *)
Lemma from_dict_keeps_unknown_slots_witness :
  ∃ layout,
    LayoutModel_from_dict (λ _, Raise TypeError) (λ _, Raise TypeError)
      (λ _, Raise TypeError) (λ _, Raise TypeError) layout_with_image
    = Ok layout
    ∧ length (fd_elements layout) = 1%nat
    ∧ fd_elements layout !! 0%nat = Some None.
Proof.
  eexists. split; [reflexivity|].
  pose proof (from_dict_keeps_unknown_slots
                (λ _, Raise TypeError) (λ _, Raise TypeError)
                (λ _, Raise TypeError) (λ _, Raise TypeError)
                layout_with_image [PyDict [("type", PyText "Image")]] _
                eq_refl eq_refl) as [Hlen Hslot].
  split; [exact Hlen|].
  exact (Hslot 0%nat _ eq_refl eq_refl).
Defined.

(** C6 fails as stated: the code puts [strong] inside [sup], the
    specification [sup] inside [strong]. *)
Lemma run_to_html_not_as_specified :
  run_to_html bold_superscript = "<span><sup><strong>x</strong></sup></span>"
  ∧ to_html_as_specified bold_superscript
    = "<span><strong><sup>x</sup></strong></span>"
  ∧ run_to_html bold_superscript ≠ to_html_as_specified bold_superscript.
Proof. split; [reflexivity|]. split; [reflexivity|]. discriminate. Qed.

(** C6, amended, at the bold superscript run. *)
Lemma run_to_html_wrapping_witness :
  run_text bold_superscript ≠ ""
  ∧ run_to_html bold_superscript
    = "<span><sup><strong>x</strong></sup></span>".
Proof.
  split; [discriminate|].
  rewrite (run_to_html_wrapping bold_superscript); [reflexivity|discriminate].
Defined.

(** C7 fails as stated: in [three_greens] the second and the third colour
    are further apart than 10, so the specification gives no intent, and
    the code answers "instruction". *)
Lemma classify_intent_not_pairwise :
  get_color <$> para_runs three_greens
  = [Some "00B050"; Some "00B046"; Some "00B05A"]
  ∧ further_than 10 (rgb_of_hex6 "00B046") (rgb_of_hex6 "00B05A") = true
  ∧ intent_as_specified (rgb_of_hex6 <$> ["00B050"; "00B046"; "00B05A"])
    = None
  ∧ classify_intent three_greens = Ok (Some "instruction").
Proof. repeat split; reflexivity. Qed.

(** C7, amended, at [three_greens]. *)
Lemma classify_intent_by_first_colour_witness :
  int16_reads_hex_pairs
  ∧ Forall2 (λ r c, get_color r = Some c ∧ valid_hex6 c = true)
      (para_runs three_greens) ["00B050"; "00B046"; "00B05A"]
  ∧ classify_intent three_greens = Ok (Some "instruction").
Proof.
  assert (Forall2 (λ r c, get_color r = Some c ∧ valid_hex6 c = true)
            (para_runs three_greens) ["00B050"; "00B046"; "00B05A"]) as Hc.
  { repeat constructor. }
  split; [exact reflib_int16_reads_hex_pairs|]. split; [exact Hc|].
  rewrite (proj1 (classify_intent_by_first_colour three_greens
                    reflib_int16_reads_hex_pairs) _ Hc).
  reflexivity.
Defined.

(** C8 at [two_columns]. *)
Lemma get_type_classification_witness :
  rows two_columns = [text_cell "key" 1 1; text_cell "value" 1 1] :: []
  ∧ get_type two_columns = Ok "Keyvalue".
Proof.
  split; [reflexivity|].
  rewrite (proj1 (get_type_classification two_columns _ _ eq_refl)).
  reflexivity.
Defined.

(** C9 fails as stated: the slice of a run with an empty text over its
    whole text is "no result". *)
Lemma slice_run_empty_text :
  slice_run (from_text "") 0 (len (run_text (from_text ""))) = None
  ∧ ¬ (∀ r : RunModel,
         ∃ r', slice_run r 0 (len (run_text r)) = Some r'
           ∧ run_text r' = run_text r).
Proof.
  split; [reflexivity|].
  intros Hall. destruct (Hall (from_text "")) as (r' & Hr' & _).
  discriminate.
Qed.

(** C9, amended, at the run "Hello". *)
Lemma slice_run_full_text_witness :
  run_text (from_text "Hello") ≠ ""
  ∧ ∃ r', slice_run (from_text "Hello") 0 (len (run_text (from_text "Hello")))
          = Some r'
      ∧ run_text r' = run_text (from_text "Hello")
      ∧ run_attributes r' = run_attributes (from_text "Hello").
Proof.
  split; [discriminate|].
  apply (slice_run_full_text (from_text "Hello")). discriminate.
Defined.

End Concrete.

(** ** Texts of edited runs *)

Module PyStrLists.
Import PyStr PyStrFacts.

Lemma to_list_append (a b : string) :
  to_list (a +:+ b) = to_list a ++ to_list b.
Proof.
  induction a as [|c a IH]; [done|].
  rewrite append_cons. simpl. by rewrite IH.
Qed.

Lemma of_list_app (l1 l2 : list ascii) :
  of_list (l1 ++ l2) = of_list l1 +:+ of_list l2.
Proof.
  induction l1 as [|c l1 IH]; [done|].
  simpl. rewrite append_cons. by rewrite IH.
Qed.

Lemma of_to_list (s : string) : of_list (to_list s) = s.
Proof. apply string_of_list_ascii_of_string. Qed.

Lemma to_of_list (l : list ascii) : to_list (of_list l) = l.
Proof. apply list_ascii_of_string_of_list_ascii. Qed.

Lemma length_to_list (s : string) : length (to_list s) = String.length s.
Proof. induction s as [|c s IH]; simpl; [done | by rewrite IH]. Qed.

Lemma substring_take_drop (n m : nat) (s : string) :
  String.substring n m s = of_list (take m (drop n (to_list s))).
Proof.
  revert n m.
  induction s as [|c s IH]; intros [|n] [|m]; simpl; rewrite ?IH; done.
Qed.

Lemma slice_take_drop (s : string) (a b : Z) :
  slice s a b
  = of_list (take (Z.to_nat (b - a)) (drop (Z.to_nat a) (to_list s))).
Proof. apply substring_take_drop. Qed.

Lemma join_app (l1 l2 : list string) :
  join (l1 ++ l2) = join l1 +:+ join l2.
Proof.
  induction l1 as [|x l1 IH]; [done|].
  simpl. unfold join in *. simpl. rewrite IH. by rewrite append_assoc.
Qed.

Lemma join_cons (x : string) (l : list string) :
  join (x :: l) = x +:+ join l.
Proof. reflexivity. Qed.

Lemma of_list_nil_inv (l : list ascii) : of_list l = "" → l = [].
Proof. by destruct l. Qed.

End PyStrLists.

Section FragmentTexts.
Context `{!PyLib}.
Import PyStr PyStrFacts PyStrLists.

Lemma slice_run_in_range (r : RunModel) (a b : Z) :
  0 ≤ a → a < b → b ≤ len (run_text r) →
  slice_run r a b
  = Some (RunModel_new (slice (run_text r) a b) (run_attributes r)).
Proof.
  intros Ha Hab Hb. unfold slice_run.
  replace (a <? 0) with false by lia.
  replace (b >? len (run_text r)) with false by lia.
  by replace (a >=? b) with false by lia.
Qed.

Lemma slice_run_out_of_range (r : RunModel) (a b : Z) :
  a < 0 ∨ len (run_text r) < b ∨ b ≤ a → slice_run r a b = None.
Proof.
  intros Hout. unfold slice_run.
  destruct (a <? 0) eqn:E1; [done|].
  destruct (b >? len (run_text r)) eqn:E2; [done|].
  destruct (a >=? b) eqn:E3; [done|]. lia.
Qed.

Lemma length_slice (s : string) (a b : Z) :
  0 ≤ a → a ≤ b → b ≤ len s → len (slice s a b) = b - a.
Proof.
  intros Ha Hab Hb. unfold len in *. rewrite slice_take_drop.
  rewrite <- length_to_list, to_of_list, length_take, length_drop.
  rewrite length_to_list. lia.
Qed.

(** X1. [slice_run] returns a run exactly for a range that is not empty
    and lies in the text; the run then holds the characters of the range,
    so its text is never empty, a copy of the attributes, and no
    identifier. *)
Theorem slice_run_result (r : RunModel) (a b : Z) :
  (0 ≤ a ∧ a < b ∧ b ≤ len (run_text r) →
   ∃ r', slice_run r a b = Some r'
     ∧ run_text r' = slice (run_text r) a b
     ∧ len (run_text r') = b - a
     ∧ run_text r' ≠ ""
     ∧ run_attributes r' = run_attributes r
     ∧ run_id r' = None)
  ∧ (a < 0 ∨ len (run_text r) < b ∨ b ≤ a → slice_run r a b = None).
Proof.
  split; [|apply slice_run_out_of_range].
  intros (Ha & Hab & Hb). eexists. split; [by apply slice_run_in_range|].
  simpl. assert (len (slice (run_text r) a b) = b - a) as Hlen
    by (apply length_slice; lia).
  repeat split; try done.
  intros Hempty. rewrite Hempty in Hlen. unfold len in Hlen. simpl in Hlen.
  lia.
Qed.

Lemma frag_text_slice_run (r : RunModel) (a b : Z) :
  0 ≤ a → a ≤ b → b ≤ len (run_text r) →
  frag_text (slice_run r a b) = slice (run_text r) a b.
Proof.
  intros Ha Hab Hb. destruct (decide (a = b)) as [->|Hne].
  - rewrite slice_run_empty. simpl. rewrite slice_take_drop.
    by rewrite Z.sub_diag.
  - by rewrite slice_run_in_range by lia.
Qed.

(** X2. For positions [0 <= start <= end <= len(run.text)] the texts of
    the fragments that [split_run] returns, taken in order, spell the text
    of the run. *)
Theorem split_run_round_trip (r : RunModel) (start end_ : Z) :
  0 ≤ start → start ≤ end_ → end_ ≤ len (run_text r) →
  frag_text (split_run r start end_).1.1
  +:+ frag_text (split_run r start end_).1.2
  +:+ frag_text (split_run r start end_).2
  = run_text r.
Proof.
  intros Hs Hse He. unfold split_run. simpl.
  rewrite !frag_text_slice_run by lia.
  rewrite !slice_take_drop, <- !of_list_app.
  transitivity (of_list (to_list (run_text r))); [|apply of_to_list].
  f_equal. unfold len in *. rewrite <- length_to_list in *.
  set (l := to_list (run_text r)) in *.
  replace (Z.to_nat (start - 0)) with (Z.to_nat start) by lia.
  change (Z.to_nat 0) with 0%nat. rewrite drop_0.
  rewrite (take_ge (drop (Z.to_nat end_) l))
    by (rewrite length_drop; lia).
  replace (drop (Z.to_nat end_) l)
    with (drop (Z.to_nat (end_ - start)) (drop (Z.to_nat start) l))
    by (rewrite drop_drop; f_equal; lia).
  by rewrite !take_drop.
Qed.

End FragmentTexts.

Section WindowTexts.
Context `{!PyLib}.
Import PyStr PyStrFacts PyStrLists.

Lemma plain_text_cons (r : RunModel) (runs : list RunModel) :
  plain_text (r :: runs) = run_text r +:+ plain_text runs.
Proof. reflexivity. Qed.

Lemma plain_text_app (l1 l2 : list RunModel) :
  plain_text (l1 ++ l2) = plain_text l1 +:+ plain_text l2.
Proof. unfold plain_text. by rewrite fmap_app, join_app. Qed.




Lemma drop_clamp {A} (k : nat) (l : list A) :
  drop k l = drop (k `min` length l) l.
Proof.
  destruct (decide (k ≤ length l)%nat).
  - by rewrite Nat.min_l.
  - rewrite Nat.min_r by lia. rewrite !drop_ge; [done|lia..].
Qed.


End WindowTexts.

Module OccursFacts.
Import PyStr PyStrFacts PyStrLists.

Lemma list_three_parts {A} (l : list A) (i k : nat) :
  take i l ++ take k (drop i l) ++ drop (i + k) l = l.
Proof. by rewrite <- drop_drop, !take_drop. Qed.

Lemma occurs_at_list (i : nat) (sub s : string) :
  occurs_at i sub s
  ↔ (i + String.length sub ≤ String.length s)%nat
    ∧ take (String.length sub) (drop i (to_list s)) = to_list sub.
Proof.
  split.
  - intros (pre & post & -> & Hlen). subst i.
    rewrite !length_append, !to_list_append. split; [lia|].
    rewrite drop_app_length' by by rewrite length_to_list.
    by rewrite take_app_length' by by rewrite length_to_list.
  - intros [Hlen Htake].
    exists (of_list (take i (to_list s))),
      (of_list (drop (i + String.length sub) (to_list s))).
    split.
    + transitivity
        (of_list (take i (to_list s)
                  ++ take (String.length sub) (drop i (to_list s))
                  ++ drop (i + String.length sub) (to_list s))).
      * by rewrite list_three_parts, of_to_list.
      * by rewrite !of_list_app, Htake, of_to_list.
    + rewrite <- length_to_list, to_of_list, length_take, length_to_list.
      lia.
Qed.

Lemma occurs_at_app_r (i : nat) (sub a b : string) :
  occurs_at i sub (a +:+ b) → (String.length a ≤ i)%nat →
  occurs_at (i - String.length a) sub b.
Proof.
  rewrite !occurs_at_list, length_append, to_list_append.
  intros [Hlen Htake] Hi. split; [lia|].
  rewrite drop_app_ge in Htake by (rewrite length_to_list; lia).
  by rewrite length_to_list in Htake.
Qed.

Lemma occurs_at_app_l (i : nat) (sub a b : string) :
  occurs_at i sub (a +:+ b) → (i + String.length sub ≤ String.length a)%nat →
  occurs_at i sub a.
Proof.
  rewrite !occurs_at_list, length_append, to_list_append.
  intros [Hlen Htake] Hi. split; [lia|].
  rewrite drop_app_le in Htake by (rewrite length_to_list; lia).
  rewrite take_app_le in Htake; [done|].
  rewrite length_drop, length_to_list. lia.
Qed.

Lemma substring_of_middle (sub a m b : string) :
  substring_of sub m → substring_of sub (a +:+ m +:+ b).
Proof.
  intros (i & pre & post & -> & _).
  exists (String.length (a +:+ pre)), (a +:+ pre), (post +:+ b).
  split; [|done]. by rewrite !append_assoc.
Qed.

Lemma occurs_at_slice (i : nat) (sub s : string) :
  occurs_at i sub s →
  slice s (Z.of_nat i) (Z.of_nat i + len sub) = sub
  ∧ s = of_list (take i (to_list s)) +:+ sub
        +:+ of_list (drop (i + String.length sub) (to_list s)).
Proof.
  intros Hocc. pose proof Hocc as [Hlen Htake]%occurs_at_list. split.
  - rewrite slice_take_drop. unfold len.
    replace (Z.to_nat (Z.of_nat i + Z.of_nat (String.length sub) - Z.of_nat i))
      with (String.length sub) by lia.
    by rewrite Nat2Z.id, Htake, of_to_list.
  - transitivity
      (of_list (take i (to_list s)
                ++ take (String.length sub) (drop i (to_list s))
                ++ drop (i + String.length sub) (to_list s))).
    + by rewrite list_three_parts, of_to_list.
    + by rewrite !of_list_app, Htake, of_to_list.
Qed.

End OccursFacts.

Section WindowGeometry.
Context `{!PyLib}.
Import PyStr PyStrFacts PyStrLists OccursFacts.

Lemma list_slice_parts {A} (l : list A) (i j : nat) :
  (i ≤ j)%nat → l = take i l ++ list_slice l i j ++ drop j l.
Proof.
  intros Hij. unfold list_slice.
  rewrite <- (list_three_parts l i (j - i)) at 1.
  repeat f_equal. lia.
Qed.

Lemma list_slice_full {A} (l : list A) : list_slice l 0 (length l) = l.
Proof. unfold list_slice. rewrite drop_0, Nat.sub_0_r. apply firstn_all. Qed.

Lemma list_slice_tail {A} (l : list A) (i j : nat) (x : A) (rest : list A) :
  list_slice l i j = x :: rest → rest = list_slice l (S i) j.
Proof.
  unfold list_slice. intros Hslice.
  replace (drop (S i) l) with (drop 1 (drop i l))
    by (rewrite drop_drop; f_equal; lia).
  destruct (drop i l) as [|y d]; [by rewrite take_nil in Hslice|].
  destruct (j - i)%nat as [|k] eqn:Hk; [done|].
  simpl in Hslice. injection Hslice as _ <-.
  simpl. rewrite ?drop_0. f_equal. lia.
Qed.

Lemma list_slice_init {A} (l : list A) (i j : nat) (init : list A) (x : A) :
  (j ≤ length l)%nat → list_slice l i j = init ++ [x] →
  (i < j)%nat ∧ init = list_slice l i (j - 1).
Proof.
  unfold list_slice. intros Hj Hslice.
  assert (length (take (j - i) (drop i l)) = S (length init)) as Hlen
    by (rewrite Hslice, length_app; simpl; lia).
  rewrite length_take, length_drop in Hlen. split; [lia|].
  replace (j - 1 - i)%nat with (length init `min` (j - i))%nat by lia.
  rewrite <- take_take, Hslice. by rewrite take_app_length.
Qed.

Lemma len_nonneg (s : string) : 0 ≤ len s.
Proof. unfold len. lia. Qed.

Lemma len_append (a b : string) : len (a +:+ b) = len a + len b.
Proof. unfold len. rewrite length_append. lia. Qed.

(** A window is well placed as soon as the first run reaches the start of
    the characters and the last run starts before their end. *)
Lemma window_ok_intro (cs ce offset : Z) (merged : list RunModel) :
  (∀ r rest, merged = r :: rest → cs - offset ≤ len (run_text r)) →
  (∀ init r, merged = init ++ [r] → offset + len (plain_text init) ≤ ce) →
  window_ok cs ce offset merged.
Proof.
  revert offset. induction merged as [|r rest IH]; intros offset Hfirst Hlast;
    [done|].
  pose proof (Hfirst r rest eq_refl) as Hr.
  assert (0 ≤ ce - offset) as Hce.
  { destruct (@exists_last _ (r :: rest)) as (init & x & Heq); [done|].
    pose proof (Hlast init x Heq). pose proof (len_nonneg (plain_text init)).
    lia. }
  simpl. split; [done|]. split; [done|]. apply IH.
  - intros r2 rest2 _. pose proof (len_nonneg (run_text r2)). lia.
  - intros init x ->. specialize (Hlast (r :: init) x eq_refl).
    rewrite plain_text_cons, len_append in Hlast. lia.
Qed.

(** Where the window that [find_run_window] returns lies: its runs are in
    the list, the target fills the characters [char_start], ...,
    [char_end - 1] of the merged text, and these characters start in the
    first run of the window and end in the last one. *)
Lemma found_window_geometry (runs : list RunModel) (text : string)
    (win : RunWindow) :
  text ≠ "" → find_run_window runs text = Some win →
  let merged := list_slice runs (start_run win) (end_run win) in
  (start_run win < end_run win ≤ length runs)%nat
  ∧ 0 ≤ char_start win
  ∧ char_end win = char_start win + len text
  ∧ occurs_at (Z.to_nat (char_start win)) text (plain_text merged)
  ∧ window_ok (char_start win) (char_end win) 0 merged.
Proof.
  intros Hne Hwin. pose proof (find_run_window_spec runs text Hne) as Hspec.
  rewrite Hwin in Hspec.
  destruct Hspec as (Hc & Hm & Hcs & Hce & Hmin).
  pose proof (contains_target_candidate _ _ _ _ Hne Hc) as (Hw & _ & _).
  destruct Hc as [Hrange Hsub]. fold (plain_text (list_slice runs
    (start_run win) (end_run win))) in Hsub, Hm.
  apply find_found in Hsub. rewrite <- Hm in Hsub.
  pose proof (find_occurs _ _ Hsub) as Hocc.
  rewrite <- Hcs, Hm in Hocc.
  assert (0 ≤ char_start win) as Hpos.
  { rewrite Hcs. revert Hsub. unfold find. destruct (find_from _ _); lia. }
  cbv zeta. split; [lia|]. split; [done|]. split; [done|]. split; [done|].
  set (merged := list_slice runs (start_run win) (end_run win)) in *.
  pose proof Hocc as [Hlen _]%occurs_at_list.
  apply window_ok_intro.
  - intros r rest Hmerged. rewrite Z.sub_0_r.
    destruct (decide (char_start win ≤ len (run_text r))) as [|Hfar];
      [done|exfalso].
    rewrite Hmerged, plain_text_cons in Hocc.
    apply occurs_at_app_r in Hocc; [|unfold len in Hfar; lia].
    apply list_slice_tail in Hmerged. rewrite Hmerged in Hocc.
    destruct (Hmin (S (start_run win)) (end_run win)) as [|[? ?]]; [|lia..].
    split; [lia|]. by eexists.
  - intros init r Hmerged. rewrite Z.add_0_l.
    destruct (decide (len (plain_text init) ≤ char_end win)) as [|Hfar];
      [done|exfalso].
    rewrite Hmerged, plain_text_app in Hocc.
    apply occurs_at_app_l in Hocc;
      [|unfold len in *; lia].
    apply list_slice_init in Hmerged as [_ Hinit]; [|lia].
    rewrite Hinit in Hocc.
    destruct (Hmin (start_run win) (end_run win - 1)%nat) as [|[? ?]];
      [|lia..].
    split; [lia|]. by eexists.
Qed.

(** X8. The window that [find_run_window] returns for a non-empty target
    is tight: it has at least one run, its merged text is the text its
    runs spell, the first occurrence of the target in that text begins
    inside the first run of the window and ends inside the last one. *)
Theorem find_run_window_tight (runs : list RunModel) (text : string)
    (win : RunWindow) :
  text ≠ "" → find_run_window runs text = Some win →
  let merged := list_slice runs (start_run win) (end_run win) in
  merged ≠ []
  ∧ merged_text win = plain_text merged
  ∧ (∀ r rest, merged = r :: rest → char_start win < len (run_text r))
  ∧ (∀ init r, merged = init ++ [r] →
       len (plain_text init) < char_end win).
Proof.
  intros Hne Hwin. pose proof (find_run_window_spec runs text Hne) as Hspec.
  rewrite Hwin in Hspec.
  destruct Hspec as (Hc & Hm & Hcs & Hce & Hmin).
  pose proof (contains_target_candidate _ _ _ _ Hne Hc) as (Hw & _ & _).
  destruct (found_window_geometry runs text win Hne Hwin)
    as (Hrange & Hpos & _ & Hocc & _).
  cbv zeta. split.
  { intros Hnil%(f_equal length). unfold list_slice in Hnil.
    rewrite length_take, length_drop in Hnil. simpl in Hnil. lia. }
  split; [done|].
  pose proof (len_nonneg text) as Htext.
  split.
  - intros r rest Hmerged.
    destruct (decide (char_start win < len (run_text r))) as [|Hfar];
      [done|exfalso].
    rewrite Hmerged, plain_text_cons in Hocc.
    apply occurs_at_app_r in Hocc; [|unfold len in Hfar; lia].
    apply list_slice_tail in Hmerged. rewrite Hmerged in Hocc.
    destruct (Hmin (S (start_run win)) (end_run win)) as [|[? ?]]; [|lia..].
    split; [lia|]. by eexists.
  - intros init r Hmerged.
    destruct (decide (len (plain_text init) < char_end win)) as [|Hfar];
      [done|exfalso].
    rewrite Hmerged, plain_text_app in Hocc.
    apply occurs_at_app_l in Hocc; [|unfold len in *; lia].
    apply list_slice_init in Hmerged as [_ Hinit]; [|lia].
    rewrite Hinit in Hocc.
    destruct (Hmin (start_run win) (end_run win - 1)%nat) as [|[? ?]];
      [|lia..].
    split; [lia|]. by eexists.
Qed.


End WindowGeometry.

(** ** Editing keeps the text around the target *)

Section EditTexts.
Context `{!PyLib}.
Import PyStr PyStrFacts PyStrLists OccursFacts.


(** The runs of a list spell what is before a window, the window, and what
    is after it. *)
Lemma plain_text_window (runs : list RunModel) (i j : nat) :
  (i ≤ j)%nat →
  plain_text runs
  = plain_text (take i runs) +:+ plain_text (list_slice runs i j)
    +:+ plain_text (drop j runs).
Proof.
  intros Hij. rewrite (list_slice_parts runs i j Hij) at 1.
  by rewrite !plain_text_app.
Qed.

Lemma find_run_window_finds (runs : list RunModel) (text : string) :
  text ≠ "" → substring_of text (plain_text runs) →
  ∃ win, find_run_window runs text = Some win.
Proof.
  intros Hne Hsub. pose proof (find_run_window_spec runs text Hne) as Hspec.
  destruct (find_run_window runs text) as [win|]; [by eexists|].
  destruct (Hspec 0%nat (length runs)).
  split; [lia|]. by rewrite list_slice_full.
Qed.

(** X3. For a non-empty target, [find_run_window] finds a window exactly
    when the target occurs in the text that the runs spell together. *)
Theorem find_run_window_complete (runs : list RunModel) (text : string) :
  text ≠ "" →
  is_Some (find_run_window runs text) ↔ substring_of text (plain_text runs).
Proof.
  intros Hne. split; [|by apply find_run_window_finds].
  intros [win Hwin].
  pose proof (find_run_window_spec runs text Hne) as Hspec.
  rewrite Hwin in Hspec. destruct Hspec as ([Hrange Hsub] & _).
  rewrite (plain_text_window runs (start_run win) (end_run win)) by lia.
  by apply substring_of_middle.
Qed.




(** The loop of [drop_text] keeps, of the runs of a well placed window, the
    characters before [cs] and those from [ce] on. *)
Lemma drop_loop_text (cs ce : Z) (merged out : list RunModel) (offset : Z) :
  cs ≤ ce → window_ok cs ce offset merged →
  let chars := to_list (plain_text merged) in
  plain_text (foldl (drop_step cs ce) (offset, out) merged).2
  = plain_text out
    +:+ of_list (take (Z.to_nat (cs - offset)) chars
                 ++ drop (Z.to_nat (ce - offset)) chars).
Proof.
  intros Hcse. revert offset out.
  induction merged as [|r rest IH]; intros offset out Hok; cbv zeta.
  - simpl. by rewrite drop_nil, take_nil, append_nil_r.
  - destruct Hok as (Hcs & Hce & Hok).
    cbn [foldl]. unfold drop_step at 2. unfold split_run.
    rewrite (IH _ _ Hok). clear IH.
    assert (∀ (o : list RunModel) x,
              plain_text (append_some o x) = plain_text o +:+ frag_text x)
      as Happend.
    { intros o [x|]; simpl; [|by rewrite append_nil_r].
      rewrite plain_text_app. unfold plain_text at 2. simpl.
      by rewrite append_nil_r. }
    rewrite !Happend, !append_assoc. f_equal.
    rewrite plain_text_cons, to_list_append.
    unfold len in *. rewrite <- length_to_list in *.
    set (t := to_list (run_text r)) in *.
    set (t' := to_list (plain_text rest)) in *.
    rewrite !frag_text_slice_run
      by (unfold len; rewrite <- ?length_to_list; fold t; lia).
    rewrite !slice_take_drop. fold t. rewrite <- !of_list_app.
    clearbody t t'. clear Hok. f_equal.
    rewrite drop_0, take_app, drop_app.
    replace (Z.to_nat (cs - (offset + Z.of_nat (length t)))) with 0%nat
      by lia.
    replace (Z.to_nat (cs - offset) - length t)%nat with 0%nat by lia.
    rewrite !take_0, !app_nil_r, !app_nil_l.
    f_equal; [f_equal; lia|]. f_equal.
    + rewrite take_ge by (rewrite length_drop; lia).
      rewrite (drop_clamp (Z.to_nat (ce - offset))). f_equal. lia.
    + f_equal. lia.
Qed.

Lemma drop_text_window (runs : list RunModel) (text : string)
    (win : RunWindow) :
  text ≠ "" → find_run_window runs text = Some win →
  ∃ pre post,
    plain_text runs = pre +:+ text +:+ post
    ∧ plain_text (drop_text runs text) = pre +:+ post.
Proof.
  intros Hne Hwin.
  destruct (found_window_geometry runs text win Hne Hwin)
    as (Hrange & Hpos & Hce & Hocc & Hok).
  pose proof (len_nonneg text) as Hlen.
  pose proof (drop_loop_text (char_start win) (char_end win)
                (list_slice runs (start_run win) (end_run win))
                (take (start_run win) runs) 0 ltac:(lia) Hok) as Hloop.
  cbv zeta in Hloop. rewrite !Z.sub_0_r in Hloop.
  pose proof Hocc as [_ Hparts]%occurs_at_slice.
  unfold drop_text. rewrite Hwin.
  destruct (foldl _ _ _) as [offset out]. simpl in Hloop.
  rewrite plain_text_app, Hloop, of_list_app.
  exists (plain_text (take (start_run win) runs)
          +:+ of_list (take (Z.to_nat (char_start win))
                (to_list (plain_text
                   (list_slice runs (start_run win) (end_run win)))))),
    (of_list (drop (Z.to_nat (char_end win))
                (to_list (plain_text
                   (list_slice runs (start_run win) (end_run win)))))
     +:+ plain_text (drop (end_run win) runs)).
  split; [|by rewrite !append_assoc].
  rewrite (plain_text_window runs (start_run win) (end_run win)) by lia.
  rewrite Hparts at 1.
  replace (Z.to_nat (char_end win))
    with (Z.to_nat (char_start win) + String.length text)%nat
    by (unfold len in *; lia).
  by rewrite !append_assoc.
Qed.

(** X5. Dropping a non-empty target: when it occurs in the text that the
    runs spell, the result spells that text with one occurrence of the
    target taken out; when it does not, the runs are returned as they
    are. *)
Theorem drop_text_removes_one_occurrence (runs : list RunModel)
    (text : string) :
  text ≠ "" →
  (substring_of text (plain_text runs) →
   ∃ pre post,
     plain_text runs = pre +:+ text +:+ post
     ∧ plain_text (drop_text runs text) = pre +:+ post)
  ∧ (¬ substring_of text (plain_text runs) → drop_text runs text = runs).
Proof.
  intros Hne. split.
  - intros Hsub.
    destruct (find_run_window_finds runs text Hne Hsub) as [win Hwin].
    by apply (drop_text_window runs text win).
  - intros Hno. unfold drop_text.
    pose proof (find_run_window_spec runs text Hne) as Hspec.
    destruct (find_run_window runs text) as [win|]; [|done].
    destruct Hno, Hspec as ([Hrange Hsub] & _).
    rewrite (plain_text_window runs (start_run win) (end_run win)) by lia.
    by apply substring_of_middle.
Qed.

End EditTexts.

(** ** Placeholders in a paragraph *)

Section ParagraphPlaceholders.
Context `{!PyLib}.
Import PyStr PyStrFacts PyStrLists OccursFacts.

Lemma contains_spec (s sub : string) :
  contains s sub = true ↔ substring_of sub s.
Proof.
  rewrite <- find_found. unfold contains, find.
  destruct (find_from s sub); split; (done || lia).
Qed.

Lemma para_to_text_full (p : ParagraphModel) :
  para_to_text p "full" = plain_text (para_runs p).
Proof. reflexivity. Qed.

Lemma plain_text_commented (comment : option string) (r : RunModel) :
  run_text (commented comment r) = run_text r.
Proof. reflexivity. Qed.


(** X6. Deleting a non-empty placeholder text from a paragraph: the flag
    tells whether the text occurs in the full text of the paragraph; when
    it does, the full text of the paragraph afterwards is the former one
    with one occurrence taken out, and only the runs of the paragraph
    change; when it does not, the paragraph is left as it is. *)
Theorem para_apply_deleted_placeholder_text (para : ParagraphModel)
    (ph : PlaceholderModel) :
  ph_text ph ≠ "" →
  let '(para', flag) := para_apply_deleted_placeholder para ph in
  (flag = true ↔ substring_of (ph_text ph) (para_to_text para "full"))
  ∧ (flag = true →
     ∃ pre post,
       para_to_text para "full" = pre +:+ ph_text ph +:+ post
       ∧ para_to_text para' "full" = pre +:+ post)
  ∧ (flag = false → para' = para)
  ∧ para' = set_para_runs (para_runs para') para.
Proof.
  intros Hne. unfold para_apply_deleted_placeholder.
  rewrite !para_to_text_full.
  destruct (contains _ _) eqn:Hc; simpl.
  - apply contains_spec in Hc. split; [done|]. split; [|done].
    intros _. rewrite !para_to_text_full. simpl.
    destruct (find_run_window_finds _ _ Hne Hc) as [win Hwin].
    by apply (drop_text_window _ _ win).
  - split.
    + split; [done|]. intros Hsub%contains_spec. congruence.
    + split; [done|]. split; [done|]. by destruct para.
Qed.



(** The body that headers and footers share. *)
Lemma runs_apply_deleted_placeholder_text (runs : list RunModel)
    (ph : PlaceholderModel) :
  ph_text ph ≠ "" →
  let '(runs', flag) := runs_apply_deleted_placeholder runs ph in
  (flag = true ↔ substring_of (ph_text ph) (plain_text runs))
  ∧ (flag = true →
     ∃ pre post,
       plain_text runs = pre +:+ ph_text ph +:+ post
       ∧ plain_text runs' = pre +:+ post)
  ∧ (flag = false → runs' = runs).
Proof.
  intros Hne. unfold runs_apply_deleted_placeholder.
  change (join ((λ r, run_to_text r "full") <$> runs))
    with (plain_text runs).
  destruct (contains _ _) eqn:Hc; simpl.
  - apply contains_spec in Hc. split; [done|]. split; [|done].
    intros _. destruct (find_run_window_finds _ _ Hne Hc) as [win Hwin].
    by apply (drop_text_window _ _ win).
  - split; [|done]. split; [done|]. intros Hsub%contains_spec. congruence.
Qed.

(** X27. Deleting a non-empty placeholder text from a header or a footer:
    the flag tells whether the text occurs in the text of its runs; when
    it does, the runs afterwards spell the former text with one occurrence
    taken out; when it does not, the object is left as it is; the
    identifier and the type are kept in both cases. *)
Theorem header_footer_deleted_placeholder (h : HeaderModel)
    (f : FooterModel) (ph : PlaceholderModel) :
  ph_text ph ≠ "" →
  (let '(h', flag) := header_apply_deleted_placeholder h ph in
   (flag = true ↔ substring_of (ph_text ph) (plain_text (header_runs h)))
   ∧ (flag = true →
      ∃ pre post,
        plain_text (header_runs h) = pre +:+ ph_text ph +:+ post
        ∧ plain_text (header_runs h') = pre +:+ post)
   ∧ (flag = false → h' = h)
   ∧ header_id h' = header_id h ∧ header_type h' = header_type h)
  ∧ (let '(f', flag) := footer_apply_deleted_placeholder f ph in
     (flag = true ↔ substring_of (ph_text ph) (plain_text (footer_runs f)))
     ∧ (flag = true →
        ∃ pre post,
          plain_text (footer_runs f) = pre +:+ ph_text ph +:+ post
          ∧ plain_text (footer_runs f') = pre +:+ post)
     ∧ (flag = false → f' = f)
     ∧ footer_id f' = footer_id f ∧ footer_type f' = footer_type f).
Proof.
  intros Hne. split.
  - pose proof (runs_apply_deleted_placeholder_text (header_runs h) ph Hne)
      as Hruns.
    unfold header_apply_deleted_placeholder.
    destruct (runs_apply_deleted_placeholder (header_runs h) ph)
      as [runs' flag].
    destruct Hruns as (Hflag & Htext & Hsame). simpl.
    split; [done|]. split; [done|]. split; [|done].
    intros ->%Hsame. by destruct h.
  - pose proof (runs_apply_deleted_placeholder_text (footer_runs f) ph Hne)
      as Hruns.
    unfold footer_apply_deleted_placeholder.
    destruct (runs_apply_deleted_placeholder (footer_runs f) ph)
      as [runs' flag].
    destruct Hruns as (Hflag & Htext & Hsame). simpl.
    split; [done|]. split; [done|]. split; [|done].
    intros ->%Hsame. by destruct f.
Qed.

(** X30. The text of a paragraph by mode. In mode "full" it is the text
    its runs spell; in mode "drop" it is the text that the runs that are
    neither subscripts nor superscripts spell; a mode that is none of
    "full", "wrap" and "drop" gives the full text. *)
Theorem para_to_text_modes (p : ParagraphModel) (mode : string) :
  para_to_text p "full" = plain_text (para_runs p)
  ∧ para_to_text p "drop" = plain_text (filter on_the_line (para_runs p))
  ∧ (mode ≠ "full" → mode ≠ "wrap" → mode ≠ "drop" →
     para_to_text p mode = plain_text (para_runs p)).
Proof.
  split; [done|]. split.
  - unfold para_to_text. induction (para_runs p) as [|r runs IH]; [done|].
    rewrite fmap_cons, join_cons, IH, filter_cons.
    unfold run_to_text at 1. simpl.
    destruct (on_the_line r) eqn:Hon; unfold on_the_line in Hon.
    + apply negb_true_iff in Hon. rewrite Hon.
      by rewrite decide_True.
    + apply negb_false_iff in Hon. rewrite Hon.
      rewrite decide_False by (by intros []). apply append_empty_l.
  - intros Hfull Hwrap Hdrop. unfold para_to_text, plain_text.
    f_equal. apply list_fmap_ext. intros _ r _. unfold run_to_text.
    by rewrite (proj2 (String.eqb_neq _ _) Hfull),
      (proj2 (String.eqb_neq _ _) Hwrap), (proj2 (String.eqb_neq _ _) Hdrop).
Qed.

End ParagraphPlaceholders.

(** ** The mutation engine, further *)

Section MutationEngine.
Context `{!PyLib}.

(** A placeholder that [apply_placeholders] passes over: it is not
    deleted and its replacement is not done. *)
Lemma placeholder_step_idle (st : DocumentModel * list ElementReplacement)
    (ph : PlaceholderModel) :
  truthy_bool (ph_deleted ph) = false → ph_status ph ≠ REPLACEMENT_DONE →
  placeholder_step st ph = Ok st.
Proof.
  intros Hdel Hstatus. destruct st as [d ops]. unfold placeholder_step.
  rewrite Hdel. by rewrite bool_decide_eq_false_2.
Qed.

(** X9. A batch in which no placeholder is deleted and none has its
    replacement done changes nothing in the tree of the document: when the
    batch is empty the document is returned as it is, otherwise only the
    element index is emptied. *)
Theorem apply_placeholders_idle (d : DocumentModel)
    (placeholders : list PlaceholderModel) :
  Forall (λ ph, truthy_bool (ph_deleted ph) = false
                ∧ ph_status ph ≠ REPLACEMENT_DONE) placeholders →
  apply_placeholders d placeholders
  = Ok (match placeholders with [] => d | _ => invalidate_index d end).
Proof.
  intros Hidle. destruct placeholders as [|ph phs]; [done|].
  unfold apply_placeholders.
  assert (∀ st,
    foldl (λ (acc : result (DocumentModel * list ElementReplacement)) ph,
             st ← acc; placeholder_step st ph) (Ok st) (ph :: phs) = Ok st)
    as ->; [|done].
  induction Hidle as [|ph' phs' [Hdel Hstatus] _ IH]; intros st; [done|].
  simpl. rewrite placeholder_step_idle by done. apply IH.
Qed.

(** X10. Whenever [apply_placeholders] returns on a batch that is not
    empty, the element index is empty and the paragraph index and the
    paragraph order are what they were before the call, whatever the
    batch did to the elements. *)
Theorem apply_placeholders_cache_effect (d d' : DocumentModel)
    (placeholders : list PlaceholderModel) :
  placeholders ≠ [] →
  apply_placeholders d placeholders = Ok d' →
  _element_index d' = ∅
  ∧ _paragraph_index d' = _paragraph_index d
  ∧ _paragraph_order d' = _paragraph_order d.
Proof.
  intros Hne Happly. destruct placeholders as [|ph phs]; [done|].
  unfold apply_placeholders in Happly.
  match type of Happly with
  | context [foldl ?f ?a ?l] =>
      destruct (foldl f a l) as [[d0 ops]|e] eqn:E1; [|discriminate]
  end.
  simpl in Happly.
  match type of Happly with
  | context [foldl ?f ?a ?l] =>
      destruct (foldl f a l) as [d3|e] eqn:E2; [|discriminate]
  end.
  simpl in Happly. injection Happly as <-.
  apply placeholder_loop_caches in E1.
  apply replacement_loop_caches in E2.
  unfold paragraph_caches in *. simpl in *.
  split; [done|]. split; congruence.
Qed.

(** *** Structural replacement *)

Lemma fresh_loc_bound (objects : gmap loc ElementModel) (used : list loc) :
  (∀ a, is_Some (objects !! a) → (a < fresh_loc objects used)%positive)
  ∧ (∀ a, a ∈ used → (a < fresh_loc objects used)%positive).
Proof.
  unfold fresh_loc.
  set (m := map_fold (λ a _ m, Pos.max a m) 1%positive objects).
  assert (∀ a, is_Some (objects !! a) → (a ≤ m)%positive) as Hm.
  { subst m.
    apply (map_fold_weak_ind
             (λ (r : positive) (mp : gmap loc ElementModel),
                ∀ a, is_Some (mp !! a) → (a ≤ r)%positive)).
    - intros a [? Ha]. by rewrite lookup_empty in Ha.
    - intros i x mp r _ IH a Ha.
      destruct (decide (a = i)) as [->|Hne]; [lia|].
      rewrite lookup_insert_ne in Ha by done. specialize (IH a Ha). lia. }
  clearbody m.
  assert (m ≤ foldr Pos.max m used)%positive as Hge
    by (induction used; simpl; lia).
  split.
  - intros a Ha. specialize (Hm a Ha). lia.
  - intros a Ha. clear Hm Hge.
    induction used as [|b used IH]; [by apply elem_of_nil in Ha|].
    apply elem_of_cons in Ha as [->|Ha]; simpl; [lia|].
    specialize (IH Ha). lia.
Qed.

Lemma fresh_loc_fresh (objects : gmap loc ElementModel) (used : list loc) :
  objects !! fresh_loc objects used = None ∧ fresh_loc objects used ∉ used.
Proof.
  destruct (fresh_loc_bound objects used) as [Hobj Hused]. split.
  - destruct (objects !! fresh_loc objects used) eqn:Hl; [|done].
    specialize (Hobj _ (mk_is_Some _ _ Hl)). lia.
  - intros Hin. specialize (Hused _ Hin). lia.
Qed.

(** The new objects get addresses that are not in use, one each, and no
    object that is in use moves. *)
Lemma allocate_spec (new : list ElementModel)
    (objects objects' : gmap loc ElementModel) (used locs : list loc) :
  allocate objects used new = (objects', locs) →
  Forall2 (λ a e, objects' !! a = Some e) locs new
  ∧ NoDup locs
  ∧ (∀ a, is_Some (objects !! a) ∨ a ∈ used →
       (a ∉ locs) ∧ objects' !! a = objects !! a).
Proof.
  revert objects objects' locs.
  induction new as [|e new IH]; intros objects objects' locs; simpl.
  - intros [= <- <-]. split; [constructor|]. split; [constructor|].
    intros a _. split; [apply not_elem_of_nil|done].
  - destruct (allocate _ used new) as [objects1 locs1] eqn:Halloc.
    intros [= <- <-].
    destruct (IH _ _ _ Halloc) as (Hnew & Hnodup & Hold). clear IH Halloc.
    destruct (fresh_loc_fresh objects used) as [Hfree Hunused].
    set (a0 := fresh_loc objects used) in *.
    destruct (Hold a0) as [Ha0 Hl0];
      [left; rewrite lookup_insert_eq; by eexists|].
    rewrite lookup_insert_eq in Hl0.
    split; [by constructor|]. split; [by constructor|].
    intros a Ha.
    assert (a ≠ a0) as Hne.
    { intros ->. destruct Ha as [[? Ha]|Ha]; [congruence|done]. }
    destruct (Hold a) as [Hnotin Hl].
    { destruct Ha as [Ha|Ha]; [left|by right].
      by rewrite lookup_insert_ne. }
    rewrite lookup_insert_ne in Hl by done.
    split; [|done]. by intros [->|?]%elem_of_cons.
Qed.

(** The search of a list that is in two parts. *)
Lemma find_element_slot_app (objects : gmap loc ElementModel)
    (old : option string) (l1 l2 : list loc) :
  find_element_slot objects old (l1 ++ l2)
  = match find_element_slot objects old l1 with
    | Raise e => Raise e
    | Ok (Some k) => Ok (Some k)
    | Ok None =>
        match find_element_slot objects old l2 with
        | Raise e => Raise e
        | Ok idx => Ok ((λ k, (length l1 + k)%nat) <$> idx)
        end
    end.
Proof.
  induction l1 as [|a l1 IH]; simpl.
  - destruct (find_element_slot objects old l2) as [[k|]|e]; done.
  - destruct (objects !! a) as [e|]; [|done].
    case_decide; [done|]. rewrite IH.
    destruct (find_element_slot objects old l1) as [[k|]|e1]; simpl; try done.
    destruct (find_element_slot objects old l2) as [[k|]|e2]; done.
Qed.

Lemma find_element_slot_bound (objects : gmap loc ElementModel)
    (old : option string) (l : list loc) (k : nat) :
  find_element_slot objects old l = Ok (Some k) → (k < length l)%nat.
Proof.
  revert k. induction l as [|a l IH]; intros k; simpl; [done|].
  destruct (objects !! a) as [e|]; [|done].
  case_decide; [intros [= <-]; lia|].
  destruct (find_element_slot objects old l) as [[j|]|e1]; simpl; try done.
  intros [= <-]. specialize (IH j eq_refl). lia.
Qed.

(** The loop over the layouts is one search through the elements of the
    document, in their order. *)
Lemma replace_in_layouts_spec (objects : gmap loc ElementModel)
    (used : list loc) (op : ElementReplacement) (ls : list LayoutModel) :
  let els := ls ≫= layout_elements in
  match find_element_slot objects (old_element_id op) els with
  | Raise e => replace_in_layouts objects used op ls = Raise e
  | Ok None => replace_in_layouts objects used op ls = Ok None
  | Ok (Some k) =>
      ∃ ls',
        replace_in_layouts objects used op ls
        = Ok (Some ((allocate objects used (new_elements op)).1, ls'))
        ∧ ls' ≫= layout_elements
          = take k els ++ (allocate objects used (new_elements op)).2
            ++ drop (S k) els
        ∧ Forall2 (λ l l', l' = set_layout_elements (layout_elements l') l)
            ls ls'
  end.
Proof.
  induction ls as [|layout ls IH]; cbv zeta; [done|].
  rewrite bind_cons, find_element_slot_app. cbn [replace_in_layouts].
  destruct (find_element_slot objects (old_element_id op)
              (layout_elements layout)) as [[k|]|e] eqn:Hfind; simpl;
    [| |done].
  - destruct (allocate objects used (new_elements op)) as [objects' locs].
    eexists. split; [done|]. simpl.
    pose proof (find_element_slot_bound _ _ _ _ Hfind) as Hk.
    split.
    + rewrite take_app_le, drop_app_le by lia.
      by rewrite <- !app_assoc.
    + constructor; [done|]. apply Forall2_same_length_lookup_2; [done|].
      intros i l l' Hl Hl'. assert (l = l') as <- by congruence.
      by destruct l.
  - cbv zeta in IH.
    destruct (find_element_slot objects (old_element_id op)
                (ls ≫= layout_elements)) as [[k|]|e]; simpl.
    + destruct IH as (ls' & -> & Hels & Hsame). simpl.
      eexists. split; [done|]. split; [|by constructor; [destruct layout|]].
      rewrite bind_cons, Hels.
      rewrite take_app_ge, drop_app_ge by lia.
      rewrite <- !app_assoc. do 2 f_equal; [f_equal; lia|].
      do 2 f_equal. lia.
    + by rewrite IH.
    + by rewrite IH.
Qed.

(** X11. [_apply_replacement] is one search through the elements of the
    document in their order, for the first one whose identifier is the old
    one. When the search meets an empty slot first it raises; when no
    element has the identifier the document is returned as it is; when the
    element at position [k] is the first, the elements after the call are
    those before it, then new places that hold the new elements, then those
    after it: the places that were in use are not among the new ones and
    hold what they held, and every layout keeps all but its elements. *)
Theorem apply_replacement_splice (d : DocumentModel)
    (op : ElementReplacement) :
  match find_element_slot (doc_objects d) (old_element_id op)
          (iter_elements d) with
  | Raise e => _apply_replacement d op = Raise e
  | Ok None => _apply_replacement d op = Ok d
  | Ok (Some k) =>
      ∃ d' locs,
        _apply_replacement d op = Ok d'
        ∧ iter_elements d'
          = take k (iter_elements d) ++ locs ++ drop (S k) (iter_elements d)
        ∧ Forall2 (λ a e, doc_objects d' !! a = Some e) locs (new_elements op)
        ∧ NoDup locs
        ∧ (∀ a, a ∈ iter_elements d →
             (a ∉ locs) ∧ doc_objects d' !! a = doc_objects d !! a)
        ∧ Forall2 (λ l l', l' = set_layout_elements (layout_elements l') l)
            (layouts d) (layouts d')
  end.
Proof.
  pose proof (replace_in_layouts_spec (doc_objects d) (iter_elements d) op
                (layouts d)) as Hspec.
  cbv zeta in Hspec. unfold _apply_replacement, iter_elements in *.
  destruct (find_element_slot _ _ _) as [[k|]|e]; [| |by rewrite Hspec].
  - destruct Hspec as (ls' & -> & Hels & Hsame).
    destruct (allocate _ _ _) as [objects' locs] eqn:Halloc. simpl in *.
    destruct (allocate_spec _ _ _ _ _ Halloc) as (Hnew & Hnodup & Hold).
    eexists _, locs. split; [done|]. simpl.
    split; [done|]. split; [done|]. split; [done|]. split; [|done].
    intros a Ha. apply Hold. by right.
  - by rewrite Hspec.
Qed.

(** *** A paragraph replaced by a table *)

Lemma get_element_by_id_built (d : DocumentModel) (id : string) :
  get_element_by_id (_build_element_index d) (Some id)
  = (_build_element_index d,
     _element_index (_build_element_index d) !! id).
Proof.
  unfold get_element_by_id. by case_decide.
Qed.

(** X28. A one-placeholder batch whose placeholder is done, stands for a
    table, has a replacement text that parses to the table [t], and names
    a paragraph that is an element of a layout: [apply_placeholders] does
    not edit the paragraph; it is one structural replacement, of the
    element with the identifier of the paragraph by the table [t] with
    the parent reference of the paragraph, followed by the emptying of
    the element index. *)
Theorem apply_placeholders_table_swap (d : DocumentModel)
    (ph : PlaceholderModel) (id : string) (a : loc) (p : ParagraphModel)
    (t : TableModel) :
  truthy_bool (ph_deleted ph) = false →
  ph_status ph = REPLACEMENT_DONE →
  ph_future_element ph = FUTURE_TABLE →
  truthy_str (ph_replaced_text ph) = true →
  ph_element_id ph = Some id →
  _element_index (_build_element_index d) !! id = Some (RefElement a) →
  doc_objects d !! a = Some (EParagraph p) →
  table_from_html_or_text (default "" (ph_replaced_text ph)) = Ok t →
  apply_placeholders d [ph]
  = match
      _apply_replacement (_build_element_index d)
        {| old_element_id := para_id p;
           new_elements :=
             [ETable (set_table_parent_ref_id (para_parent_ref_id p) t)] |}
    with
    | Ok d' => Ok (invalidate_index d')
    | Raise e => Raise e
    end.
Proof.
  intros Hdel Hstatus Hfuture Htext Hid Hentry Hobj Htable.
  unfold apply_placeholders. cbn [foldl]. cbn [mbind result_bind].
  unfold placeholder_step. rewrite Hdel, Hstatus.
  rewrite bool_decide_eq_true_2 by done. cbn [negb].
  rewrite Hid, get_element_by_id_built, Hentry.
  unfold apply_replacement_done. cbn [deref _build_element_index
    set_element_index doc_objects]. rewrite Hobj.
  unfold resolve_structural_replacement. rewrite Hfuture, Htext.
  rewrite bool_decide_eq_true_2 by done. cbn [negb].
  rewrite Htable. simpl.
  by destruct (_apply_replacement _ _).
Qed.

(** X29. A one-placeholder batch whose placeholder is deleted and names a
    paragraph that is an element of a layout: [apply_placeholders]
    returns; the layouts are what they were, the element index is empty,
    and the elements are what they were but for that paragraph, which is
    what [ParagraphModel.apply_deleted_placeholder] makes of it, whatever
    the status of the placeholder. *)
Theorem apply_placeholders_deleted_paragraph (d : DocumentModel)
    (ph : PlaceholderModel) (id : string) (a : loc) (p : ParagraphModel) :
  truthy_bool (ph_deleted ph) = true →
  ph_element_id ph = Some id →
  _element_index (_build_element_index d) !! id = Some (RefElement a) →
  doc_objects d !! a = Some (EParagraph p) →
  ∃ d',
    apply_placeholders d [ph] = Ok d'
    ∧ layouts d' = layouts d
    ∧ _element_index d' = ∅
    ∧ paragraph_caches d' = paragraph_caches d
    ∧ doc_objects d'
      = <[a := EParagraph (para_apply_deleted_placeholder p ph).1]>
          (doc_objects d).
Proof.
  intros Hdel Hid Hentry Hobj.
  unfold apply_placeholders. cbn [foldl]. cbn [mbind result_bind].
  unfold placeholder_step. rewrite Hdel.
  rewrite Hid, get_element_by_id_built, Hentry.
  unfold apply_deleted. cbn [deref _build_element_index
    set_element_index doc_objects]. rewrite Hobj.
  simpl. by eexists.
Qed.

End MutationEngine.

(** ** The element index *)

Section ElementIndex.
Context `{!PyLib}.

Lemma foldl_inv {A B} (P : A → Prop) (f : A → B → A) (a : A) (l : list B) :
  P a → (∀ acc b, b ∈ l → P acc → P (f acc b)) → P (foldl f a l).
Proof.
  revert a. induction l as [|b l IH]; intros a Ha Hf; simpl; [done|].
  apply IH.
  - apply Hf; [by left|done].
  - intros acc b' Hb'. apply Hf. by right.
Qed.

Lemma foldl_enum_inv {A B} (P : A → Prop) (f : A → nat → B → A) (a : A)
    (l : list B) :
  P a → (∀ acc i b, l !! i = Some b → P acc → P (f acc i b)) →
  P (foldl_enum f a l).
Proof.
  intros Ha Hf. unfold foldl_enum. apply foldl_inv; [done|].
  intros acc [i b] (i' & b' & [= -> ->] & Hl)%elem_of_lookup_imap Hacc.
  by apply Hf.
Qed.

Lemma index_element_sound (d : DocumentModel) (id : option string)
    (ref : ElemRef) (index : gmap string ElemRef) :
  index_sound d index → (∀ i, id = Some i → names d i ref) →
  index_sound d (index_element id ref index).
Proof.
  intros Hindex Href. unfold index_element.
  destruct id as [i|]; [|done].
  destruct (PyStr.nonempty i) eqn:Hi; [|done].
  intros j ref'. destruct (decide (i = j)) as [<-|Hne].
  - rewrite lookup_insert_eq. intros [= <-].
    split; [by apply PyStrFacts.nonempty_true|by apply Href].
  - rewrite lookup_insert_ne by done. apply Hindex.
Qed.

Lemma index_runs_sound (d : DocumentModel) (runs : list RunModel)
    (index : gmap string ElemRef) :
  index_sound d index → (∀ run, run ∈ runs → run ∈ doc_runs d) →
  index_sound d (index_runs runs index).
Proof.
  intros Hindex Hruns. unfold index_runs. apply foldl_inv; [done|].
  intros acc run Hrun Hacc. apply index_element_sound; [done|].
  intros i Hi. exists run. split; [by apply Hruns|done].
Qed.

Lemma element_runs_in_doc (d : DocumentModel) (a : loc) (e : ElementModel)
    (run : RunModel) :
  a ∈ iter_elements d → doc_objects d !! a = Some e →
  run ∈ element_runs e → run ∈ doc_runs d.
Proof.
  intros Ha He Hrun. unfold doc_runs. apply list_elem_of_bind.
  exists a. by rewrite He.
Qed.

Lemma index_cell_sound (d : DocumentModel) (a : loc) (t : TableModel)
    (r c : nat) (row : list (option TableCellModel))
    (slot : option TableCellModel) (index : gmap string ElemRef) :
  a ∈ iter_elements d → doc_objects d !! a = Some (ETable t) →
  rows t !! r = Some row → row !! c = Some slot →
  index_sound d index → index_sound d (index_cell a r c slot index).
Proof.
  intros Ha Ht Hrow Hslot Hindex. unfold index_cell.
  destruct slot as [cell|]; [|done].
  assert (object_cell d a r c = Some cell) as Hcell.
  { unfold object_cell, table_cell. by rewrite Ht, Hrow; simpl; rewrite Hslot. }
  apply foldl_enum_inv.
  - apply index_element_sound; [done|]. intros i Hi. simpl.
    by rewrite Hcell.
  - intros acc k para Hpara Hacc. apply index_runs_sound.
    + apply index_element_sound; [done|]. intros i Hi. simpl.
      rewrite Hcell. simpl. by rewrite Hpara.
    + intros run Hrun. apply (element_runs_in_doc d a (ETable t)); [done..|].
      simpl. apply list_elem_of_bind. exists row.
      split; [|by eapply list_elem_of_lookup_2].
      apply list_elem_of_bind. exists (Some cell).
      split; [|by eapply list_elem_of_lookup_2].
      simpl. apply list_elem_of_bind. exists para.
      split; [done|]. by eapply list_elem_of_lookup_2.
Qed.

Lemma index_object_sound (d : DocumentModel) (a : loc)
    (index : gmap string ElemRef) :
  a ∈ iter_elements d →
  index_sound d index → index_sound d (index_object (doc_objects d) a index).
Proof.
  intros Ha Hindex. unfold index_object.
  destruct (doc_objects d !! a) as [[p|t]|] eqn:He; [| |done].
  - apply index_runs_sound.
    + apply index_element_sound; [done|]. intros i Hi. simpl.
      by rewrite He.
    + intros run Hrun. by apply (element_runs_in_doc d a (EParagraph p)).
  - apply foldl_enum_inv.
    + apply index_element_sound; [done|]. intros i Hi. simpl.
      by rewrite He.
    + intros acc r row Hrow Hacc. apply foldl_enum_inv; [done|].
      intros acc' c slot Hslot Hacc'. by eapply index_cell_sound.
Qed.

Lemma index_layout_sound (d : DocumentModel) (k : nat) (layout : LayoutModel)
    (index : gmap string ElemRef) :
  layouts d !! k = Some layout →
  index_sound d index →
  index_sound d (index_layout (doc_objects d) k layout index).
Proof.
  intros Hlayout Hindex. unfold index_layout. apply foldl_inv.
  - assert (index_sound d
              (index_element (layout_id layout) (RefLayout k) index)) as H1.
    { apply index_element_sound; [done|]. intros i Hi. simpl.
      by rewrite Hlayout. }
    assert (index_sound d
              match layout_header layout with
              | Some h => index_element (header_id h) (RefHeader k)
                            (index_element (layout_id layout) (RefLayout k)
                               index)
              | None => index_element (layout_id layout) (RefLayout k) index
              end) as H2.
    { destruct (layout_header layout) as [h|] eqn:Hh; [|done].
      apply index_element_sound; [done|]. intros i Hi. simpl.
      rewrite Hlayout. simpl. by rewrite Hh. }
    destruct (layout_footer layout) as [f|] eqn:Hf; [|done].
    apply index_element_sound; [done|]. intros i Hi. simpl.
    rewrite Hlayout. simpl. by rewrite Hf.
  - intros acc a Ha Hacc. apply index_object_sound; [|done].
    unfold iter_elements. apply list_elem_of_bind. exists layout.
    split; [done|]. by eapply list_elem_of_lookup_2.
Qed.

Lemma build_element_index_sound (d : DocumentModel) :
  index_sound d (_element_index (_build_element_index d)).
Proof.
  unfold _build_element_index. simpl. apply foldl_enum_inv.
  - intros i ref Hi. by rewrite lookup_empty in Hi.
  - intros acc k layout Hlayout Hacc. by apply index_layout_sound.
Qed.

(** X12. What a lookup by identifier finds when the element index is empty
    before the call (it is then built from the tree): the identifier is
    not empty, and the entry is a run of the document with that
    identifier, or the place of a layout, header, footer, element, cell or
    cell paragraph that has that identifier. The tree is not changed by
    the lookup. *)
Theorem get_element_by_id_sound (d : DocumentModel) (id : string)
    (ref : ElemRef) :
  _element_index d = ∅ →
  (get_element_by_id d (Some id)).2 = Some ref →
  id ≠ "" ∧ names d id ref
  ∧ layouts (get_element_by_id d (Some id)).1 = layouts d
  ∧ doc_objects (get_element_by_id d (Some id)).1 = doc_objects d.
Proof.
  intros Hempty. unfold get_element_by_id. rewrite decide_True by done.
  simpl. intros Href.
  destruct (build_element_index_sound d id ref Href) as [Hid Hnames].
  done.
Qed.

(** *** Every identifier of the tree has an entry *)

Lemma foldl_hit {A B} (P : A → Prop) (f : A → B → A) (a : A) (l : list B)
    (b : B) :
  b ∈ l → (∀ acc b', P acc → P (f acc b')) → (∀ acc, P (f acc b)) →
  P (foldl f a l).
Proof.
  intros Hb Hmono Hhit. revert a.
  induction l as [|b' l IH]; intros a; [by apply elem_of_nil in Hb|].
  simpl. apply elem_of_cons in Hb as [<-|Hb]; [|by apply IH].
  apply foldl_inv; [done|]. intros acc b' _. apply Hmono.
Qed.

Lemma foldl_enum_hit {A B} (P : A → Prop) (f : A → nat → B → A) (a : A)
    (l : list B) (k : nat) (b : B) :
  l !! k = Some b → (∀ acc i b', P acc → P (f acc i b')) →
  (∀ acc, P (f acc k b)) → P (foldl_enum f a l).
Proof.
  intros Hk Hmono Hhit. unfold foldl_enum.
  apply (foldl_hit P _ _ _ (k, b)).
  - apply elem_of_lookup_imap. by exists k, b.
  - intros acc [i b']. apply Hmono.
  - done.
Qed.

Section Covers.
Variable i : string.

Lemma index_element_mono id ref index :
  covers i index → covers i (index_element id ref index).
Proof.
  unfold covers, index_element. intros Hc.
  destruct id as [j|]; [|done]. destruct (PyStr.nonempty j); [|done].
  destruct (decide (j = i)) as [->|Hne].
  - rewrite lookup_insert_eq. by eexists.
  - by rewrite lookup_insert_ne.
Qed.

Lemma index_element_hit ref index :
  i ≠ "" → covers i (index_element (Some i) ref index).
Proof.
  intros Hi%PyStrFacts.nonempty_true. unfold covers, index_element.
  rewrite Hi, lookup_insert_eq. by eexists.
Qed.

Lemma index_runs_mono runs index :
  covers i index → covers i (index_runs runs index).
Proof.
  intros Hc. unfold index_runs. apply foldl_inv; [done|].
  intros acc run _. apply index_element_mono.
Qed.

Lemma index_runs_hit runs run index :
  i ≠ "" → run ∈ runs → run_id run = Some i →
  covers i (index_runs runs index).
Proof.
  intros Hi Hrun Hid. unfold index_runs.
  apply (foldl_hit (covers i) _ _ _ run); [done|..].
  - intros acc run'. apply index_element_mono.
  - intros acc. rewrite Hid. by apply index_element_hit.
Qed.

Lemma index_cell_mono a r c slot index :
  covers i index → covers i (index_cell a r c slot index).
Proof.
  intros Hc. unfold index_cell. destruct slot as [cell|]; [|done].
  apply foldl_enum_inv; [by apply index_element_mono|].
  intros acc k para _ Hacc. by apply index_runs_mono, index_element_mono.
Qed.

Lemma index_object_mono objects a index :
  covers i index → covers i (index_object objects a index).
Proof.
  intros Hc. unfold index_object.
  destruct (objects !! a) as [[p|t]|]; [| |done].
  - by apply index_runs_mono, index_element_mono.
  - apply foldl_enum_inv; [by apply index_element_mono|].
    intros acc r row _ Hacc. apply foldl_enum_inv; [done|].
    intros acc' c slot _. apply index_cell_mono.
Qed.

Lemma index_layout_mono objects k layout index :
  covers i index → covers i (index_layout objects k layout index).
Proof.
  intros Hc. unfold index_layout. apply foldl_inv.
  - destruct (layout_footer layout); destruct (layout_header layout);
      by repeat apply index_element_mono.
  - intros acc a _. apply index_object_mono.
Qed.

(** The paragraphs of a cell: a paragraph with the identifier, or a run
    with the identifier in one of them. *)
Lemma index_cell_hit a r c cell index :
  i ≠ "" →
  cell_id cell = Some i
  ∨ (∃ k para, cell_paragraphs cell !! k = Some para ∧ para_id para = Some i)
  ∨ (∃ run, run ∈ cell_runs cell ∧ run_id run = Some i) →
  covers i (index_cell a r c (Some cell) index).
Proof.
  intros Hi Hcase. unfold index_cell.
  assert (∀ acc k para,
    covers i acc →
    covers i (index_runs (para_runs para)
              (index_element (para_id para) (RefCellParagraph a r c k) acc)))
    as Hmono by (intros; by apply index_runs_mono, index_element_mono).
  destruct Hcase as [Hid|[(k & para & Hk & Hid)|(run & Hrun & Hid)]].
  - apply foldl_enum_inv; [|intros; by apply Hmono].
    rewrite Hid. by apply index_element_hit.
  - apply (foldl_enum_hit (covers i) _ _ _ k para); [done|done|].
    intros acc. apply index_runs_mono. rewrite Hid.
    by apply index_element_hit.
  - apply list_elem_of_bind in Hrun as (para & Hrun & Hpara).
    apply list_elem_of_lookup_1 in Hpara as [k Hk].
    apply (foldl_enum_hit (covers i) _ _ _ k para); [done|done|].
    intros acc. by eapply index_runs_hit.
Qed.

Lemma index_object_hit (d : DocumentModel) a index ref :
  i ≠ "" → names d i ref →
  match ref with
  | RefElement b | RefCell b _ _ | RefCellParagraph b _ _ _ => b = a
  | RefRun =>
      ∃ e run, doc_objects d !! a = Some e ∧ run ∈ element_runs e
               ∧ run_id run = Some i
  | _ => False
  end →
  covers i (index_object (doc_objects d) a index).
Proof.
  intros Hi Hnames Href. unfold index_object.
  assert (∀ t,
    (∃ r row c slot, rows t !! r = Some row ∧ row !! c = Some slot
       ∧ ∀ acc, covers i (index_cell a r c slot acc)) →
    covers i
      (foldl_enum
         (λ idx r row, foldl_enum (λ idx c cell, index_cell a r c cell idx)
                         idx row)
         (index_element (table_id t) (RefElement a) index) (rows t)))
    as Htable.
  { intros t (r & row & c & slot & Hrow & Hslot & Hhit).
    apply (foldl_enum_hit (covers i) _ _ _ r row); [done|..].
    - intros acc r' row' Hacc. apply foldl_enum_inv; [done|].
      intros acc' c' slot' _. apply index_cell_mono.
    - intros acc. apply (foldl_enum_hit (covers i) _ _ _ c slot); [done|..|done].
      intros acc' c' slot'. apply index_cell_mono. }
  destruct ref as [| | |b|b r c|b r c k|]; try done; simpl in Hnames.
  - subst b. destruct (doc_objects d !! a) as [[p|t]|]; [| |done];
      simpl in Hnames.
    + apply index_runs_mono. rewrite Hnames. by apply index_element_hit.
    + apply foldl_enum_inv.
      * rewrite Hnames. by apply index_element_hit.
      * intros acc r row _ Hacc. apply foldl_enum_inv; [done|].
        intros acc' c slot _. apply index_cell_mono.
  - subst b. unfold object_cell, table_cell in Hnames.
    destruct (doc_objects d !! a) as [[p|t]|]; [done| |done].
    destruct (rows t !! r) as [row|] eqn:Hrow; [|done]. simpl in Hnames.
    destruct (row !! c) as [[cell|]|] eqn:Hslot; [|done..]. simpl in Hnames.
    apply (Htable t). exists r, row, c, (Some cell).
    split; [done|]. split; [done|]. intros acc.
    apply index_cell_hit; [done|]. by left.
  - subst b. unfold object_cell, table_cell in Hnames.
    destruct (doc_objects d !! a) as [[p|t]|]; [done| |done].
    destruct (rows t !! r) as [row|] eqn:Hrow; [|done]. simpl in Hnames.
    destruct (row !! c) as [[cell|]|] eqn:Hslot; [|done..]. simpl in Hnames.
    destruct (cell_paragraphs cell !! k) as [para|] eqn:Hpara; [|done].
    simpl in Hnames.
    apply (Htable t). exists r, row, c, (Some cell).
    split; [done|]. split; [done|]. intros acc.
    apply index_cell_hit; [done|]. right. left. by exists k, para.
  - destruct Href as (e & run & He & Hrun & Hid). rewrite He.
    destruct e as [p|t]; simpl in Hrun.
    + by eapply index_runs_hit.
    + apply list_elem_of_bind in Hrun as (row & Hrun & Hrow).
      apply list_elem_of_bind in Hrun as (slot & Hrun & Hslot).
      apply list_elem_of_lookup_1 in Hrow as [r Hrow].
      apply list_elem_of_lookup_1 in Hslot as [c Hslot].
      destruct slot as [cell|]; [|by apply elem_of_nil in Hrun].
      apply (Htable t). exists r, row, c, (Some cell).
      split; [done|]. split; [done|]. intros acc.
      apply index_cell_hit; [done|]. right. right. by exists run.
Qed.

Lemma build_element_index_complete (d : DocumentModel) (ref : ElemRef) :
  i ≠ "" → in_tree d ref → names d i ref →
  covers i (_element_index (_build_element_index d)).
Proof.
  intros Hi Htree Hnames. unfold _build_element_index. simpl.
  assert (∀ acc k layout,
    covers i acc → covers i (index_layout (doc_objects d) k layout acc))
    as Hmono by (intros; by apply index_layout_mono).
  assert (∀ a,
    a ∈ iter_elements d →
    (∀ acc, covers i (index_object (doc_objects d) a acc)) →
    covers i (foldl_enum
              (λ idx k layout, index_layout (doc_objects d) k layout idx)
              ∅ (layouts d))) as Helem.
  { intros a Ha Hhit. unfold iter_elements in Ha.
    apply list_elem_of_bind in Ha as (layout & Ha & Hlayout).
    apply list_elem_of_lookup_1 in Hlayout as [k Hk].
    apply (foldl_enum_hit (covers i) _ _ _ k layout); [done|done|].
    intros acc. unfold index_layout.
    apply (foldl_hit (covers i) _ _ _ a); [done|..|done].
    intros acc' a'. apply index_object_mono. }
  assert (∀ k layout,
    layouts d !! k = Some layout →
    (∀ acc, covers i
       (let index := index_element (layout_id layout) (RefLayout k) acc in
        let index :=
          match layout_header layout with
          | Some h => index_element (header_id h) (RefHeader k) index
          | None => index
          end in
        match layout_footer layout with
        | Some f => index_element (footer_id f) (RefFooter k) index
        | None => index
        end)) →
    covers i (foldl_enum
              (λ idx k layout, index_layout (doc_objects d) k layout idx)
              ∅ (layouts d))) as Hlayout.
  { intros k layout Hk Hhit.
    apply (foldl_enum_hit (covers i) _ _ _ k layout); [done|done|].
    intros acc. unfold index_layout. apply foldl_inv; [apply Hhit|].
    intros acc' a _. apply index_object_mono. }
  destruct ref as [k|k|k|a|a r c|a r c k|]; simpl in Htree, Hnames.
  - destruct (layouts d !! k) as [layout|] eqn:Hk; [|done].
    simpl in Hnames. apply (Hlayout k layout Hk). intros acc. cbv zeta.
    rewrite Hnames.
    destruct (layout_footer layout); [apply index_element_mono|];
      (destruct (layout_header layout); [apply index_element_mono|]);
      by apply index_element_hit.
  - destruct (layouts d !! k) as [layout|] eqn:Hk; [|done].
    simpl in Hnames. apply (Hlayout k layout Hk). intros acc. cbv zeta.
    destruct (layout_header layout) as [h|]; [|done]. simpl in Hnames.
    rewrite Hnames.
    destruct (layout_footer layout); [apply index_element_mono|];
      by apply index_element_hit.
  - destruct (layouts d !! k) as [layout|] eqn:Hk; [|done].
    simpl in Hnames. apply (Hlayout k layout Hk). intros acc. cbv zeta.
    destruct (layout_footer layout) as [f|]; [|done]. simpl in Hnames.
    rewrite Hnames. by apply index_element_hit.
  - apply (Helem a Htree). intros acc.
    by apply (index_object_hit d a acc (RefElement a)).
  - apply (Helem a Htree). intros acc.
    by apply (index_object_hit d a acc (RefCell a r c)).
  - apply (Helem a Htree). intros acc.
    by apply (index_object_hit d a acc (RefCellParagraph a r c k)).
  - destruct Hnames as (run & Hrun & Hid). unfold doc_runs in Hrun.
    apply list_elem_of_bind in Hrun as (a & Hrun & Ha).
    destruct (doc_objects d !! a) as [e|] eqn:He;
      [|by apply elem_of_nil in Hrun].
    apply (Helem a Ha). intros acc.
    apply (index_object_hit d a acc RefRun); [done| |].
    + exists run. split; [|done]. unfold doc_runs.
      apply list_elem_of_bind. exists a. by rewrite He.
    + by exists e, run.
Qed.

End Covers.

(** X13. A lookup by identifier, when the element index is empty before
    the call, finds an entry for every identifier that is not empty and is
    the identifier of a layout, a header, a footer, an element of a
    layout, a cell or a cell paragraph of such an element, or a run of the
    document. *)
Theorem get_element_by_id_complete (d : DocumentModel) (id : string)
    (ref : ElemRef) :
  _element_index d = ∅ → id ≠ "" → in_tree d ref → names d id ref →
  is_Some (get_element_by_id d (Some id)).2.
Proof.
  intros Hempty Hid Htree Hnames. unfold get_element_by_id.
  rewrite decide_True by done. simpl.
  by apply (build_element_index_complete id d ref).
Qed.

End ElementIndex.

(** ** The paragraph index *)

Section ParagraphIndex.
Context `{!PyLib}.

Lemma paragraph_index_loop (d : DocumentModel) (l : list loc)
    (index : gmap (option string) loc) (order : list (option string)) :
  let step := λ (acc : gmap (option string) loc * list (option string)) a,
    match doc_objects d !! a with
    | Some (EParagraph p) => (<[para_id p := a]> acc.1, acc.2 ++ [para_id p])
    | _ => acc
    end in
  let acc' := foldl step (index, order) l in
  acc'.2 = order ++ omap (paragraph_id_at d) l
  ∧ (∀ id, is_Some (acc'.1 !! id)
           ↔ is_Some (index !! id) ∨ id ∈ omap (paragraph_id_at d) l)
  ∧ (∀ id a, acc'.1 !! id = Some a →
       index !! id = Some a ∨ (a ∈ l ∧ paragraph_id_at d a = Some id)).
Proof.
  cbv zeta. revert index order.
  induction l as [|a l IH]; intros index order.
  - simpl. rewrite app_nil_r. split; [done|]. split; [|by left].
    intros id. split; [by left|]. intros [?|Hin]; [done|].
    by apply elem_of_nil in Hin.
  - assert (paragraph_id_at d a
            = match doc_objects d !! a with
              | Some (EParagraph p) => Some (para_id p)
              | _ => None
              end) as Hid by done.
    cbn [foldl omap list_omap]. rewrite Hid. clear Hid.
    destruct (doc_objects d !! a) as [[p|t]|] eqn:He.
    + destruct (IH (<[para_id p := a]> index) (order ++ [para_id p]))
        as (Horder & Hkeys & Hentries). clear IH. simpl in *.
      split; [by rewrite Horder, <- app_assoc|]. split.
      * intros id. rewrite Hkeys, elem_of_cons.
        destruct (decide (para_id p = id)) as [->|Hne].
        -- rewrite lookup_insert_eq. split; [by right; left|].
           intros _. left. by eexists.
        -- rewrite lookup_insert_ne by done. split.
           ++ intros [?|?]; [by left|by right; right].
           ++ intros [?|[?|?]]; [by left|done|by right].
      * intros id b Hb. destruct (Hentries id b Hb) as [Hins|[Hin Hid]].
        -- destruct (decide (para_id p = id)) as [Heq|Hne].
           ++ rewrite Heq, lookup_insert_eq in Hins. injection Hins as <-.
              right. split; [by left|]. unfold paragraph_id_at.
              by rewrite He, Heq.
           ++ rewrite lookup_insert_ne in Hins by done. by left.
        -- right. split; [by right|done].
    + destruct (IH index order) as (Horder & Hkeys & Hentries).
      split; [done|]. split; [done|].
      intros id b Hb. destruct (Hentries id b Hb) as [?|[? ?]];
        [by left|right]. split; [by right|done].
    + destruct (IH index order) as (Horder & Hkeys & Hentries).
      split; [done|]. split; [done|].
      intros id b Hb. destruct (Hentries id b Hb) as [?|[? ?]];
        [by left|right]. split; [by right|done].
Qed.

Lemma build_paragraph_index_entries (d : DocumentModel)
    (id : option string) :
  id ∈ _paragraph_order (_build_paragraph_index d) →
  ∃ a, _paragraph_index (_build_paragraph_index d) !! id = Some a
       ∧ is_Some (doc_objects (_build_paragraph_index d) !! a).
Proof.
  unfold _build_paragraph_index.
  pose proof (paragraph_index_loop d (iter_elements d) ∅ []) as Hloop.
  cbv zeta in Hloop. destruct (foldl _ _ _) as [index order].
  simpl in *. destruct Hloop as (Horder & Hkeys & Hentries).
  intros Hid. destruct (proj2 (Hkeys id)) as [a Ha]; [right; by rewrite <- Horder|].
  exists a. split; [done|].
  destruct (Hentries id a Ha) as [Hempty|[_ Hpara]];
    [by rewrite lookup_empty in Hempty|].
  unfold paragraph_id_at in Hpara.
  destruct (doc_objects d !! a); [by eexists|done].
Qed.

(** X14. The paragraph index as [_build_paragraph_index] builds it: the
    order lists the identifiers of the paragraphs among the elements of
    the document, in their order; the keys of the index are the
    identifiers of the order; every entry is an element of the document
    that is a paragraph with the key as identifier; the tree is left as it
    is. *)
Theorem build_paragraph_index_spec (d : DocumentModel) :
  let d' := _build_paragraph_index d in
  _paragraph_order d' = omap (paragraph_id_at d) (iter_elements d)
  ∧ (∀ id, id ∈ _paragraph_order d' ↔ is_Some (_paragraph_index d' !! id))
  ∧ (∀ id a, _paragraph_index d' !! id = Some a →
       a ∈ iter_elements d ∧ paragraph_id_at d a = Some id)
  ∧ layouts d' = layouts d ∧ doc_objects d' = doc_objects d.
Proof.
  cbv zeta. unfold _build_paragraph_index.
  pose proof (paragraph_index_loop d (iter_elements d) ∅ []) as Hloop.
  cbv zeta in Hloop. destruct (foldl _ _ _) as [index order].
  simpl in *. destruct Hloop as (Horder & Hkeys & Hentries).
  split; [done|]. split; [|split; [|done]].
  - intros id. rewrite Hkeys, Horder, lookup_empty. split; [by right|].
    by intros [[? ?]|?].
  - intros id a Ha. destruct (Hentries id a Ha) as [Hempty|?]; [|done].
    by rewrite lookup_empty in Hempty.
Qed.

(** The loop over the neighbours answers when every identifier it meets
    has an entry that is an object of the document. *)
Lemma first_text_total (d : DocumentModel) (ids : list (option string)) :
  Forall (λ id, ∃ a, _paragraph_index d !! id = Some a
                     ∧ is_Some (doc_objects d !! a)) ids →
  ∃ r, first_text d ids = Ok r.
Proof.
  induction 1 as [|id ids (a & Ha & [e He]) _ IH]; simpl; [by eexists|].
  rewrite Ha. simpl. rewrite He.
  destruct e as [p|t].
  - destruct (_ || _); [by eexists|].
    destruct (PyStr.nonempty _); [by eexists|done].
  - destruct (PyStr.nonempty _); [by eexists|done].
Qed.

Lemma list_index_lookup {A} `{EqDecision A} (x : A) (l : list A) (k : nat) :
  list_index x l = Some k → l !! k = Some x.
Proof.
  revert k. induction l as [|y l IH]; intros k; simpl; [done|].
  case_decide as Hy; [by intros [= <-]; subst|].
  destruct (list_index x l) as [j|]; [|done]. intros [= <-]. by apply IH.
Qed.

(** X15. On a document whose paragraph order is empty before the call
    (the paragraph index is then built from the tree), the lookups of the
    text after and of the text before a paragraph do not raise, whatever
    the identifier. *)
Theorem neighbour_texts_fresh (d : DocumentModel) (para_id : string) :
  _paragraph_order d = [] →
  (∃ r, (get_next_paragraph_text d para_id).2 = Ok r)
  ∧ (∃ r, (get_prev_paragraph_text d para_id).2 = Ok r).
Proof.
  intros Hfresh. unfold get_next_paragraph_text, get_prev_paragraph_text.
  rewrite Hfresh.
  set (d' := _build_paragraph_index d).
  assert (Forall (λ id, ∃ a, _paragraph_index d' !! id = Some a
                             ∧ is_Some (doc_objects d' !! a))
            (_paragraph_order d')) as Hall.
  { apply Forall_forall. intros id Hid.
    by apply build_paragraph_index_entries. }
  split.
  - destruct (list_index _ _) as [k|]; simpl; [|by eexists].
    apply first_text_total. by apply Forall_drop.
  - destruct (list_index _ _) as [k|]; simpl; [|by eexists].
    apply first_text_total. by apply Forall_reverse, Forall_take.
Qed.

End ParagraphIndex.

(** ** Tables, further *)

Section TableRows.
Context `{!PyLib}.

Lemma py_take_drop {A} (m : Z) (l : list A) : py_take m l ++ py_drop m l = l.
Proof. unfold py_take, py_drop. destruct (m <? 0); apply take_drop. Qed.

Lemma get_type_rows (t : TableModel) (ty : string) :
  get_type t = Ok ty → ∃ first rest, rows t = first :: rest.
Proof.
  unfold get_type, get_col_count. destruct (rows t) as [|first rest]; [done|].
  by eexists _, _.
Qed.

(** X16. The rows of a table that is not of keys and values: the header
    rows followed by the body rows are all the rows, in their order,
    whatever the row spans of the first row are (zero and negative ones
    too); the body count is the row count less the number of header
    rows. *)
Theorem get_rows_header_body (t : TableModel) (ty : string) :
  get_type t = Ok ty → ty ≠ "Keyvalue" →
  ∃ header body,
    get_rows t "header" = Ok header
    ∧ get_rows t "body" = Ok body
    ∧ get_rows t "all" = Ok (rows t)
    ∧ header ++ body = rows t
    ∧ get_body_count t = Ok (get_row_count t - Z.of_nat (length header)).
Proof.
  intros Hty Hkv. destruct (get_type_rows t ty Hty) as (first & rest & Hrows).
  unfold get_body_count, get_row_count, get_rows. rewrite Hrows, Hty. simpl.
  rewrite (proj2 (String.eqb_neq ty "Keyvalue")) by done. simpl.
  eexists _, _. split; [done|]. split; [done|]. split; [done|].
  split; [apply py_take_drop|].
  f_equal.
  pose proof (f_equal length (py_take_drop (max_rowspan first)
                                (first :: rest))) as Hlen.
  rewrite length_app in Hlen. simpl in *. lia.
Qed.

Lemma keyvalue_columns_spec (rs : list (list (option TableCellModel))) :
  keyvalue_columns rs
  = if forallb (λ row, 2 <=? length row)%nat rs
    then Ok ((λ row, (default None (row !! 0%nat),
                      default None (row !! 1%nat))) <$> rs)
    else Raise IndexError.
Proof.
  unfold keyvalue_columns.
  induction rs as [|row rs IH]; simpl; [done|].
  destruct row as [|h [|b row]]; simpl; [done..|].
  rewrite IH. by destruct (forallb _ rs).
Qed.

Lemma forallb_two_slots (rs : list (list (option TableCellModel))) :
  forallb (λ row, 2 <=? length row)%nat rs = true
  ↔ Forall (λ row, 2 ≤ length row)%nat rs.
Proof.
  rewrite forallb_forall, Forall_forall. split.
  - intros Hall row Hrow%list_elem_of_In. by apply Nat.leb_le, Hall.
  - intros Hall row Hrow%list_elem_of_In. by apply Nat.leb_le, Hall.
Qed.

(** X17. The rows of a table of keys and values. When every row has at
    least two slots, the header rows are one row, of the first slots of
    the rows, the body rows are one row, of their second slots, and the
    body count is 1. When some row has fewer than two slots, [get_rows]
    raises [IndexError], in every mode. *)
Theorem get_rows_keyvalue (t : TableModel) :
  get_type t = Ok "Keyvalue" →
  (Forall (λ row, 2 ≤ length row)%nat (rows t) →
   get_rows t "header" = Ok [(λ row, default None (row !! 0%nat)) <$> rows t]
   ∧ get_rows t "body" = Ok [(λ row, default None (row !! 1%nat)) <$> rows t]
   ∧ get_rows t "all" = Ok (rows t)
   ∧ get_body_count t = Ok 1)
  ∧ (¬ Forall (λ row, 2 ≤ length row)%nat (rows t) →
     ∀ mode, get_rows t mode = Raise IndexError).
Proof.
  intros Hty. destruct (get_type_rows t _ Hty) as (first & rest & Hrows).
  pose proof (keyvalue_columns_spec (rows t)) as Hcols.
  pose proof (forallb_two_slots (rows t)) as Hall.
  unfold get_body_count, get_rows. rewrite Hty.
  destruct (forallb _ (rows t)).
  - split; [|intros Hno; destruct Hno; by apply Hall].
    intros _. rewrite Hrows in *. simpl. rewrite Hcols. simpl.
    by rewrite <- !list_fmap_compose.
  - split; [intros Hyes%Hall; done|].
    intros _ mode. rewrite Hrows in *. simpl. by rewrite Hcols.
Qed.

End TableRows.

(** ** Tables from delimited text *)

Section DelimitedText.
Context `{!PyLib}.

Lemma split_on_cons (sep : ascii) (s : string) :
  ∃ piece rest, PyStr.split_on sep s = piece :: rest.
Proof.
  induction s as [|c s (piece & rest & IH)]; simpl; [by eexists _, _|].
  destruct (Ascii.eqb c sep); [by eexists _, _|].
  rewrite IH. by eexists _, _.
Qed.

Lemma get_type_unit_row (row : list (option TableCellModel))
    (rest : list (list (option TableCellModel))) :
  unit_row row →
  get_type (TableModel_new (row :: rest))
  = Ok (match length row with
        | 1%nat => "Layout"
        | 2%nat => "Keyvalue"
        | _ => "Unknown"
        end).
Proof.
  intros [Hne Hcells].
  assert (colspan_sum row = Z.of_nat (2 `min` length row)) as Hsum.
  { destruct Hcells as [|slot1 row1 [part1 ->] Hcells]; [done|].
    destruct Hcells as [|slot2 row2 [part2 ->] Hcells]; [done|].
    unfold colspan_sum. simpl. lia. }
  assert (length row ≠ 0%nat) as Hlen by by destruct row.
  unfold get_type, get_col_count. simpl. rewrite Hsum.
  remember (length row) as n. clear Heqn Hsum Hcells Hne.
  destruct n as [|[|[|n]]]; [done..|].
  destruct (Z.eqb_spec (Z.of_nat (S (S (S n)))) 1); [lia|].
  destruct (Z.eqb_spec
              (Z.of_nat (S (S (S n))) - Z.of_nat (2 `min` S (S (S n)))) 0);
    [lia|done].
Qed.

(** X18. The table that [_from_delimited_text] builds: no row is empty,
    every slot holds a cell of spans 1 around one paragraph of one plain
    run, and the table has no identifier yet. Its type, by [get_type], is
    read off the first non-blank line: a layout table for one column, a
    table of keys and values for two, unknown for more; with no non-blank
    line there is no row and [get_type] raises [IndexError]. *)
Theorem from_delimited_text_shape (text : string) :
  let t := table_from_delimited_text text in
  Forall unit_row (rows t)
  ∧ table_id t = None
  ∧ get_type t
    = match rows t with
      | [] => Raise IndexError
      | row :: _ =>
          Ok (match length row with
              | 1%nat => "Layout"
              | 2%nat => "Keyvalue"
              | _ => "Unknown"
              end)
      end.
Proof.
  cbv zeta. unfold table_from_delimited_text.
  set (lines := PyStr.strip <$> filter _ _). clearbody lines.
  assert (∀ (sep : ascii) (ls : list string),
    Forall unit_row
      ((λ line : string,
          (λ part, text_cell (PyStr.strip part) 1 1)
          <$> PyStr.split_on sep line) <$> ls)) as Hrows.
  { intros sep ls. apply Forall_fmap, Forall_true. intros line.
    unfold compose.
    destruct (split_on_cons sep line) as (piece & rest & ->).
    split; [done|]. apply Forall_fmap, Forall_true. intros part.
    unfold compose. by eexists. }
  destruct lines as [|first lines]; [by split|].
  split; [apply Hrows|]. split; [done|].
  specialize (Hrows (detect_delimiter first) (first :: lines)).
  simpl in *. apply Forall_cons in Hrows as [Hrow _].
  by apply get_type_unit_row.
Qed.

End DelimitedText.

(** ** Placeholders in a cell *)

Section CellPlaceholders.
Context `{!PyLib}.
Import PyStr.

Lemma cell_drop_first_none (paras : list ParagraphModel) (text : string) :
  Forall (λ p, ¬ substring_of text (para_to_text p "full")) paras →
  cell_drop_first paras text = (paras, false).
Proof.
  induction 1 as [|p paras Hp _ IH]; simpl; [done|].
  destruct (contains _ _) eqn:Hc; [by apply contains_spec in Hc|].
  by rewrite IH.
Qed.

Lemma cell_drop_first_found (before after : list ParagraphModel)
    (p : ParagraphModel) (text : string) :
  Forall (λ q, ¬ substring_of text (para_to_text q "full")) before →
  substring_of text (para_to_text p "full") →
  cell_drop_first (before ++ p :: after) text
  = (before ++ set_para_runs (drop_text (para_runs p) text) p :: after, true).
Proof.
  intros Hbefore Hp.
  induction Hbefore as [|q before Hq _ IH]; simpl.
  - by rewrite (proj2 (contains_spec _ _) Hp).
  - destruct (contains (para_to_text q "full") text) eqn:Hc;
      [by apply contains_spec in Hc|].
    by rewrite IH.
Qed.

(** X19. Deleting a placeholder text in a cell edits the first paragraph
    of the cell whose full text contains it, as
    [ParagraphModel.apply_deleted_placeholder] does, and no other
    paragraph; when no paragraph contains it the cell is left as it is
    and the flag is false. *)
Theorem cell_apply_deleted_first_paragraph (cell : TableCellModel)
    (ph : PlaceholderModel) :
  let absent p := ¬ substring_of (ph_text ph) (para_to_text p "full") in
  (Forall absent (cell_paragraphs cell) →
   cell_apply_deleted_placeholder cell ph = (cell, false))
  ∧ (∀ before p after,
       cell_paragraphs cell = before ++ p :: after →
       Forall absent before → ¬ absent p →
       cell_apply_deleted_placeholder cell ph
       = (set_cell_paragraphs
            (before ++ (para_apply_deleted_placeholder p ph).1 :: after)
            cell, true)).
Proof.
  cbv zeta. unfold cell_apply_deleted_placeholder. split.
  - intros Hnone. rewrite cell_drop_first_none by done. by destruct cell.
  - intros before p after -> Hbefore Hp.
    assert (substring_of (ph_text ph) (para_to_text p "full")) as Hin.
    { destruct (contains (para_to_text p "full") (ph_text ph)) eqn:Hc;
        [by apply contains_spec|].
      destruct Hp. intros Hsub%contains_spec. congruence. }
    rewrite cell_drop_first_found by done.
    unfold para_apply_deleted_placeholder.
    by rewrite (proj2 (contains_spec _ _) Hin).
Qed.

Lemma cell_replace_first_none (paras : list ParagraphModel)
    (ph : PlaceholderModel) (comment : option string) :
  Forall (λ p, ¬ substring_of (ph_text ph) (para_to_text p "full")) paras →
  cell_replace_first paras ph comment = Ok (paras, false).
Proof.
  induction 1 as [|p paras Hp _ IH]; simpl; [done|].
  destruct (contains _ _) eqn:Hc; [by apply contains_spec in Hc|].
  by rewrite IH.
Qed.

Lemma cell_replace_first_found (before after : list ParagraphModel)
    (p : ParagraphModel) (ph : PlaceholderModel) (comment : option string) :
  Forall (λ q, ¬ substring_of (ph_text ph) (para_to_text q "full")) before →
  substring_of (ph_text ph) (para_to_text p "full") →
  cell_replace_first (before ++ p :: after) ph comment
  = (runs ← replace_text (para_runs p) (ph_text ph)
              (default "" (ph_replaced_text ph)) comment;
     Ok (before ++ set_para_runs runs p :: after, true)).
Proof.
  intros Hbefore Hp.
  induction Hbefore as [|q before Hq _ IH]; simpl.
  - by rewrite (proj2 (contains_spec _ _) Hp).
  - destruct (contains (para_to_text q "full") (ph_text ph)) eqn:Hc;
      [by apply contains_spec in Hc|].
    rewrite IH. by destruct (replace_text _ _ _ _).
Qed.

(** X20. Replacing a placeholder text in a cell. Without a replacement
    text, or when no paragraph of the cell contains the placeholder text,
    the cell is left as it is and the flag is false. Otherwise the first
    paragraph whose full text contains it is edited as
    [ParagraphModel.apply_inline_placeholder] edits it, and no other
    paragraph; an exception of that edit is the exception of the call. *)
Theorem cell_apply_placeholder_first_paragraph (cell : TableCellModel)
    (ph : PlaceholderModel) :
  let absent p := ¬ substring_of (ph_text ph) (para_to_text p "full") in
  (truthy_str (ph_replaced_text ph) = false
   ∨ Forall absent (cell_paragraphs cell) →
   cell_apply_placeholder cell ph = Ok (cell, false))
  ∧ (∀ before p after,
       truthy_str (ph_replaced_text ph) = true →
       cell_paragraphs cell = before ++ p :: after →
       Forall absent before → ¬ absent p →
       cell_apply_placeholder cell ph
       = match para_apply_inline_placeholder p ph with
         | Ok (p', _) =>
             Ok (set_cell_paragraphs (before ++ p' :: after) cell, true)
         | Raise e => Raise e
         end).
Proof.
  cbv zeta. unfold cell_apply_placeholder. split.
  - destruct (truthy_str (ph_replaced_text ph)); simpl; [|done].
    intros [?|Hnone]; [done|].
    rewrite cell_replace_first_none by done. by destruct cell.
  - intros before p after Ht -> Hbefore Hp. rewrite Ht. simpl.
    assert (substring_of (ph_text ph) (para_to_text p "full")) as Hin.
    { destruct (contains (para_to_text p "full") (ph_text ph)) eqn:Hc;
        [by apply contains_spec|].
      destruct Hp. intros Hsub%contains_spec. congruence. }
    rewrite cell_replace_first_found by done.
    unfold para_apply_inline_placeholder.
    rewrite Ht, (proj2 (contains_spec _ _) Hin).
    simpl. by destruct (replace_text _ _ _ _).
Qed.

End CellPlaceholders.

(** ** Markup in and out *)

Section Markup.
Context `{!PyLib}.
Import PyStr PyStrFacts PyStrLists.

(** [html.escape]: the escaped text holds no quote and no angle bracket,
    and a text of characters that need no escape is left as it is. *)
Lemma html_escape_spec (s : string) :
  Forall markup_free (to_list (html_escape s))
  ∧ (Forall plain_char (to_list s) → html_escape s = s).
Proof.
  split.
  - induction s as [|c s IH]; [constructor|].
    cbn [html_escape]. rewrite to_list_append. apply Forall_app.
    split; [|done]. clear IH.
    repeat match goal with
           | |- context [(nat_of_ascii c =? ?n)%nat] =>
               destruct (Nat.eqb_spec (nat_of_ascii c) n) as [|?];
               [repeat constructor; intros Hin; vm_compute in Hin; lia|]
           end.
    repeat constructor. unfold markup_free. simpl. lia.
  - induction s as [|c s IH]; [done|].
    intros [Hc Hs]%Forall_cons. cbn [html_escape].
    rewrite (IH Hs). unfold plain_char in Hc. simpl in Hc.
    repeat match goal with
           | |- context [(nat_of_ascii c =? ?n)%nat] =>
               destruct (Nat.eqb_spec (nat_of_ascii c) n) as [|?]; [lia|]
           end.
    by rewrite append_cons, append_empty_l.
Qed.

(** X21. The rendering of a run that has a text and no formatting: one
    [span] around the escaped text. Whatever the text, no quote and no
    angle bracket of it reaches the markup, so the text cannot open or
    close a tag; a text of characters that need no escape is rendered as
    it is. *)
Theorem run_to_html_plain_text (t : string) :
  t ≠ "" →
  run_to_html (from_text t) = "<span>" +:+ html_escape t +:+ "</span>"
  ∧ Forall markup_free (to_list (html_escape t))
  ∧ (Forall plain_char (to_list t) →
     run_to_html (from_text t) = "<span>" +:+ t +:+ "</span>").
Proof.
  intros Hne%nonempty_true.
  assert (run_to_html (from_text t)
          = "<span>" +:+ html_escape t +:+ "</span>") as Hhtml.
  { unfold run_to_html. simpl. by rewrite Hne. }
  destruct (html_escape_spec t) as [Hfree Hplain].
  split; [done|]. split; [done|].
  intros Hchars. by rewrite Hhtml, (Hplain Hchars).
Qed.







End Markup.

(** ** The hierarchy builder, further *)

Section HierarchyEffects.
Context `{!PyLib}.

Lemma mapM_result_Forall2 {A B} (f : A → result B) (l : list A)
    (l' : list B) :
  mapM_result f l = Ok l' → Forall2 (λ x y, f x = Ok y) l l'.
Proof.
  revert l'. induction l as [|x l IH]; intros l'; simpl.
  - intros [= <-]. constructor.
  - destruct (f x) as [y|e] eqn:Hx; simpl; [|done].
    destruct (mapM_result f l) as [ys|e]; simpl; [|done].
    intros [= <-]. constructor; [done|]. by apply IH.
Qed.

Lemma bind_Forall2 {A B C} (R : A → B → Prop) (g : A → list C)
    (g' : B → list C) (l : list A) (l' : list B) :
  Forall2 R l l' → (∀ x y, R x y → g' y = g x) → l' ≫= g' = l ≫= g.
Proof.
  intros Hall Hg. induction Hall as [|x y l l' Hxy _ IH]; [done|].
  rewrite !bind_cons, IH. f_equal. by apply Hg.
Qed.

Lemma mark_intent_content (p p' : ParagraphModel) :
  mark_intent p = Ok p' →
  para_runs p' = para_runs p ∧ para_id p' = para_id p
  ∧ para_style p' = para_style p
  ∧ para_parent_ref_id p' = para_parent_ref_id p.
Proof.
  unfold mark_intent. destruct (classify_intent p) as [intent|e]; simpl;
    [|done].
  intros [= <-]. by repeat case_decide.
Qed.

Lemma mark_intent_rows_content (rs rs' : list (list (option TableCellModel))) :
  mark_intent_rows rs = Ok rs' →
  length rs' = length rs
  ∧ rs' ≫= (λ row, row ≫= λ slot, from_option cell_runs [] slot)
    = rs ≫= (λ row, row ≫= λ slot, from_option cell_runs [] slot).
Proof.
  unfold mark_intent_rows. intros Hrows%mapM_result_Forall2.
  split; [symmetry; by eapply Forall2_length|].
  apply (bind_Forall2 _ _ _ _ _ Hrows).
  intros row row' Hrow%mapM_result_Forall2.
  apply (bind_Forall2 _ _ _ _ _ Hrow).
  intros slot slot' Hslot.
  destruct slot as [cell|]; simpl in Hslot; [|done].
  destruct (mapM_result mark_intent (cell_paragraphs cell)) as [paras|e]
    eqn:Hparas; simpl in Hslot; [|done].
  injection Hslot as <-. simpl. unfold cell_runs. simpl.
  apply mapM_result_Forall2 in Hparas.
  apply (bind_Forall2 _ _ _ _ _ Hparas).
  intros p p' Hp. by apply mark_intent_content in Hp as (? & _).
Qed.

(** What one turn of the loop of [build_hierarchy] does. *)
Lemma hierarchy_step_effect (st st' : HierarchyState) (a : loc) :
  hierarchy_step st a = Ok st' →
  (∀ b, b ≠ a → hs_objects st' !! b = hs_objects st !! b)
  ∧ match hs_objects st !! a with
    | None => st' = st
    | Some e =>
        ∃ e', hs_objects st' !! a = Some e' ∧ same_content e e'
          ∧ match e with
            | EParagraph p =>
                if is_heading_style p
                then last_heading_id st' = para_id p
                else last_heading_id st' = last_heading_id st
                     ∧ element_parent_ref e' = last_heading_id st
            | ETable _ =>
                last_heading_id st' = last_heading_id st
                ∧ element_parent_ref e' = last_heading_id st
            end
    end.
Proof.
  unfold hierarchy_step.
  destruct (hs_objects st !! a) as [[p|t]|] eqn:Ha;
    [| |by intros [= <-]].
  - unfold is_heading_style.
    destruct (para_style p) as [s|] eqn:Hs; simpl; [|done].
    destruct (classify_style s) as [kind level]. simpl.
    destruct (bool_decide (kind = Some "heading")
              && negb (bool_decide (default 0 level = 0))).
    + intros [= <-]. simpl. split.
      * intros b Hb. by rewrite lookup_insert_ne.
      * eexists. rewrite lookup_insert_eq. split; [done|].
        split; [|done]. by repeat split.
    + case_decide.
      * intros [= <-]. simpl. split.
        -- intros b Hb. by rewrite lookup_insert_ne.
        -- eexists. rewrite lookup_insert_eq. split; [done|].
           split; [|done]. by repeat split.
      * destruct (mark_intent p) as [p'|e] eqn:Hmark; simpl; [|done].
        apply mark_intent_content in Hmark as (Hruns & Hid & Hstyle & _).
        intros [= <-]. simpl. split.
        -- intros b Hb. by rewrite lookup_insert_ne.
        -- eexists. rewrite lookup_insert_eq. split; [done|].
           split; [|done]. by repeat split.
  - match goal with
    | |- context [mark_intent_rows ?rs] =>
        destruct (mark_intent_rows rs) as [rs'|e] eqn:Hrows; simpl; [|done]
    end.
    intros [= <-]. simpl. split.
    + intros b Hb. by rewrite lookup_insert_ne.
    + eexists. rewrite lookup_insert_eq. split; [done|].
      assert (rows (if truthy_str (last_caption_id st)
                    then set_caption_ref_id (last_caption_id st)
                           (set_table_parent_ref_id (last_heading_id st) t)
                    else set_table_parent_ref_id (last_heading_id st) t)
              = rows t) as Hsame by by destruct (truthy_str _).
      rewrite Hsame in Hrows.
      apply mark_intent_rows_content in Hrows as [Hlen Hruns].
      split; [|by destruct (truthy_str _)].
      split; [by destruct (truthy_str _)|]. by split.
Qed.

Lemma option_same_content_refl (o : option ElementModel) :
  option_Forall2 same_content o o.
Proof.
  destruct o as [e|]; constructor. by destruct e.
Qed.

Lemma same_content_trans (e1 e2 e3 : ElementModel) :
  same_content e1 e2 → same_content e2 e3 → same_content e1 e3.
Proof.
  intros (Hid1 & Hruns1 & Hk1) (Hid2 & Hruns2 & Hk2).
  split; [congruence|]. split; [congruence|].
  destruct e1, e2, e3; try done; congruence.
Qed.

Lemma hierarchy_step_content (st st' : HierarchyState) (a b : loc) :
  hierarchy_step st a = Ok st' →
  option_Forall2 same_content (hs_objects st !! b) (hs_objects st' !! b).
Proof.
  intros [Hother Hsame]%hierarchy_step_effect.
  destruct (decide (b = a)) as [->|Hne].
  - destruct (hs_objects st !! a) as [e|] eqn:Ha.
    + destruct Hsame as (e' & -> & Hcontent & _). by constructor.
    + subst st'. rewrite Ha. constructor.
  - rewrite Hother by done. apply option_same_content_refl.
Qed.

Lemma hierarchy_loop_content (l : list loc) (st st' : HierarchyState)
    (b : loc) :
  foldl (λ (acc : result HierarchyState) a, st ← acc; hierarchy_step st a)
        (Ok st) l = Ok st' →
  option_Forall2 same_content (hs_objects st !! b) (hs_objects st' !! b).
Proof.
  revert st. induction l as [|a l IH]; intros st; simpl.
  - intros [= <-]. apply option_same_content_refl.
  - destruct (hierarchy_step st a) as [st1|e] eqn:Hstep;
      [|by rewrite fold_raise].
    intros Hfold. specialize (IH _ Hfold).
    pose proof (hierarchy_step_content _ _ _ b Hstep) as Hfirst.
    destruct Hfirst as [e1 e2 H12|]; inversion IH; subst; constructor.
    by eapply same_content_trans.
Qed.

(** X23. When [build_hierarchy] returns it has changed no identifier and
    no text: the layouts and the caches are what they were, and at every
    address there is an element after the call exactly when there was one
    before, of the same kind, with the same identifier, the same style
    and the same runs. *)
Theorem build_hierarchy_keeps_content (d d' : DocumentModel) :
  build_hierarchy d = Ok d' →
  layouts d' = layouts d
  ∧ _element_index d' = _element_index d
  ∧ paragraph_caches d' = paragraph_caches d
  ∧ ∀ a, option_Forall2 same_content (doc_objects d !! a)
           (doc_objects d' !! a).
Proof.
  unfold build_hierarchy.
  destruct (foldl _ _ _) as [st|e] eqn:Hfold; simpl; [|done].
  intros [= <-]. simpl. repeat split.
  intros a. by apply (hierarchy_loop_content _ _ _ a Hfold).
Qed.

(** *** The parent of a body element *)

Lemma hierarchy_loop_snoc (l : list loc) (a : loc) (st : HierarchyState) :
  foldl (λ (acc : result HierarchyState) a, st ← acc; hierarchy_step st a)
        (Ok st) (l ++ [a])
  = (foldl (λ (acc : result HierarchyState) a, st ← acc; hierarchy_step st a)
           (Ok st) l) ≫= λ st', hierarchy_step st' a.
Proof. by rewrite foldl_app. Qed.

Lemma last_heading_snoc (d : DocumentModel) (prefix : list loc) (a : loc) :
  last_heading d (prefix ++ [a])
  = match doc_objects d !! a with
    | Some (EParagraph p) =>
        if is_heading_style p then para_id p else last_heading d prefix
    | _ => last_heading d prefix
    end.
Proof. unfold last_heading. by rewrite foldl_app. Qed.

Lemma hierarchy_loop_parents (d : DocumentModel) (prefix : list loc)
    (st : HierarchyState) :
  NoDup prefix →
  foldl (λ (acc : result HierarchyState) a, st ← acc; hierarchy_step st a)
        (Ok {| hs_objects := doc_objects d; heading_stack := ∅;
               last_heading_id := None; last_caption_id := None |})
        prefix = Ok st →
  last_heading_id st = last_heading d prefix
  ∧ (∀ b, b ∉ prefix → hs_objects st !! b = doc_objects d !! b)
  ∧ (∀ i a e,
       prefix !! i = Some a → doc_objects d !! a = Some e → body_element e →
       element_parent_ref <$> hs_objects st !! a
       = Some (last_heading d (take i prefix))).
Proof.
  revert st. induction prefix as [|a prefix IH] using rev_ind; intros st'.
  - intros _ [= <-]. simpl. split; [done|]. split; [done|].
    intros i a e Hi. by rewrite lookup_nil in Hi.
  - intros (Hnodup & Ha & _)%NoDup_app.
    assert (a ∉ prefix) as Hfresh.
    { intros Hin. apply (Ha a Hin). by left. }
    rewrite hierarchy_loop_snoc.
    destruct (foldl _ _ prefix) as [st|e] eqn:Hfold; simpl; [|done].
    intros Hstep.
    destruct (IH st Hnodup eq_refl) as (Hlast & Hrest & Hdone). clear IH.
    apply hierarchy_step_effect in Hstep as [Hother Hsame].
    rewrite (Hrest a Hfresh) in Hsame.
    split; [|split].
    + rewrite last_heading_snoc.
      destruct (doc_objects d !! a) as [[p|t]|]; [| |by subst].
      * destruct Hsame as (e' & _ & _ & Hp).
        destruct (is_heading_style p); [done|]. destruct Hp. congruence.
      * destruct Hsame as (e' & _ & _ & Hp & _). congruence.
    + intros b [Hb Hba]%not_elem_of_app.
      assert (b ≠ a) as Hne by (intros ->; apply Hba; by left).
      destruct (doc_objects d !! a) as [e|].
      * rewrite Hother by done. by apply Hrest.
      * subst st'. by apply Hrest.
    + intros i b e Hi Hb Hbody.
      destruct (decide (i < length prefix)%nat) as [Hlt|Hge].
      * rewrite lookup_app_l in Hi by done.
        assert (b ≠ a) as Hne.
        { intros ->. apply Hfresh. by eapply list_elem_of_lookup_2. }
        rewrite take_app_le by lia.
        assert (hs_objects st' !! b = hs_objects st !! b) as ->.
        { destruct (doc_objects d !! a) as [e0|];
            [by apply Hother|by subst]. }
        by eapply Hdone.
      * rewrite lookup_app_r in Hi by lia.
        destruct (i - length prefix)%nat as [|k] eqn:Hk; [|done].
        injection Hi as <-. rewrite Hb in Hsame.
        assert (i = length prefix) as -> by lia.
        rewrite take_app_length.
        destruct Hsame as (e' & -> & _ & Hparent). simpl. f_equal.
        destruct e as [p|t]; simpl in Hbody.
        -- rewrite Hbody in Hparent. destruct Hparent. congruence.
        -- destruct Hparent. congruence.
Qed.

(** X24. In a document whose elements are at distinct addresses, when
    [build_hierarchy] returns, every element that is not a heading
    paragraph (a table, or a paragraph whose style does not classify as a
    heading of a level that is not 0) has as [parent_ref_id] the
    identifier of the last heading paragraph before it in the order of
    the document, and null when no heading comes before it. *)
Theorem build_hierarchy_body_parents (d d' : DocumentModel) (i : nat)
    (a : loc) (e : ElementModel) :
  build_hierarchy d = Ok d' → NoDup (iter_elements d) →
  iter_elements d !! i = Some a → doc_objects d !! a = Some e →
  body_element e →
  parent_ref_of d' a = Some (last_heading d (take i (iter_elements d))).
Proof.
  unfold build_hierarchy. intros Hbuild Hnodup Hi Ha Hbody.
  destruct (foldl _ _ _) as [st|err] eqn:Hfold; simpl in Hbuild; [|done].
  injection Hbuild as <-.
  destruct (hierarchy_loop_parents d _ st Hnodup Hfold) as (_ & _ & Hdone).
  specialize (Hdone i a e Hi Ha Hbody).
  unfold parent_ref_of. simpl.
  by destruct (hs_objects st !! a) as [[p|t]|].
Qed.

End HierarchyEffects.

(** ** Identifiers *)

Section Identifiers.
Context `{!PyLib}.

Lemma foldl_enum_snoc {A B} (f : A → nat → B → A) (a : A) (l : list B)
    (x : B) :
  foldl_enum f a (l ++ [x]) = f (foldl_enum f a l) (length l) x.
Proof.
  unfold foldl_enum. rewrite imap_app, foldl_app. simpl.
  by rewrite Nat.add_0_r.
Qed.

(** The loop over the elements of a layout. *)
Lemma elements_assign_ids_spec (objects : gmap loc ElementModel)
    (parent_id : string) (elems : list loc) :
  (Forall (λ a, is_Some (objects !! a)) elems →
   ∃ objs,
     elements_assign_ids objects parent_id elems = Ok objs
     ∧ (∀ b, is_Some (objs !! b) ↔ is_Some (objects !! b))
     ∧ (∀ b, b ∉ elems → objs !! b = objects !! b)
     ∧ (NoDup elems → ∀ i a e,
          elems !! i = Some a → objects !! a = Some e →
          objs !! a = Some (element_assign_ids parent_id i e)))
  ∧ (¬ Forall (λ a, is_Some (objects !! a)) elems →
     elements_assign_ids objects parent_id elems = Raise AttributeError).
Proof.
  unfold elements_assign_ids.
  induction elems as [|a elems IH] using rev_ind.
  - split; [|by intros []]. intros _. exists objects.
    split; [done|]. split; [done|]. split; [done|].
    intros _ i a e Hi. by rewrite lookup_nil in Hi.
  - rewrite foldl_enum_snoc. destruct IH as [IHok IHraise].
    destruct (decide (Forall (λ a, is_Some (objects !! a)) elems))
      as [Hall|Hnot].
    + destruct (IHok Hall) as (objs & -> & Hdom & Hrest & Hdone).
      clear IHok IHraise. simpl. split.
      * intros [_ [[e He] _]%Forall_cons]%Forall_app.
        destruct (proj2 (Hdom a) (mk_is_Some _ _ He)) as [e1 He1].
        rewrite He1. simpl. eexists. split; [done|].
        split; [|split].
        -- intros b. destruct (decide (b = a)) as [->|Hne].
           ++ rewrite lookup_insert_eq. split; by eexists.
           ++ by rewrite lookup_insert_ne.
        -- intros b [Hb Hba]%not_elem_of_app.
           rewrite lookup_insert_ne; [by apply Hrest|].
           intros ->. apply Hba. by left.
        -- intros (Hnodup & Ha & _)%NoDup_app i b e0 Hi Hb.
           assert (a ∉ elems) as Hfresh.
           { intros Hin. apply (Ha a Hin). by left. }
           destruct (decide (i < length elems)%nat) as [Hlt|Hge].
           ++ rewrite lookup_app_l in Hi by done.
              rewrite lookup_insert_ne; [by eapply Hdone|].
              intros ->. apply Hfresh. by eapply list_elem_of_lookup_2.
           ++ rewrite lookup_app_r in Hi by lia.
              destruct (i - length elems)%nat as [|k] eqn:Hk; [|done].
              injection Hi as <-. assert (i = length elems) as -> by lia.
              rewrite lookup_insert_eq.
              rewrite (Hrest a Hfresh), Hb in He1. by injection He1 as <-.
      * intros Hnone.
        destruct (objs !! a) as [e1|] eqn:He1; [|done].
        destruct Hnone. apply Forall_app. split; [done|].
        repeat constructor. apply Hdom. by eexists.
    + rewrite (IHraise Hnot). simpl. split; [|done].
      by intros [? _]%Forall_app.
Qed.

(** The loop over the layouts of a document. *)
Lemma layouts_assign_ids_spec (objects : gmap loc ElementModel)
    (id : string) (ls : list LayoutModel) :
  let loop :=
    foldl_enum
      (λ (acc : result (gmap loc ElementModel * list LayoutModel))
         i layout,
         st ← acc;
         r ← layout_assign_ids st.1 id i layout;
         Ok (r.1, st.2 ++ [r.2]))
      (Ok (objects, [])) ls in
  let els := ls ≫= layout_elements in
  (Forall (λ a, is_Some (objects !! a)) els →
   ∃ objs,
     loop = Ok (objs, imap (layout_own_ids id) ls)
     ∧ (∀ b, is_Some (objs !! b) ↔ is_Some (objects !! b))
     ∧ (∀ b, b ∉ els → objs !! b = objects !! b)
     ∧ (NoDup els → ∀ k layout i a e,
          ls !! k = Some layout → layout_elements layout !! i = Some a →
          objects !! a = Some e →
          objs !! a
          = Some (element_assign_ids (make_id id "layout" k) i e)))
  ∧ (¬ Forall (λ a, is_Some (objects !! a)) els →
     loop = Raise AttributeError).
Proof.
  cbv zeta. induction ls as [|layout ls IH] using rev_ind.
  - split; [|by intros []]. intros _. exists objects.
    split; [done|]. split; [done|]. split; [done|].
    intros _ k layout i a e Hk. by rewrite lookup_nil in Hk.
  - rewrite foldl_enum_snoc, bind_app, imap_app. simpl.
    rewrite app_nil_r, Nat.add_0_r. destruct IH as [IHok IHraise].
    destruct (decide (Forall (λ a, is_Some (objects !! a))
                        (ls ≫= layout_elements))) as [Hall|Hnot].
    + destruct (IHok Hall) as (objs & -> & Hdom & Hrest & Hdone).
      clear IHok IHraise. simpl. unfold layout_assign_ids.
      destruct (elements_assign_ids_spec objs
                  (make_id id "layout" (length ls)) (layout_elements layout))
        as [Hok Hraise].
      assert (Forall (λ a, is_Some (objs !! a)) (layout_elements layout)
              ↔ Forall (λ a, is_Some (objects !! a)) (layout_elements layout))
        as Hsame.
      { split; intros Hf; eapply Forall_impl; try exact Hf;
          intros a; apply Hdom. }
      split.
      * intros [_ Hlast]%Forall_app.
        destruct (Hok (proj2 Hsame Hlast))
          as (objs' & -> & Hdom' & Hrest' & Hdone').
        simpl. eexists. split; [done|]. split; [|split].
        -- intros b. by rewrite Hdom', Hdom.
        -- intros b [Hb Hbl]%not_elem_of_app.
           rewrite Hrest' by done. by apply Hrest.
        -- intros (Hnodup & Hdisj & Hnodup')%NoDup_app k l i a e Hk Hi Ha.
           destruct (decide (k < length ls)%nat) as [Hlt|Hge].
           ++ rewrite lookup_app_l in Hk by done.
              assert (a ∈ ls ≫= layout_elements) as Hin.
              { apply list_elem_of_bind. exists l.
                split; by eapply list_elem_of_lookup_2. }
              rewrite Hrest' by by apply Hdisj.
              by eapply Hdone.
           ++ rewrite lookup_app_r in Hk by lia.
              destruct (k - length ls)%nat as [|k'] eqn:Hk'; [|done].
              injection Hk as <-. assert (k = length ls) as -> by lia.
              apply (Hdone' Hnodup' i a e Hi).
              rewrite Hrest; [done|].
              intros Hin. apply (Hdisj a Hin).
              by eapply list_elem_of_lookup_2.
      * intros Hnone. rewrite Hraise; [done|].
        intros Hlast%Hsame. apply Hnone. by apply Forall_app.
    + rewrite (IHraise Hnot). simpl. split; [|done].
      by intros [? _]%Forall_app.
Qed.

Lemma assign_ids_unresolved (d : DocumentModel) (doc_index : Z) :
  ¬ Forall (λ a, is_Some (doc_objects d !! a)) (iter_elements d) →
  assign_ids d doc_index = Raise AttributeError.
Proof.
  unfold assign_ids, iter_elements. intros Hnot.
  destruct (layouts_assign_ids_spec (doc_objects d)
              ("doc::" +:+ pretty doc_index) (layouts d)) as [_ Hraise].
  cbv zeta in Hraise. by rewrite (Hraise Hnot).
Qed.

(** X25. [DocumentModel.assign_ids] raises exactly when a slot of a
    layout holds no element, and then it raises [AttributeError]; when
    every slot holds an element it returns, whatever the document
    index. *)
Theorem assign_ids_raises (d : DocumentModel) (doc_index : Z) :
  (Forall (λ a, is_Some (doc_objects d !! a)) (iter_elements d) →
   ∃ d', assign_ids d doc_index = Ok d')
  ∧ (¬ Forall (λ a, is_Some (doc_objects d !! a)) (iter_elements d) →
     assign_ids d doc_index = Raise AttributeError).
Proof.
  split; [|apply assign_ids_unresolved].
  unfold assign_ids, iter_elements.
  destruct (layouts_assign_ids_spec (doc_objects d)
              ("doc::" +:+ pretty doc_index) (layouts d)) as [Hok _].
  cbv zeta in Hok.
  intros Hall. destruct (Hok Hall) as (objs & -> & _). by eexists.
Qed.

(** X26. The identifiers that [DocumentModel.assign_ids] gives, in a
    document whose elements are at distinct addresses: the document is
    [doc::n]; the layout at position [k] gets the identifier of the
    document followed by [:layout::k], and keeps its elements; the
    element at position [i] of that layout is afterwards what
    [assign_ids] of its class makes of it under the identifier of the
    layout and the position [i], so its identifier is that of the layout
    followed by [:para::i] or [:table::i]; the caches are left as they
    are. *)
Theorem assign_ids_positions (d d' : DocumentModel) (doc_index : Z) :
  NoDup (iter_elements d) →
  assign_ids d doc_index = Ok d' →
  let id := "doc::" +:+ pretty doc_index in
  doc_id d' = Some id
  ∧ layouts d' = imap (layout_own_ids id) (layouts d)
  ∧ iter_elements d' = iter_elements d
  ∧ _element_index d' = _element_index d
  ∧ paragraph_caches d' = paragraph_caches d
  ∧ ∀ k layout i a e,
      layouts d !! k = Some layout → layout_elements layout !! i = Some a →
      doc_objects d !! a = Some e →
      layout_id <$> layouts d' !! k = Some (Some (make_id id "layout" k))
      ∧ doc_objects d' !! a
        = Some (element_assign_ids (make_id id "layout" k) i e)
      ∧ element_id (element_assign_ids (make_id id "layout" k) i e)
        = Some (make_id (make_id id "layout" k)
                  (match e with EParagraph _ => "para" | ETable _ => "table"
                   end) i).
Proof.
  intros Hnodup Hassign. cbv zeta.
  destruct (decide (Forall (λ a, is_Some (doc_objects d !! a))
                      (iter_elements d))) as [Hall|Hnot];
    [|by rewrite (assign_ids_unresolved d doc_index Hnot) in Hassign].
  unfold assign_ids, iter_elements in *.
  destruct (layouts_assign_ids_spec (doc_objects d)
              ("doc::" +:+ pretty doc_index) (layouts d)) as [Hok _].
  cbv zeta in Hok.
  destruct (Hok Hall) as (objs & Hloop & _ & _ & Hdone). clear Hok.
  rewrite Hloop in Hassign. simpl in Hassign. injection Hassign as <-.
  simpl. split; [done|]. split; [done|].
  split.
  { clear. induction (layouts d) as [|l ls IH] using rev_ind; [done|].
    by rewrite imap_app, !bind_app, IH. }
  split; [done|]. split; [done|].
  intros k layout i a e Hk Hi Ha. split; [|split].
  - rewrite list_lookup_imap, Hk. done.
  - by eapply Hdone.
  - by destruct e.
Qed.

End Identifiers.

(** ** The further properties at concrete inputs *)

Section ConcreteFurther.
#[local] Existing Instance RefLib.lib.
Import PyStr.

Lemma distinct_addresses : NoDup [1; 2]%positive.
Proof.
  apply NoDup_cons. split; [|apply NoDup_singleton].
  intros [Heq|Hin]%elem_of_cons; [discriminate|].
  by apply elem_of_nil in Hin.
Qed.

Lemma split_hello_contains : substring_of "Hello" (plain_text split_hello).
Proof. exists 0%nat, "", " World". split; reflexivity. Qed.

(** X2 at the run "Hello", split around its characters 1 and 2. *)
Lemma split_run_round_trip_witness :
  let r := from_text "Hello" in
  (0 ≤ 1 ∧ 1 ≤ 3 ∧ 3 ≤ len (run_text r))
  ∧ frag_text (split_run r 1 3).1.1 +:+ frag_text (split_run r 1 3).1.2
    +:+ frag_text (split_run r 1 3).2 = run_text r.
Proof.
  assert (3 ≤ len (run_text (from_text "Hello"))) as Hlen
    by (vm_compute; discriminate).
  split; [repeat split; (lia || exact Hlen)|].
  apply (split_run_round_trip (from_text "Hello") 1 3); (lia || exact Hlen).
Defined.

(** X3 at the text "Hello World" in two runs. *)
Lemma find_run_window_complete_witness :
  "Hello" ≠ ""
  ∧ (is_Some (find_run_window split_hello "Hello")
     ↔ substring_of "Hello" (plain_text split_hello)).
Proof.
  split; [discriminate|].
  apply (find_run_window_complete split_hello "Hello"). discriminate.
Defined.


(** X5 at the text "Hello World" in two runs. *)
Lemma drop_text_removes_one_occurrence_witness :
  "Hello" ≠ ""
  ∧ substring_of "Hello" (plain_text split_hello)
  ∧ ∃ pre post,
      plain_text split_hello = pre +:+ "Hello" +:+ post
      ∧ plain_text (drop_text split_hello "Hello") = pre +:+ post.
Proof.
  split; [discriminate|]. split; [exact split_hello_contains|].
  apply (drop_text_removes_one_occurrence split_hello "Hello");
    [discriminate|exact split_hello_contains].
Defined.

(** X6 at the paragraph "Hello World" and a deleted placeholder for
    "Hello". *)
Lemma para_apply_deleted_placeholder_text_witness :
  let ph := hello_placeholder true MATCHES_FOUND None in
  ph_text ph ≠ ""
  ∧ (let '(para', flag) :=
       para_apply_deleted_placeholder hello_paragraph ph in
     (flag = true
      ↔ substring_of (ph_text ph) (para_to_text hello_paragraph "full"))
     ∧ (flag = true →
        ∃ pre post,
          para_to_text hello_paragraph "full" = pre +:+ ph_text ph +:+ post
          ∧ para_to_text para' "full" = pre +:+ post)
     ∧ (flag = false → para' = hello_paragraph)
     ∧ para' = set_para_runs (para_runs para') hello_paragraph).
Proof.
  cbv zeta. split; [discriminate|].
  apply (para_apply_deleted_placeholder_text hello_paragraph
           (hello_placeholder true MATCHES_FOUND None)).
  discriminate.
Defined.


(** X8 at the text "Hello World" in two runs: the window of "Hello" is
    the two runs. *)
Lemma find_run_window_tight_witness :
  let win := {| start_run := 0; end_run := 2; char_start := 0;
                char_end := 5; merged_text := "Hello World" |} in
  ("Hello" ≠ "" ∧ find_run_window split_hello "Hello" = Some win)
  ∧ list_slice split_hello 0 2 ≠ []
  ∧ merged_text win = plain_text (list_slice split_hello 0 2)
  ∧ (∀ r rest, list_slice split_hello 0 2 = r :: rest →
       char_start win < len (run_text r))
  ∧ (∀ init r, list_slice split_hello 0 2 = init ++ [r] →
       len (plain_text init) < char_end win).
Proof.
  cbv zeta. split; [split; [discriminate|reflexivity]|].
  apply (find_run_window_tight split_hello "Hello"
           {| start_run := 0; end_run := 2; char_start := 0; char_end := 5;
              merged_text := "Hello World" |});
    [discriminate|reflexivity].
Defined.

(** X9 at the two-paragraph document and a placeholder that is neither
    deleted nor done. *)
Lemma apply_placeholders_idle_witness :
  let phs := [hello_placeholder false MATCHES_FOUND None] in
  Forall (λ ph, truthy_bool (ph_deleted ph) = false
                ∧ ph_status ph ≠ REPLACEMENT_DONE) phs
  ∧ apply_placeholders two_paragraphs phs
    = Ok (invalidate_index two_paragraphs).
Proof.
  cbv zeta.
  assert (Forall (λ ph, truthy_bool (ph_deleted ph) = false
                        ∧ ph_status ph ≠ REPLACEMENT_DONE)
            [hello_placeholder false MATCHES_FOUND None]) as Hidle
    by (repeat constructor; discriminate).
  split; [exact Hidle|].
  exact (apply_placeholders_idle two_paragraphs _ Hidle).
Defined.

(** X10 at the two-paragraph document, its paragraph index built, and the
    placeholder that replaces the second paragraph by a table. *)
Lemma apply_placeholders_cache_effect_witness :
  let d1 :=
    (get_next_paragraph_text two_paragraphs "doc::0:layout::0:para::0").1 in
  ∃ d2,
    ([table_placeholder] ≠ []
     ∧ apply_placeholders d1 [table_placeholder] = Ok d2)
    ∧ _element_index d2 = ∅
    ∧ _paragraph_index d2 = _paragraph_index d1
    ∧ _paragraph_order d2 = _paragraph_order d1.
Proof.
  cbv zeta.
  destruct (apply_placeholders
              (get_next_paragraph_text two_paragraphs
                 "doc::0:layout::0:para::0").1 [table_placeholder])
    as [d2|e] eqn:Happly.
  - exists d2. split; [split; [discriminate|reflexivity]|].
    apply (apply_placeholders_cache_effect _ _ [table_placeholder]);
      [discriminate|exact Happly].
  - exfalso.
    assert (match apply_placeholders
                    (get_next_paragraph_text two_paragraphs
                       "doc::0:layout::0:para::0").1 [table_placeholder]
            with Ok _ => true | Raise _ => false end = true) as Hok
      by (vm_compute; reflexivity).
    rewrite Happly in Hok. discriminate.
Defined.

(** X12 at the two-paragraph document and the identifier of its second
    paragraph. *)
Lemma get_element_by_id_sound_witness :
  let id := "doc::0:layout::0:para::1" in
  (_element_index two_paragraphs = ∅
   ∧ (get_element_by_id two_paragraphs (Some id)).2
     = Some (RefElement 2%positive))
  ∧ id ≠ "" ∧ names two_paragraphs id (RefElement 2%positive)
  ∧ layouts (get_element_by_id two_paragraphs (Some id)).1
    = layouts two_paragraphs
  ∧ doc_objects (get_element_by_id two_paragraphs (Some id)).1
    = doc_objects two_paragraphs.
Proof.
  cbv zeta.
  assert ((get_element_by_id two_paragraphs
             (Some "doc::0:layout::0:para::1")).2
          = Some (RefElement 2%positive)) as Hfound
    by (vm_compute; reflexivity).
  split; [split; [reflexivity|exact Hfound]|].
  exact (get_element_by_id_sound two_paragraphs _ _ eq_refl Hfound).
Defined.

(** X13 at the two-paragraph document and the identifier of its second
    paragraph. *)
Lemma get_element_by_id_complete_witness :
  let id := "doc::0:layout::0:para::1" in
  (_element_index two_paragraphs = ∅ ∧ id ≠ ""
   ∧ in_tree two_paragraphs (RefElement 2%positive)
   ∧ names two_paragraphs id (RefElement 2%positive))
  ∧ is_Some (get_element_by_id two_paragraphs (Some id)).2.
Proof.
  cbv zeta.
  assert (in_tree two_paragraphs (RefElement 2%positive)) as Htree
    by (right; left).
  assert (names two_paragraphs "doc::0:layout::0:para::1"
            (RefElement 2%positive)) as Hnames by reflexivity.
  split; [split; [reflexivity|split; [discriminate|by split]]|].
  apply (get_element_by_id_complete two_paragraphs _
           (RefElement 2%positive)); [reflexivity|discriminate|done..].
Defined.

(** X15 at the two-paragraph document, before any cache is built. *)
Lemma neighbour_texts_fresh_witness :
  let id := "doc::0:layout::0:para::0" in
  _paragraph_order two_paragraphs = []
  ∧ (∃ r, (get_next_paragraph_text two_paragraphs id).2 = Ok r)
  ∧ (∃ r, (get_prev_paragraph_text two_paragraphs id).2 = Ok r).
Proof.
  cbv zeta. split; [reflexivity|].
  apply (neighbour_texts_fresh two_paragraphs). reflexivity.
Defined.

(** X16 at a table of two rows of three columns. *)
Lemma get_rows_header_body_witness :
  (get_type three_columns = Ok "Unknown" ∧ "Unknown" ≠ "Keyvalue")
  ∧ ∃ header body,
      get_rows three_columns "header" = Ok header
      ∧ get_rows three_columns "body" = Ok body
      ∧ get_rows three_columns "all" = Ok (rows three_columns)
      ∧ header ++ body = rows three_columns
      ∧ get_body_count three_columns
        = Ok (get_row_count three_columns - Z.of_nat (length header)).
Proof.
  split; [split; [reflexivity|discriminate]|].
  apply (get_rows_header_body three_columns "Unknown");
    [reflexivity|discriminate].
Defined.

(** X17 at the table of one row of two columns. *)
Lemma get_rows_keyvalue_witness :
  get_type two_columns = Ok "Keyvalue"
  ∧ Forall (λ row, 2 ≤ length row)%nat (rows two_columns)
  ∧ get_rows two_columns "header" = Ok [[text_cell "key" 1 1]]
  ∧ get_rows two_columns "body" = Ok [[text_cell "value" 1 1]]
  ∧ get_body_count two_columns = Ok 1.
Proof.
  assert (Forall (λ row, 2 ≤ length row)%nat (rows two_columns)) as Hrows
    by (repeat constructor).
  split; [reflexivity|]. split; [exact Hrows|].
  destruct (get_rows_keyvalue two_columns eq_refl) as [Hok _].
  destruct (Hok Hrows) as (Hheader & Hbody & _ & Hcount).
  split; [exact Hheader|]. split; [exact Hbody|exact Hcount].
Defined.

(** X23 at the document of five headings. *)
Lemma build_hierarchy_keeps_content_witness :
  ∃ d', build_hierarchy five_headings = Ok d'
    ∧ layouts d' = layouts five_headings
    ∧ _element_index d' = _element_index five_headings
    ∧ paragraph_caches d' = paragraph_caches five_headings
    ∧ ∀ a, option_Forall2 same_content (doc_objects five_headings !! a)
             (doc_objects d' !! a).
Proof.
  destruct (build_hierarchy five_headings) as [d'|e] eqn:Hbuild.
  - exists d'. split; [reflexivity|].
    exact (build_hierarchy_keeps_content _ _ Hbuild).
  - exfalso.
    assert (match build_hierarchy five_headings
            with Ok _ => true | Raise _ => false end = true) as Hok
      by (vm_compute; reflexivity).
    rewrite Hbuild in Hok. discriminate.
Defined.

(** X24 at the document of a heading and a body paragraph. *)
Lemma build_hierarchy_body_parents_witness :
  let e := EParagraph (sample_paragraph "p1" "Normal" "text") in
  ∃ d',
    (build_hierarchy heading_and_body = Ok d'
     ∧ NoDup (iter_elements heading_and_body)
     ∧ iter_elements heading_and_body !! 1%nat = Some 2%positive
     ∧ doc_objects heading_and_body !! 2%positive = Some e
     ∧ body_element e)
    ∧ parent_ref_of d' 2%positive = Some (Some "h1").
Proof.
  cbv zeta.
  assert (NoDup (iter_elements heading_and_body)) as Hnodup
    by exact distinct_addresses.
  assert (body_element
            (EParagraph (sample_paragraph "p1" "Normal" "text"))) as Hbody
    by (vm_compute; reflexivity).
  destruct (build_hierarchy heading_and_body) as [d'|e] eqn:Hbuild.
  - exists d'.
    split;
      [split; [reflexivity|split; [exact Hnodup|split; [reflexivity|
               split; [reflexivity|exact Hbody]]]]|].
    exact (build_hierarchy_body_parents heading_and_body d' 1 2%positive _
             Hbuild Hnodup eq_refl eq_refl Hbody).
  - exfalso.
    assert (match build_hierarchy heading_and_body
            with Ok _ => true | Raise _ => false end = true) as Hok
      by (vm_compute; reflexivity).
    rewrite Hbuild in Hok. discriminate.
Defined.

(** X26 at the two-paragraph document. *)
Lemma assign_ids_positions_witness :
  ∃ d',
    (NoDup (iter_elements two_paragraphs)
     ∧ assign_ids two_paragraphs 0 = Ok d')
    ∧ doc_id d' = Some "doc::0"
    ∧ (layout_id <$> layouts d' !! 0%nat) = Some (Some "doc::0:layout::0")
    ∧ (element_id <$> doc_objects d' !! 2%positive)
      = Some (Some "doc::0:layout::0:para::1").
Proof.
  assert (NoDup (iter_elements two_paragraphs)) as Hnodup
    by exact distinct_addresses.
  destruct (assign_ids two_paragraphs 0) as [d'|e] eqn:Hassign.
  - exists d'. split; [split; [exact Hnodup|reflexivity]|].
    destruct (assign_ids_positions _ _ _ Hnodup Hassign)
      as (Hdoc & _ & _ & _ & _ & Hel).
    split; [exact Hdoc|].
    destruct (Hel 0%nat (sample_layout "doc::0:layout::0" [1; 2]%positive)
                1%nat 2%positive
                (EParagraph (sample_paragraph "doc::0:layout::0:para::1"
                               "Normal" "Figures"))
                eq_refl eq_refl eq_refl) as (Hlayout & Hobj & Hid).
    split; [exact Hlayout|].
    exact (eq_trans (f_equal (fmap element_id) Hobj) (f_equal Some Hid)).
  - exfalso.
    assert (match assign_ids two_paragraphs 0
            with Ok _ => true | Raise _ => false end = true) as Hok
      by (vm_compute; reflexivity).
    rewrite Hassign in Hok. discriminate.
Defined.

(** X27 at a header and a footer with the text "Hello World" and a deleted
    placeholder for "Hello". *)
Lemma header_footer_deleted_placeholder_witness :
  let ph := hello_placeholder true MATCHES_FOUND None in
  ph_text ph ≠ ""
  ∧ (let '(h', flag) := header_apply_deleted_placeholder hello_header ph in
     (flag = true
      ↔ substring_of (ph_text ph) (plain_text (header_runs hello_header)))
     ∧ (flag = true →
        ∃ pre post,
          plain_text (header_runs hello_header)
          = pre +:+ ph_text ph +:+ post
          ∧ plain_text (header_runs h') = pre +:+ post)
     ∧ (flag = false → h' = hello_header)
     ∧ header_id h' = header_id hello_header
     ∧ header_type h' = header_type hello_header)
  ∧ (let '(f', flag) := footer_apply_deleted_placeholder hello_footer ph in
     (flag = true
      ↔ substring_of (ph_text ph) (plain_text (footer_runs hello_footer)))
     ∧ (flag = true →
        ∃ pre post,
          plain_text (footer_runs hello_footer)
          = pre +:+ ph_text ph +:+ post
          ∧ plain_text (footer_runs f') = pre +:+ post)
     ∧ (flag = false → f' = hello_footer)
     ∧ footer_id f' = footer_id hello_footer
     ∧ footer_type f' = footer_type hello_footer).
Proof.
  cbv zeta. split; [discriminate|].
  apply (header_footer_deleted_placeholder hello_header hello_footer
           (hello_placeholder true MATCHES_FOUND None)).
  discriminate.
Defined.

(** X28 at the two-paragraph document and the placeholder that replaces
    its second paragraph by a table. *)
Lemma apply_placeholders_table_swap_witness :
  let id := "doc::0:layout::0:para::1" in
  let p := sample_paragraph id "Normal" "Figures" in
  let t := table_from_delimited_text "a,b" in
  (truthy_bool (ph_deleted table_placeholder) = false
   ∧ ph_status table_placeholder = REPLACEMENT_DONE
   ∧ ph_future_element table_placeholder = FUTURE_TABLE
   ∧ truthy_str (ph_replaced_text table_placeholder) = true
   ∧ ph_element_id table_placeholder = Some id
   ∧ _element_index (_build_element_index two_paragraphs) !! id
     = Some (RefElement 2%positive)
   ∧ doc_objects two_paragraphs !! 2%positive = Some (EParagraph p)
   ∧ table_from_html_or_text
       (default "" (ph_replaced_text table_placeholder)) = Ok t)
  ∧ apply_placeholders two_paragraphs [table_placeholder]
    = match
        _apply_replacement (_build_element_index two_paragraphs)
          {| old_element_id := para_id p;
             new_elements :=
               [ETable
                  (set_table_parent_ref_id (para_parent_ref_id p) t)] |}
      with
      | Ok d' => Ok (invalidate_index d')
      | Raise e => Raise e
      end.
Proof.
  cbv zeta.
  assert (_element_index (_build_element_index two_paragraphs)
            !! "doc::0:layout::0:para::1" = Some (RefElement 2%positive))
    as Hentry by (vm_compute; reflexivity).
  assert (table_from_html_or_text
            (default "" (ph_replaced_text table_placeholder))
          = Ok (table_from_delimited_text "a,b")) as Htable by reflexivity.
  split.
  - do 5 (split; [reflexivity|]). split; [exact Hentry|].
    split; [reflexivity|exact Htable].
  - exact (apply_placeholders_table_swap two_paragraphs table_placeholder
             "doc::0:layout::0:para::1" 2%positive
             (sample_paragraph "doc::0:layout::0:para::1" "Normal" "Figures")
             (table_from_delimited_text "a,b")
             eq_refl eq_refl eq_refl eq_refl eq_refl Hentry eq_refl Htable).
Defined.

(** X21 at the text "a<b". *)
Lemma run_to_html_plain_text_witness :
  "a<b" ≠ ""
  ∧ run_to_html (from_text "a<b")
    = "<span>" +:+ html_escape "a<b" +:+ "</span>"
  ∧ Forall markup_free (to_list (html_escape "a<b"))
  ∧ (Forall plain_char (to_list "a<b") →
     run_to_html (from_text "a<b") = "<span>" +:+ "a<b" +:+ "</span>").
Proof.
  split; [discriminate|].
  apply (run_to_html_plain_text "a<b"). discriminate.
Defined.

(** X29 at the two-paragraph document and a deleted placeholder for the
    text of its second paragraph. *)
Lemma apply_placeholders_deleted_paragraph_witness :
  let id := "doc::0:layout::0:para::1" in
  let p := sample_paragraph id "Normal" "Figures" in
  (truthy_bool (ph_deleted deleted_figures) = true
   ∧ ph_element_id deleted_figures = Some id
   ∧ _element_index (_build_element_index two_paragraphs) !! id
     = Some (RefElement 2%positive)
   ∧ doc_objects two_paragraphs !! 2%positive = Some (EParagraph p))
  ∧ ∃ d',
      apply_placeholders two_paragraphs [deleted_figures] = Ok d'
      ∧ layouts d' = layouts two_paragraphs
      ∧ _element_index d' = ∅
      ∧ paragraph_caches d' = paragraph_caches two_paragraphs
      ∧ doc_objects d'
        = <[2%positive :=
              EParagraph (para_apply_deleted_placeholder p deleted_figures).1]>
            (doc_objects two_paragraphs).
Proof.
  cbv zeta.
  assert (_element_index (_build_element_index two_paragraphs)
            !! "doc::0:layout::0:para::1" = Some (RefElement 2%positive))
    as Hentry by (vm_compute; reflexivity).
  split.
  - do 2 (split; [reflexivity|]). split; [exact Hentry|reflexivity].
  - exact (apply_placeholders_deleted_paragraph two_paragraphs
             deleted_figures "doc::0:layout::0:para::1" 2%positive
             (sample_paragraph "doc::0:layout::0:para::1" "Normal" "Figures")
             eq_refl eq_refl Hentry eq_refl).
Defined.

End ConcreteFurther.
